(** * Opening-range breakout bot: entry search, risk and exit-management model

    A shallow embedding of [app_files/bot_kite.py] (class [KiteApp]), of
    [KiteService.calculate_vwap] of [app_files/kite_service.py] and of the
    constants of [app_files/config.py].

    Conventions of the embedding.
    - Python [float] prices and amounts are rationals ([Q]); arithmetic is
      exact, comparisons are the boolean tests [Qle_bool] / [Qltb].
    - Share quantities are integers ([Z]); Python's [int(x)] on a float is
      truncation toward zero ([py_int]).
    - Results of the broker and market-data collaborators (quotes, ATR
      values, order ids) are inputs of each step: an order that fails is
      [false], a missing quote or ATR is [None].
    - Python truthiness ([x if x else y], [if x:]) is written out. *)

From Stdlib Require Import ZArith QArith Qround Qabs Qminmax Lqa Lia List Bool.
From stdpp Require Import gmap strings.
Import ListNotations.

(** ** Python numerics *)

Module Py.

(** [a < b] on floats. *)
Definition Qltb (a b : Q) : bool := negb (Qle_bool b a).

(** [int(x)] for a float [x]: truncation toward zero. *)
Definition py_int (x : Q) : Z := Z.quot (Qnum x) (Z.pos (Qden x)).

(** Truthiness of a float: [0.0] is falsy. *)
Definition truthy (x : Q) : bool := negb (Qeq_bool x 0).

(** Truthiness of an optional float ([None] and [0.0] are falsy). *)
Definition truthy_opt (x : option Q) : bool :=
  match x with Some v => truthy v | None => false end.

(** Truthiness of an int. *)
Definition truthyZ (n : Z) : bool := negb (n =? 0)%Z.

(** [sum(xs)] over floats. *)
Definition py_sum (xs : list Q) : Q := fold_left Qplus xs 0%Q.

End Py.
Export Py.

(** ** Sides *)

Inductive Side := BUY | SELL.

Definition Side_eqb (a b : Side) : bool :=
  match a, b with BUY, BUY | SELL, SELL => true | _, _ => false end.

(** ** config.py *)

Record Config := {
  LEVERAGE : Q;
  USE_LEVERAGE_IN_SIZING : bool;
  MARGIN_UTILIZATION : Q;
  USE_RETEST_ENTRY : bool;
  RETEST_MAX_CANDLES : Z;
  RETEST_ZONE_PCT : Q;
  USE_LIQUIDITY_FILTER : bool;
  USE_VOLUME_FILTER : bool;
  VOLUME_MULTIPLIER : Q;
  VOLUME_LOOKBACK_CANDLES : Z;
  USE_TIME_OF_DAY_VOLUME : bool;
  VOLUME_EARLY_MULT : Q;
  VOLUME_MID_MULT : Q;
  VOLUME_LATE_MULT : Q;
  VOLUME_CLOSE_MULT : Q;
  USE_NIFTY_FILTER : bool;
  USE_NIFTY_SOFT_BIAS : bool;
  NIFTY_STRONG_THRESHOLD_PCT : Q;
  USE_TREND_FILTER : bool;
  DYNAMIC_SL_BUFFER : Q;
  USE_ATR_TRAILING_EXIT : bool;
  ATR_TRAIL_MULTIPLIER : Q;
  ATR_TRAIL_START_R : Q;
  USE_PARTIAL_BOOKING : bool;
  PARTIAL_BOOKING_FIRST_CLOSE_PCT : Q;
  PARTIAL_BOOKING_FIRST_TARGET_R : Q;
  PARTIAL_BOOKING_SECOND_CLOSE_PCT : Q;
  PARTIAL_BOOKING_SECOND_TARGET_R : Q;
  PARTIAL_BOOKING_EOD_CLOSE_PCT : Q;
  STOPLOSS_DISTANCE_FACTOR : Q;
  USE_DAILY_LOSS_LIMIT : bool;
  DAILY_LOSS_LIMIT_PCT : Q;
  AUTO_SHUTDOWN_ON_LOSS_LIMIT : bool;
  PROFIT_TARGET_IS_RATIO : bool;   (* PROFIT_TARGET_TYPE == "ratio" *)
  PROFIT_TARGET_RATIO : Q;
  MAX_TRADES_PER_SYMBOL : Z;
  MAX_TRADES_PER_DAY_PORTFOLIO : Z
}.

(** The values of [config.py]. *)
Definition config : Config := {|
  LEVERAGE := 5;
  USE_LEVERAGE_IN_SIZING := true;
  MARGIN_UTILIZATION := 50 # 100;
  USE_RETEST_ENTRY := true;
  RETEST_MAX_CANDLES := 3;
  RETEST_ZONE_PCT := 8 # 100;
  USE_LIQUIDITY_FILTER := true;
  USE_VOLUME_FILTER := true;
  VOLUME_MULTIPLIER := 15 # 10;
  VOLUME_LOOKBACK_CANDLES := 20;
  USE_TIME_OF_DAY_VOLUME := true;
  VOLUME_EARLY_MULT := 12 # 10;
  VOLUME_MID_MULT := 1;
  VOLUME_LATE_MULT := 8 # 10;
  VOLUME_CLOSE_MULT := 9 # 10;
  USE_NIFTY_FILTER := true;
  USE_NIFTY_SOFT_BIAS := true;
  NIFTY_STRONG_THRESHOLD_PCT := 25 # 100;
  USE_TREND_FILTER := true;
  DYNAMIC_SL_BUFFER := 5 # 100;
  USE_ATR_TRAILING_EXIT := true;
  ATR_TRAIL_MULTIPLIER := 12 # 10;
  ATR_TRAIL_START_R := 15 # 10;
  USE_PARTIAL_BOOKING := true;
  PARTIAL_BOOKING_FIRST_CLOSE_PCT := 25 # 100;
  PARTIAL_BOOKING_FIRST_TARGET_R := 5 # 10;
  PARTIAL_BOOKING_SECOND_CLOSE_PCT := 50 # 100;
  PARTIAL_BOOKING_SECOND_TARGET_R := 1;
  PARTIAL_BOOKING_EOD_CLOSE_PCT := 25 # 100;
  STOPLOSS_DISTANCE_FACTOR := 5 # 10;
  USE_DAILY_LOSS_LIMIT := true;
  DAILY_LOSS_LIMIT_PCT := 2 # 100;
  AUTO_SHUTDOWN_ON_LOSS_LIMIT := true;
  PROFIT_TARGET_IS_RATIO := true;
  PROFIT_TARGET_RATIO := 2;
  MAX_TRADES_PER_SYMBOL := 999;
  MAX_TRADES_PER_DAY_PORTFOLIO := 999
|}.

(** ** RiskEngine: initial stop and distance factor *)

Module RiskEngine.

(** [apply_stoploss_distance_factor(entry_price, sl_price, side)] *)
Definition apply_stoploss_distance_factor
    (cfg : Config) (entry_price sl_price : Q) (side : Side) : Q :=
  let factor := STOPLOSS_DISTANCE_FACTOR cfg in
  if Qle_bool 1 factor then sl_price
  else
    let risk_distance := Qabs (entry_price - sl_price) in
    let new_risk_distance := (risk_distance * factor)%Q in
    match side with
    | BUY => (entry_price - new_risk_distance)%Q
    | SELL => (entry_price + new_risk_distance)%Q
    end.

(** [calculate_dynamic_sl(side, vwap, h_5, l_5)] *)
Definition calculate_dynamic_sl
    (cfg : Config) (side : Side) (vwap h_5 l_5 : Q) : Q :=
  match side with
  | BUY =>
      let buffer := DYNAMIC_SL_BUFFER cfg in
      let structural_sl := (l_5 - buffer)%Q in
      Qmin structural_sl vwap
  | SELL =>
      let buffer := DYNAMIC_SL_BUFFER cfg in
      let structural_sl := (h_5 + buffer)%Q in
      Qmax structural_sl vwap
  end.

(** The candidate of [a], [b] that is closer to [entry] (the tighter stop);
    [a] on a tie. *)
Definition closer_to (entry a b : Q) : Q :=
  if Qle_bool (Qabs (entry - a)) (Qabs (entry - b)) then a else b.

End RiskEngine.


(** ** The bot instance and the locals of the monitoring loop *)

Module Bot.

Inductive TradeResult := WIN | LOSS.

(** Orders handed to the broker collaborator, most recent first.  [ok] tells
    whether the broker returned an order id. *)
Inductive BrokerEvent :=
| ClosePosition (qty : Z) (exit_price : Q) (ok : bool)
| StoplossOrder (qty : Z) (trigger : Q) (ok : bool).

(** One entry of a list of broker positions. *)
Record Position := {
  tradingsymbol : string;
  pos_quantity : Z
}.

(** The answer of [self.kite.get_positions()]: the dict of the broker, which
    maps ['net'] and ['day'] to lists of positions;
    [KiteService.get_positions] itself answers [{"net": [], "day": []}] when
    the call fails.  Keys are kept in their order. *)
Definition Positions := list (string * list Position).

(** The [trade] dict as it is when appended to [self.trades]: by then
    ['exit_price'] and ['pnl'] hold numbers. *)
Record ClosedTrade := {
  t_entry_side : Side;
  t_entry_price : Q;
  t_entry_qty : Z;
  t_exit_price : Q;
  t_exit_qty : Z;
  t_sl_price : Q;
  t_pnl : Q;
  t_trade_number : Z
}.

(** Attributes of [self] read or written by the exit logic, followed by the
    mutable locals of [run_daily_trading_session]'s monitoring loop (assigned
    by [begin_trade] before the loop reads them).  [remaining_quantity = None]
    is represented by [0]: every read goes through a truthiness test. *)
Record St := mkSt {
  should_stop : bool;
  trades : list ClosedTrade;
  trades_today : list ClosedTrade;
  starting_balance : option Q;
  account_balance : option Q;
  daily_pnl : Q;
  daily_loss_pct : Q;
  remaining_quantity : Z;
  sl_moved_to_breakeven : bool;
  partial_booked_75pct : bool;
  sl_moved_to_entry_after_2r : bool;
  sl_order_id : option Z;
  trade1_result : option TradeResult;
  sl_price : Q;
  last_price : Q;
  first_partial_booked : bool;
  second_partial_booked : bool;
  realized_pnl : Q;
  broker : list BrokerEvent
}.

Definition set_should_stop (v : bool) (s : St) : St :=
  mkSt v (trades s) (trades_today s) (starting_balance s) (account_balance
    s) (daily_pnl s) (daily_loss_pct s) (remaining_quantity s)
    (sl_moved_to_breakeven s) (partial_booked_75pct s)
    (sl_moved_to_entry_after_2r s) (sl_order_id s) (trade1_result s)
    (sl_price s) (last_price s) (first_partial_booked s)
    (second_partial_booked s) (realized_pnl s) (broker s).
Definition set_trades (v : list ClosedTrade) (s : St) : St :=
  mkSt (should_stop s) v (trades_today s) (starting_balance s)
    (account_balance s) (daily_pnl s) (daily_loss_pct s) (remaining_quantity
    s) (sl_moved_to_breakeven s) (partial_booked_75pct s)
    (sl_moved_to_entry_after_2r s) (sl_order_id s) (trade1_result s)
    (sl_price s) (last_price s) (first_partial_booked s)
    (second_partial_booked s) (realized_pnl s) (broker s).
Definition set_trades_today (v : list ClosedTrade) (s : St) : St :=
  mkSt (should_stop s) (trades s) v (starting_balance s) (account_balance s)
    (daily_pnl s) (daily_loss_pct s) (remaining_quantity s)
    (sl_moved_to_breakeven s) (partial_booked_75pct s)
    (sl_moved_to_entry_after_2r s) (sl_order_id s) (trade1_result s)
    (sl_price s) (last_price s) (first_partial_booked s)
    (second_partial_booked s) (realized_pnl s) (broker s).
Definition set_starting_balance (v : option Q) (s : St) : St :=
  mkSt (should_stop s) (trades s) (trades_today s) v (account_balance s)
    (daily_pnl s) (daily_loss_pct s) (remaining_quantity s)
    (sl_moved_to_breakeven s) (partial_booked_75pct s)
    (sl_moved_to_entry_after_2r s) (sl_order_id s) (trade1_result s)
    (sl_price s) (last_price s) (first_partial_booked s)
    (second_partial_booked s) (realized_pnl s) (broker s).
Definition set_account_balance (v : option Q) (s : St) : St :=
  mkSt (should_stop s) (trades s) (trades_today s) (starting_balance s) v
    (daily_pnl s) (daily_loss_pct s) (remaining_quantity s)
    (sl_moved_to_breakeven s) (partial_booked_75pct s)
    (sl_moved_to_entry_after_2r s) (sl_order_id s) (trade1_result s)
    (sl_price s) (last_price s) (first_partial_booked s)
    (second_partial_booked s) (realized_pnl s) (broker s).
Definition set_daily_pnl (v : Q) (s : St) : St :=
  mkSt (should_stop s) (trades s) (trades_today s) (starting_balance s)
    (account_balance s) v (daily_loss_pct s) (remaining_quantity s)
    (sl_moved_to_breakeven s) (partial_booked_75pct s)
    (sl_moved_to_entry_after_2r s) (sl_order_id s) (trade1_result s)
    (sl_price s) (last_price s) (first_partial_booked s)
    (second_partial_booked s) (realized_pnl s) (broker s).
Definition set_daily_loss_pct (v : Q) (s : St) : St :=
  mkSt (should_stop s) (trades s) (trades_today s) (starting_balance s)
    (account_balance s) (daily_pnl s) v (remaining_quantity s)
    (sl_moved_to_breakeven s) (partial_booked_75pct s)
    (sl_moved_to_entry_after_2r s) (sl_order_id s) (trade1_result s)
    (sl_price s) (last_price s) (first_partial_booked s)
    (second_partial_booked s) (realized_pnl s) (broker s).
Definition set_remaining_quantity (v : Z) (s : St) : St :=
  mkSt (should_stop s) (trades s) (trades_today s) (starting_balance s)
    (account_balance s) (daily_pnl s) (daily_loss_pct s) v
    (sl_moved_to_breakeven s) (partial_booked_75pct s)
    (sl_moved_to_entry_after_2r s) (sl_order_id s) (trade1_result s)
    (sl_price s) (last_price s) (first_partial_booked s)
    (second_partial_booked s) (realized_pnl s) (broker s).
Definition set_sl_moved_to_breakeven (v : bool) (s : St) : St :=
  mkSt (should_stop s) (trades s) (trades_today s) (starting_balance s)
    (account_balance s) (daily_pnl s) (daily_loss_pct s) (remaining_quantity
    s) v (partial_booked_75pct s) (sl_moved_to_entry_after_2r s)
    (sl_order_id s) (trade1_result s) (sl_price s) (last_price s)
    (first_partial_booked s) (second_partial_booked s) (realized_pnl s)
    (broker s).
Definition set_partial_booked_75pct (v : bool) (s : St) : St :=
  mkSt (should_stop s) (trades s) (trades_today s) (starting_balance s)
    (account_balance s) (daily_pnl s) (daily_loss_pct s) (remaining_quantity
    s) (sl_moved_to_breakeven s) v (sl_moved_to_entry_after_2r s)
    (sl_order_id s) (trade1_result s) (sl_price s) (last_price s)
    (first_partial_booked s) (second_partial_booked s) (realized_pnl s)
    (broker s).
Definition set_sl_moved_to_entry_after_2r (v : bool) (s : St) : St :=
  mkSt (should_stop s) (trades s) (trades_today s) (starting_balance s)
    (account_balance s) (daily_pnl s) (daily_loss_pct s) (remaining_quantity
    s) (sl_moved_to_breakeven s) (partial_booked_75pct s) v (sl_order_id s)
    (trade1_result s) (sl_price s) (last_price s) (first_partial_booked s)
    (second_partial_booked s) (realized_pnl s) (broker s).
Definition set_sl_order_id (v : option Z) (s : St) : St :=
  mkSt (should_stop s) (trades s) (trades_today s) (starting_balance s)
    (account_balance s) (daily_pnl s) (daily_loss_pct s) (remaining_quantity
    s) (sl_moved_to_breakeven s) (partial_booked_75pct s)
    (sl_moved_to_entry_after_2r s) v (trade1_result s) (sl_price s)
    (last_price s) (first_partial_booked s) (second_partial_booked s)
    (realized_pnl s) (broker s).
Definition set_trade1_result (v : option TradeResult) (s : St) : St :=
  mkSt (should_stop s) (trades s) (trades_today s) (starting_balance s)
    (account_balance s) (daily_pnl s) (daily_loss_pct s) (remaining_quantity
    s) (sl_moved_to_breakeven s) (partial_booked_75pct s)
    (sl_moved_to_entry_after_2r s) (sl_order_id s) v (sl_price s)
    (last_price s) (first_partial_booked s) (second_partial_booked s)
    (realized_pnl s) (broker s).
Definition set_sl_price (v : Q) (s : St) : St :=
  mkSt (should_stop s) (trades s) (trades_today s) (starting_balance s)
    (account_balance s) (daily_pnl s) (daily_loss_pct s) (remaining_quantity
    s) (sl_moved_to_breakeven s) (partial_booked_75pct s)
    (sl_moved_to_entry_after_2r s) (sl_order_id s) (trade1_result s) v
    (last_price s) (first_partial_booked s) (second_partial_booked s)
    (realized_pnl s) (broker s).
Definition set_last_price (v : Q) (s : St) : St :=
  mkSt (should_stop s) (trades s) (trades_today s) (starting_balance s)
    (account_balance s) (daily_pnl s) (daily_loss_pct s) (remaining_quantity
    s) (sl_moved_to_breakeven s) (partial_booked_75pct s)
    (sl_moved_to_entry_after_2r s) (sl_order_id s) (trade1_result s)
    (sl_price s) v (first_partial_booked s) (second_partial_booked s)
    (realized_pnl s) (broker s).
Definition set_first_partial_booked (v : bool) (s : St) : St :=
  mkSt (should_stop s) (trades s) (trades_today s) (starting_balance s)
    (account_balance s) (daily_pnl s) (daily_loss_pct s) (remaining_quantity
    s) (sl_moved_to_breakeven s) (partial_booked_75pct s)
    (sl_moved_to_entry_after_2r s) (sl_order_id s) (trade1_result s)
    (sl_price s) (last_price s) v (second_partial_booked s) (realized_pnl s)
    (broker s).
Definition set_second_partial_booked (v : bool) (s : St) : St :=
  mkSt (should_stop s) (trades s) (trades_today s) (starting_balance s)
    (account_balance s) (daily_pnl s) (daily_loss_pct s) (remaining_quantity
    s) (sl_moved_to_breakeven s) (partial_booked_75pct s)
    (sl_moved_to_entry_after_2r s) (sl_order_id s) (trade1_result s)
    (sl_price s) (last_price s) (first_partial_booked s) v (realized_pnl s)
    (broker s).
Definition set_realized_pnl (v : Q) (s : St) : St :=
  mkSt (should_stop s) (trades s) (trades_today s) (starting_balance s)
    (account_balance s) (daily_pnl s) (daily_loss_pct s) (remaining_quantity
    s) (sl_moved_to_breakeven s) (partial_booked_75pct s)
    (sl_moved_to_entry_after_2r s) (sl_order_id s) (trade1_result s)
    (sl_price s) (last_price s) (first_partial_booked s)
    (second_partial_booked s) v (broker s).
Definition set_broker (v : list BrokerEvent) (s : St) : St :=
  mkSt (should_stop s) (trades s) (trades_today s) (starting_balance s)
    (account_balance s) (daily_pnl s) (daily_loss_pct s) (remaining_quantity
    s) (sl_moved_to_breakeven s) (partial_booked_75pct s)
    (sl_moved_to_entry_after_2r s) (sl_order_id s) (trade1_result s)
    (sl_price s) (last_price s) (first_partial_booked s)
    (second_partial_booked s) (realized_pnl s) v.

(** [KiteApp.__init__] *)
Definition KiteApp_init : St := {|
  should_stop := false;
  trades := [];
  trades_today := [];
  starting_balance := None;
  account_balance := None;
  daily_pnl := 0;
  daily_loss_pct := 0;
  remaining_quantity := 0;
  sl_moved_to_breakeven := false;
  partial_booked_75pct := false;
  sl_moved_to_entry_after_2r := false;
  sl_order_id := None;
  trade1_result := None;
  sl_price := 0;
  last_price := 0;
  first_partial_booked := false;
  second_partial_booked := false;
  realized_pnl := 0;
  broker := []
|}.

(** [a or b] where [a] may be [None] or [0]. *)
Definition py_or (a : option Q) (b : Q) : Q :=
  match a with
  | Some v => if truthy v then v else b
  | None => b
  end.

(** [close_position(symbol, quantity, exit_price)]: a market order on the
    opposite side; [ok] is whether an order id came back. *)
Definition close_position (qty : Z) (exit_price : Q) (ok : bool) (s : St) : St :=
  set_broker (ClosePosition qty exit_price ok :: broker s) s.

(** [place_stoploss_order(symbol, side, quantity, sl_price)]: the previous
    stop order, if any, is cancelled and [self.sl_order_id] cleared; [res] is
    the id of the new SL-M order, [None] when placing failed. *)
Definition place_stoploss_order (qty : Z) (trigger : Q) (res : option Z) (s : St) : St :=
  let s := set_sl_order_id None s in
  set_broker (StoplossOrder qty trigger (bool_decide (is_Some res)) :: broker s) s.

(** [new_sl_id = self.place_stoploss_order(...)] followed by
    [if new_sl_id: self.sl_order_id = new_sl_id]. *)
Definition update_stoploss_order (qty : Z) (trigger : Q) (res : option Z) (s : St) : St :=
  let s := place_stoploss_order qty trigger res s in
  match res with
  | Some id => set_sl_order_id (Some id) s
  | None => s
  end.

(** [close_all_positions()], its return value and the bot after it.  An
    empty dict is falsy and the function returns [True].  Otherwise
    [for position in positions] iterates the keys of the dict, which are
    strings, so the first [position.get('tradingsymbol')] raises
    [AttributeError]; the handler of the enclosing [try] returns [False]
    before any order is placed. *)
Definition close_all_positions (positions : Positions) (s : St) : bool * St :=
  match map fst positions with
  | [] => (true, s)
  | position :: _ => (false, s)
  end.

(** [check_daily_loss_limit()]; returns [can_continue] and the updated bot. *)
Definition check_daily_loss_limit
    (cfg : Config) (positions : Positions) (s : St) : bool * St :=
  if negb (USE_DAILY_LOSS_LIMIT cfg) then (true, s)
  else
    let pnl := py_sum (map t_pnl (trades_today s)) in
    let s := set_daily_pnl pnl s in
    let actual_balance := py_or (starting_balance s) (py_or (account_balance s) 1) in
    let pct := if Qltb 0 actual_balance then (pnl / actual_balance)%Q else 0%Q in
    let s := set_daily_loss_pct pct s in
    if Qle_bool pct (- DAILY_LOSS_LIMIT_PCT cfg) then
      let s := snd (close_all_positions positions s) in
      let s := if AUTO_SHUTDOWN_ON_LOSS_LIMIT cfg then set_should_stop true s else s in
      (false, s)
    else (true, s).

(** Start-up of [run]: the balance fetched from the broker becomes both
    [self.starting_balance] and [self.account_balance]. *)
Definition run_startup (balance : Q) (s : St) : St :=
  set_account_balance (Some balance) (set_starting_balance (Some balance) s).

(** The day rollover at the end of [run]'s loop body: [self.trades = []] and
    the balances are refreshed from the broker. *)
Definition new_day_reset (balance : Q) (s : St) : St :=
  set_account_balance (Some balance)
    (set_starting_balance (Some balance) (set_trades [] s)).

End Bot.
Export Bot.


(** ** ExitManager: the monitoring loop of [run_daily_trading_session] *)

Module ExitManager.

Local Open Scope Z_scope.

(** Locals that are fixed once the entry order is placed. *)
Record TradeParams := {
  entry_side : Side;
  entry_price : Q;
  quantity : Z;                       (* also [initial_quantity] *)
  initial_sl : Q;
  trade_number : Z;
  target_price : option Q;
  second_target_price : option Q;
  eod_target_price : option Q;
  first_close_qty : Z;
  second_close_qty : Z;
  eod_close_qty : Z;
  base_risk : Q
}.

(** [entry + reward if side == "BUY" else entry - reward] *)
Definition offset_from_entry (side : Side) (entry reward : Q) : Q :=
  match side with BUY => (entry + reward)%Q | SELL => (entry - reward)%Q end.

(** The repair of the first two leg quantities. *)
Definition repair_legs (initial_quantity first second : Z) : Z * Z :=
  let first := if (initial_quantity >=? 2) && (first =? 0) then 1 else first in
  let second := if (initial_quantity >=? 4) && (second =? 0) then 1 else second in
  if first + second >=? initial_quantity then
    let overflow := (first + second) - (initial_quantity - 1) in
    let '(second, overflow) :=
      if (overflow >? 0) && (second >? 0) then
        let reduce_second := Z.min second overflow in
        (second - reduce_second, overflow - reduce_second)
      else (second, overflow) in
    let first :=
      if (overflow >? 0) && (first >? 0) then first - Z.min first overflow
      else first in
    (first, second)
  else (first, second).

(** Targets and leg quantities computed between the entry order and the
    monitoring loop. *)
Definition setup_trade
    (cfg : Config) (side : Side) (entry sl : Q) (qty number : Z) : TradeParams :=
  let risk := Qabs (entry - sl) in
  let target r :=
    if PROFIT_TARGET_IS_RATIO cfg
    then Some (offset_from_entry side entry (risk * r)%Q) else None in
  let first := py_int (inject_Z qty * PARTIAL_BOOKING_FIRST_CLOSE_PCT cfg)%Q in
  let second := py_int (inject_Z qty * PARTIAL_BOOKING_SECOND_CLOSE_PCT cfg)%Q in
  let eod := py_int (inject_Z qty * PARTIAL_BOOKING_EOD_CLOSE_PCT cfg)%Q in
  let legs := repair_legs qty first second in
  {| entry_side := side; entry_price := entry; quantity := qty;
     initial_sl := sl; trade_number := number;
     target_price := target (PARTIAL_BOOKING_FIRST_TARGET_R cfg);
     second_target_price := target (PARTIAL_BOOKING_SECOND_TARGET_R cfg);
     eod_target_price := target (PROFIT_TARGET_RATIO cfg);
     first_close_qty := fst legs; second_close_qty := snd legs;
     eod_close_qty := eod;
     base_risk := risk |}.

(** State of the bot when the monitoring loop is entered (lines 1166-1177).
    The model of the loop starts here.  In the session as written the call
    of [save_trade_to_db] at line 1148 reads the local [target_price] before
    its first assignment at line 1167 and raises on every accepted entry, so
    no run reaches this state: the states of the loop model are a superset
    of those of the program, and only statements about every such state
    carry over to it. *)
Definition begin_trade (p : TradeParams) (s : St) : St :=
  set_last_price (entry_price p)
  (set_sl_price (initial_sl p)
  (set_partial_booked_75pct false
  (set_first_partial_booked false
  (set_second_partial_booked false
  (set_sl_moved_to_breakeven false
  (set_remaining_quantity (quantity p)
  (set_realized_pnl 0%Q s))))))).

(** Results of the collaborators during one pass of the loop. *)
Record Tick := {
  at_eod : bool;                 (* now.hour == 15 and now.minute >= 25 *)
  positions : Positions;         (* [kite.get_positions()] *)
  quote : option Q;              (* [get_live_price] *)
  atr : option Q;                (* [get_cached_atr] *)
  atr_sl_order : option Z;       (* stop order placed by the ATR update *)
  be_sl_order : option Z;        (* stop order placed by the 1R move *)
  t2_sl_order : option Z;        (* stop order placed after target 2 *)
  close1_ok : bool;              (* [close_position] at target 1 *)
  close2_ok : bool;              (* [close_position] at target 2 *)
  final_ok : bool                (* [close_position] of a full exit *)
}.

Inductive Outcome :=
| Continue (s : St)       (* [time.sleep(30)] and loop again *)
| Break (s : St)          (* [break]: final report, [return True] *)
| ReturnFalse (s : St).   (* [return False]: stop trading for the day *)

Definition outcome_state (o : Outcome) : St :=
  match o with Continue s | Break s | ReturnFalse s => s end.

(** P&L of one exited leg. *)
Definition leg_pnl (side : Side) (entry price : Q) (qty : Z) : Q :=
  match side with
  | BUY => ((price - entry) * inject_Z qty)%Q
  | SELL => ((entry - price) * inject_Z qty)%Q
  end.

(** [self.remaining_quantity if (self.remaining_quantity and
    self.remaining_quantity > 0) else quantity] *)
Definition exit_qty_of (p : TradeParams) (s : St) : Z :=
  if truthyZ (remaining_quantity s) && (remaining_quantity s >? 0)
  then remaining_quantity s else quantity p.

(** [self.remaining_quantity if self.remaining_quantity else quantity] *)
Definition current_quantity_of (p : TradeParams) (s : St) : Z :=
  if truthyZ (remaining_quantity s) then remaining_quantity s else quantity p.

(** A full exit of [exit_qty] at [price]; on success the trade is appended to
    [self.trades].  [record_result] is set on the target and stop-loss exits,
    which also assign [self.trade1_result]. *)
Definition full_exit
    (record_result : bool) (p : TradeParams) (price : Q) (ok : bool) (s : St) : St :=
  let exit_qty := exit_qty_of p s in
  let s := close_position exit_qty price ok s in
  if ok then
    let pnl := (realized_pnl s + leg_pnl (entry_side p) (entry_price p) price exit_qty)%Q in
    let trade := {| t_entry_side := entry_side p; t_entry_price := entry_price p;
                    t_entry_qty := quantity p; t_exit_price := price;
                    t_exit_qty := quantity p; t_sl_price := initial_sl p;
                    t_pnl := pnl; t_trade_number := trade_number p |} in
    let s := set_trades (trades s ++ [trade]) s in
    if record_result
    then set_trade1_result (Some (if Qltb 0 pnl then WIN else LOSS)) s
    else s
  else s.

(** Forced exit at the end of day or on the daily loss limit, at the last
    observed price. *)
Definition forced_exit (p : TradeParams) (i : Tick) (s : St) : St :=
  if exit_qty_of p s >? 0 then full_exit false p (last_price s) (final_ok i) s else s.

(** Lines 1291-1315: ATR trailing stop update. *)
Definition atr_trailing_update
    (cfg : Config) (p : TradeParams) (i : Tick) (price : Q) (s : St) : St :=
  if USE_ATR_TRAILING_EXIT cfg && Qltb 0 (base_risk p) then
    let profit := match entry_side p with
                  | BUY => (price - entry_price p)%Q
                  | SELL => (entry_price p - price)%Q
                  end in
    if Qle_bool (base_risk p * ATR_TRAIL_START_R cfg) profit then
      match atr i with
      | Some atr_value =>
          if truthy atr_value && Qltb 0 atr_value then
            let trail_distance := (atr_value * ATR_TRAIL_MULTIPLIER cfg)%Q in
            match entry_side p with
            | BUY =>
                let new_sl := (price - trail_distance)%Q in
                if Qltb (sl_price s) new_sl then
                  update_stoploss_order (quantity p) new_sl (atr_sl_order i)
                    (set_sl_price new_sl s)
                else s
            | SELL =>
                let new_sl := (price + trail_distance)%Q in
                if Qltb new_sl (sl_price s) then
                  update_stoploss_order (quantity p) new_sl (atr_sl_order i)
                    (set_sl_price new_sl s)
                else s
            end
          else s
      | None => s
      end
    else s
  else s.

(** Lines 1319-1330: at 1R the stop is moved to the entry price. *)
Definition breakeven_move
    (p : TradeParams) (i : Tick) (price : Q) (s : St) : St :=
  let risk := if Qltb 0 (base_risk p) then base_risk p
              else Qabs (entry_price p - sl_price s) in
  let profit := Qabs (price - entry_price p) in
  if negb (sl_moved_to_breakeven s) && Qle_bool risk profit then
    update_stoploss_order (quantity p) (entry_price p) (be_sl_order i)
      (set_sl_moved_to_breakeven true (set_sl_price (entry_price p) s))
  else s.

(** [target and ((side == "BUY" and price >= target) or
    (side == "SELL" and price <= target))] *)
Definition target_touched (side : Side) (target : option Q) (price : Q) : bool :=
  match target with
  | Some t =>
      truthy t && match side with BUY => Qle_bool t price | SELL => Qle_bool price t end
  | None => false
  end.

(** Lines 1332-1345: target 1. *)
Definition book_target1
    (p : TradeParams) (i : Tick) (price : Q) (s : St) : St :=
  let current_quantity := current_quantity_of p s in
  if negb (first_partial_booked s) && (first_close_qty p >? 0)
     && (current_quantity >? 1)
     && target_touched (entry_side p) (target_price p) price then
    let close_qty := Z.min (first_close_qty p) (Z.max (current_quantity - 1) 0) in
    if close_qty >? 0 then
      let s := close_position close_qty price (close1_ok i) s in
      if close1_ok i then
        let partial_pnl := leg_pnl (entry_side p) (entry_price p) price close_qty in
        set_remaining_quantity (current_quantity - close_qty)
          (set_first_partial_booked true
            (set_realized_pnl (realized_pnl s + partial_pnl)%Q s))
      else s
    else s
  else s.

(** Lines 1356-1372: state committed when the target-2 order succeeds,
    including the move of the stop to the entry price. *)
Definition commit_target2
    (p : TradeParams) (i : Tick) (price : Q) (current_quantity close_qty : Z)
    (s : St) : St :=
  let partial_pnl := leg_pnl (entry_side p) (entry_price p) price close_qty in
  let s := set_realized_pnl (realized_pnl s + partial_pnl)%Q s in
  let s := set_second_partial_booked true s in
  let s := set_remaining_quantity (current_quantity - close_qty) s in
  let s := set_sl_price (entry_price p) s in
  let s := set_sl_moved_to_entry_after_2r true s in
  update_stoploss_order (remaining_quantity s) (sl_price s) (t2_sl_order i) s.

(** Lines 1384-1386: the second state-update block of the same leg. *)
Definition repeat_target2_update
    (current_quantity close_qty : Z) (s : St) : St :=
  set_remaining_quantity (current_quantity - close_qty)
    (set_partial_booked_75pct true (set_second_partial_booked true s)).

(** The guard of target 2 (lines 1348-1352): the current quantity and the
    quantity to close when the leg is due. *)
Definition target2_due (p : TradeParams) (price : Q) (s : St) : option (Z * Z) :=
  let current_quantity := current_quantity_of p s in
  if first_partial_booked s && negb (second_partial_booked s)
     && (second_close_qty p >? 0) && (current_quantity >? 1)
     && target_touched (entry_side p) (second_target_price p) price then
    let close_qty := Z.min (second_close_qty p) (Z.max (current_quantity - 1) 0) in
    if close_qty >? 0 then Some (current_quantity, close_qty) else None
  else None.

(** Lines 1347-1397: target 2. *)
Definition book_target2
    (p : TradeParams) (i : Tick) (price : Q) (s : St) : St :=
  match target2_due p price s with
  | Some (current_quantity, close_qty) =>
      let s := close_position close_qty price (close2_ok i) s in
      if close2_ok i then
        repeat_target2_update current_quantity close_qty
          (commit_target2 p i price current_quantity close_qty s)
      else s
  | None => s
  end.

(** Lines 1317-1397: the partial-booking block. *)
Definition partial_booking
    (cfg : Config) (p : TradeParams) (i : Tick) (price : Q) (s : St) : St :=
  if USE_PARTIAL_BOOKING cfg then
    book_target2 p i price (book_target1 p i price (breakeven_move p i price s))
  else s.

(** Lines 1399-1491: final target (only without partial booking) and
    stop-loss. *)
Definition exit_checks
    (cfg : Config) (p : TradeParams) (i : Tick) (price : Q) (s : St) : Outcome :=
  let exit_qty := exit_qty_of p s in
  if target_touched (entry_side p) (target_price p) price && (exit_qty >? 0)
     && negb (USE_PARTIAL_BOOKING cfg) then
    Break (full_exit true p price (final_ok i) s)
  else
    let stop_hit := match entry_side p with
                    | BUY => Qle_bool price (sl_price s)
                    | SELL => Qle_bool (sl_price s) price
                    end in
    if stop_hit && (exit_qty >? 0) then
      Break (full_exit true p price (final_ok i) s)
    else Continue s.

(** Lines 1261-1263: the daily loss gate of a pass. *)
Definition daily_loss_gate (cfg : Config) (i : Tick) (s : St) : bool * St :=
  if USE_DAILY_LOSS_LIMIT cfg
  then check_daily_loss_limit cfg (positions i) s else (true, s).

(** Lines 1288-1491: the body under [if price:]. *)
Definition priced_pass
    (cfg : Config) (p : TradeParams) (i : Tick) (price : Q) (s : St) : Outcome :=
  let s := set_last_price price s in
  let s := atr_trailing_update cfg p i price s in
  let s := partial_booking cfg p i price s in
  exit_checks cfg p i price s.

(** One pass of the [while True] monitoring loop. *)
Definition tick (cfg : Config) (p : TradeParams) (i : Tick) (s : St) : Outcome :=
  if at_eod i then Break (forced_exit p i s)
  else
    let '(can_continue, s) := daily_loss_gate cfg i s in
    if negb can_continue then ReturnFalse (forced_exit p i s)
    else
      match quote i with
      | Some price => if truthy price then priced_pass cfg p i price s else Continue s
      | None => Continue s
      end.

(** The loop over a finite run of passes; it stops at the first [break] or
    [return]. *)
Fixpoint run_loop (cfg : Config) (p : TradeParams) (ticks : list Tick) (s : St)
  : Outcome :=
  match ticks with
  | [] => Continue s
  | i :: rest =>
      match tick cfg p i s with
      | Continue s' => run_loop cfg p rest s'
      | o => o
      end
  end.

(** The states a pass goes through between the quote and the exit checks:
    after the ATR update, after the 1R move, after target 1, and, when the
    target-2 order is accepted, after the first state update of that leg and
    after the repeated one. *)
Definition target2_points
    (p : TradeParams) (i : Tick) (price : Q) (s : St) : list St :=
  match target2_due p price s with
  | Some (current_quantity, close_qty) =>
      let s1 := close_position close_qty price (close2_ok i) s in
      if close2_ok i then
        let s2 := commit_target2 p i price current_quantity close_qty s1 in
        [s2; repeat_target2_update current_quantity close_qty s2]
      else [s1]
  | None => [s]
  end.

Definition pass_points
    (cfg : Config) (p : TradeParams) (i : Tick) (price : Q) (s : St) : list St :=
  let s1 := atr_trailing_update cfg p i price (set_last_price price s) in
  if USE_PARTIAL_BOOKING cfg then
    let s2 := breakeven_move p i price s1 in
    let s3 := book_target1 p i price s2 in
    [s1; s2; s3] ++ target2_points p i price s3
  else [s1].

(** The points of the pass [tick cfg p i s]; none when the pass ends at the
    close of the day or on the daily loss limit before it reads a quote. *)
Definition tick_points
    (cfg : Config) (p : TradeParams) (i : Tick) (s : St) : list St :=
  if at_eod i then []
  else
    let '(can_continue, s) := daily_loss_gate cfg i s in
    if negb can_continue then []
    else
      match quote i with
      | Some price => if truthy price then pass_points cfg p i price s else [s]
      | None => [s]
      end.

(** States at the head of the monitoring loop of the trade [p] that was
    entered in bot state [s0]. *)
Inductive loop_head (cfg : Config) (p : TradeParams) (s0 : St) : St -> Prop :=
| lh_begin : loop_head cfg p s0 (begin_trade p s0)
| lh_pass i s s' :
    loop_head cfg p s0 s -> tick cfg p i s = Continue s' -> loop_head cfg p s0 s'.

(** Operations on the bot instance during its life. *)
Inductive bot_op (cfg : Config) : St -> St -> Prop :=
| op_startup balance s : bot_op cfg s (run_startup balance s)
| op_begin p s : bot_op cfg s (begin_trade p s)
| op_check positions s : bot_op cfg s (snd (check_daily_loss_limit cfg positions s))
| op_pass p i s : bot_op cfg s (outcome_state (tick cfg p i s))
| op_new_day balance s : bot_op cfg s (new_day_reset balance s).

(** Bot states reachable from a fresh [KiteApp]. *)
Definition reachable (cfg : Config) (s : St) : Prop :=
  rtc (bot_op cfg) KiteApp_init s.

(** Quantities of the legs the broker accepted, oldest first. *)
Definition exited_legs (s : St) : list Z :=
  rev (omap (fun e => match e with
                      | ClosePosition q _ true => Some q
                      | _ => None
                      end) (broker s)).

Definition sumZ (l : list Z) : Z := fold_right Z.add 0 l.

(** Shares exited since the bot was in state [s0]. *)
Definition exited_since (s0 s : St) : Z :=
  sumZ (exited_legs s) - sumZ (exited_legs s0).


(** The invariant the loop keeps: a share at least stays for the final leg. *)
Definition quantity_held (p : TradeParams) (s0 s : St) : Prop :=
  remaining_quantity s = quantity p - exited_since s0 s
  /\ 1 <= remaining_quantity s.

(** The loss (or gain) the remaining quantity realises when it is exited at
    the current stop price. *)
Definition pnl_at_stop (p : TradeParams) (s : St) : Q :=
  leg_pnl (entry_side p) (entry_price p) (sl_price s) (remaining_quantity s).

(** [new] is at least as tight a stop as [old] for a trade on [side]. *)
Definition no_looser (side : Side) (old new : Q) : Prop :=
  match side with BUY => (old <= new)%Q | SELL => (new <= old)%Q end.

(** [price] has not touched the stop [sl] of a trade on [side]. *)
Definition clear_of_stop (side : Side) (sl price : Q) : Prop :=
  match side with BUY => (sl < price)%Q | SELL => (price < sl)%Q end.

(** [t] lies on the profit side of the entry (or at it). *)
Definition on_profit_side (side : Side) (entry t : Q) : Prop :=
  match side with BUY => (entry <= t)%Q | SELL => (t <= entry)%Q end.

(** The stop is settled in [s]: no step of a pass can set it to the entry
    price any more. *)
Definition settled (cfg : Config) (s : St) : Prop :=
  USE_PARTIAL_BOOKING cfg = false
  \/ (sl_moved_to_breakeven s = true /\ second_partial_booked s = true).

(** The legs booked since the trade was entered in [s0] agree with the
    stage flags: none, the first leg, or the first and the second, each
    positive and within its ladder quantity. *)
Definition legs_match_flags (p : TradeParams) (s0 s : St) : Prop :=
  exists legs,
    exited_legs s = exited_legs s0 ++ legs
    /\ match first_partial_booked s, second_partial_booked s with
       | false, false => legs = []
       | true, false =>
           exists q1, legs = [q1] /\ 0 < q1 <= first_close_qty p
       | true, true =>
           exists q1 q2, legs = [q1; q2] /\ 0 < q1 <= first_close_qty p
                         /\ 0 < q2 <= second_close_qty p
       | false, true => False
       end.

End ExitManager.


(** ** Sample trades *)

Module Scenario.
Import ExitManager.

(** A long of 10 shares at 100 with the stop at 90, sized and laddered with
    the values of [config.py], entered by a bot that started with 20000. *)
Definition long_trade : TradeParams := setup_trade config BUY 100 90 10 1.

Definition long_start : St :=
  begin_trade long_trade (run_startup 20000 KiteApp_init).

(** A pass with a quote, an ATR reading and the answers of the broker to
    the two partial exits; every stop order is accepted. *)
Definition poll (price : Q) (atr_value : option Q) (ok1 ok2 : bool) : Tick :=
  {| at_eod := false; positions := [("net"%string, []); ("day"%string, [])];
     quote := Some price; atr := atr_value;
     atr_sl_order := Some 11%Z; be_sl_order := Some 12%Z;
     t2_sl_order := Some 13%Z;
     close1_ok := ok1; close2_ok := ok2; final_ok := true |}.

(** The first quote after the entry is 116, the ATR is 5 and every order is
    accepted. *)
Definition gap_up : Tick := poll 116 (Some 5%Q) true true.

End Scenario.


(** ** SignalEvaluator: the entry search of [run_daily_trading_session] *)

Module SignalEvaluator.

Local Open Scope Z_scope.

Inductive Window := PRIMARY | SOFT.

(** [self.nifty_bias] as returned by [check_nifty_trend]. *)
Inductive Bias := LONG | SHORT | NEUTRAL.

(** The tuple returned by [get_latest_5min_candle]; [c_time] is
    [latest.get('date')]. *)
Record Candle := {
  c_open : Q;
  c_high : Q;
  c_low : Q;
  c_close : Q;
  c_volume : Q;
  c_time : option Z
}.

(** The entries of [symbols_data[symbol]] the filters read. *)
Record SymbolData := {
  sd_vwap : Q;
  sd_long_trigger : Q;
  sd_short_trigger : Q
}.

(** A value of the [pending_retests] dict. *)
Record Retest := {
  r_side : Side;
  r_trigger : Q;
  r_last_candle_time : option Z;
  r_candles_waited : Z
}.

(** Attributes of [self] read by the entry search. *)
Record Env := {
  e_should_stop : bool;
  e_num_trades_today : Z;
  e_trades_by_symbol : gmap string Z;
  e_nifty_bias : Bias;
  e_nifty_strength_pct : Q
}.

(** Answers of the market-data collaborator for one symbol in one pass. *)
Record Feed := {
  f_candle : option Candle;            (* [get_latest_5min_candle] *)
  f_minutes : Z;                       (* [now.hour * 100 + now.minute] *)
  f_volume_history : option (list Q);  (* volumes of the 5-minute history;
                                          [None] when the fetch raised *)
  f_trend_vwap : option Q;             (* [get_trend_vwap] *)
  f_liquidity_ok : bool                (* [check_liquidity_and_spread] *)
}.

Inductive SkipReason :=
| TradeCap          (* per-symbol trade cap reached *)
| NoCandle          (* no 5-minute candle yet *)
| SameCandle        (* pending retest, candle already seen *)
| RetestTimeout
| RetestNotOk
| RetestVolume      (* "Volume not confirmed on retest" *)
| SoftVolume        (* "Volume not 2x in SOFT window" *)
| NiftyBias
| TrendFilter
| LiquidityFilter.

Inductive Verdict :=
| Skipped (r : SkipReason)       (* [continue] *)
| Registered                     (* pending retest stored, [continue] *)
| NoBreakout                     (* neither trigger crossed *)
| Signal (side : Side) (price : Q).   (* [signal_found = True; break] *)

(** [l[-n:]] *)
Definition last_n {A} (n : nat) (l : list A) : list A :=
  drop (length l - n)%nat l.

(** [check_volume_confirmation(token, current_candle)] *)
Definition check_volume_confirmation
    (cfg : Config) (feed : Feed) (current_candle : Candle) : bool :=
  if negb (USE_VOLUME_FILTER cfg) then true
  else
    match f_volume_history feed with
    | None => true
    | Some candles =>
        if (length candles <? 5)%nat then true
        else
          let lookback := Z.max 5 (VOLUME_LOOKBACK_CANDLES cfg) in
          let volumes := last_n (Z.to_nat lookback) candles in
          let avg_volume := (py_sum volumes / inject_Z (Z.of_nat (length volumes)))%Q in
          let current_volume := c_volume current_candle in
          let minutes := f_minutes feed in
          let time_factor :=
            if USE_TIME_OF_DAY_VOLUME cfg then
              if minutes <? 1015 then VOLUME_EARLY_MULT cfg
              else if minutes <? 1230 then VOLUME_MID_MULT cfg
              else if minutes <? 1430 then VOLUME_LATE_MULT cfg
              else VOLUME_CLOSE_MULT cfg
            else 1%Q in
          let required_ratio := (VOLUME_MULTIPLIER cfg * time_factor)%Q in
          let volume_ratio :=
            if Qltb 0 avg_volume then (current_volume / avg_volume)%Q else 0%Q in
          Qle_bool required_ratio volume_ratio
    end.

(** [is_nifty_bias_blocking(side)] *)
Definition is_nifty_bias_blocking (cfg : Config) (env : Env) (side : Side) : bool :=
  if negb (USE_NIFTY_FILTER cfg) then false
  else if negb (USE_NIFTY_SOFT_BIAS cfg) then
    match side, e_nifty_bias env with
    | BUY, LONG => false
    | BUY, _ => true
    | SELL, SHORT => false
    | SELL, _ => true
    end
  else
    match e_nifty_bias env with
    | NEUTRAL => false
    | bias =>
        if Qltb (e_nifty_strength_pct env) (NIFTY_STRONG_THRESHOLD_PCT cfg) then false
        else
          match side, bias with
          | BUY, SHORT => true
          | SELL, LONG => true
          | _, _ => false
          end
    end.

(** [is_trend_aligned(token, price, side)] *)
Definition is_trend_aligned
    (cfg : Config) (feed : Feed) (price : Q) (side : Side) : bool :=
  if negb (USE_TREND_FILTER cfg) then true
  else
    match f_trend_vwap feed with
    | None => true
    | Some vwap =>
        if negb (truthy vwap) then true
        else match side with BUY => Qltb vwap price | SELL => Qltb price vwap end
    end.

(** Filter chain of a fresh breakout (the long chain, lines 985-1035, and
    the short chain, lines 1037-1086, differ only in [side] and [trigger]). *)
Definition breakout_chain
    (cfg : Config) (env : Env) (w : Window) (pending : gmap string Retest)
    (symbol : string) (side : Side) (trigger : Q) (c : Candle)
    (volume_confirmed : bool) (feed : Feed)
  : gmap string Retest * Verdict :=
  if match w with SOFT => negb volume_confirmed | PRIMARY => false end then
    (pending, Skipped SoftVolume)
  else if is_nifty_bias_blocking cfg env side then
    (pending, Skipped NiftyBias)
  else if USE_TREND_FILTER cfg && negb (is_trend_aligned cfg feed (c_close c) side) then
    (pending, Skipped TrendFilter)
  else if USE_LIQUIDITY_FILTER cfg && negb (f_liquidity_ok feed) then
    (pending, Skipped LiquidityFilter)
  else if USE_RETEST_ENTRY cfg then
    (<[symbol := {| r_side := side; r_trigger := trigger;
                    r_last_candle_time := c_time c;
                    r_candles_waited := 0 |}]> pending,
     Registered)
  else (pending, Signal side (c_close c)).

(** [retest_ok] of lines 943-950. *)
Definition retest_ok (cfg : Config) (state : Retest) (vwap : Q) (c : Candle) : bool :=
  let zone_pct := (RETEST_ZONE_PCT cfg / 100)%Q in
  let zone_low := (r_trigger state * (1 - zone_pct))%Q in
  let zone_high := (r_trigger state * (1 + zone_pct))%Q in
  match r_side state with
  | BUY =>
      Qle_bool (c_low c) zone_high && Qle_bool zone_low (c_high c)
      && Qltb (r_trigger state) (c_close c) && Qltb vwap (c_close c)
  | SELL =>
      Qle_bool zone_low (c_high c) && Qle_bool (c_low c) zone_high
      && Qltb (c_close c) (r_trigger state) && Qltb (c_close c) vwap
  end.

(** Lines 929-983: a symbol that waits for its retest.  [state] is the dict
    entry, which the source updates in place. *)
Definition retest_chain
    (cfg : Config) (env : Env) (pending : gmap string Retest)
    (symbol : string) (data : SymbolData) (state : Retest) (c : Candle)
    (volume_confirmed : bool) (feed : Feed)
  : gmap string Retest * Verdict :=
  if bool_decide (c_time c = r_last_candle_time state) then
    (pending, Skipped SameCandle)
  else
    let state := {| r_side := r_side state; r_trigger := r_trigger state;
                    r_last_candle_time := c_time c;
                    r_candles_waited := r_candles_waited state + 1 |} in
    let pending := <[symbol := state]> pending in
    if r_candles_waited state >? RETEST_MAX_CANDLES cfg then
      (delete symbol pending, Skipped RetestTimeout)
    else if negb (retest_ok cfg state (sd_vwap data) c) then
      (pending, Skipped RetestNotOk)
    else if USE_VOLUME_FILTER cfg && negb volume_confirmed then
      (pending, Skipped RetestVolume)
    else if is_nifty_bias_blocking cfg env (r_side state) then
      (pending, Skipped NiftyBias)
    else if USE_TREND_FILTER cfg
            && negb (is_trend_aligned cfg feed (c_close c) (r_side state)) then
      (pending, Skipped TrendFilter)
    else if USE_LIQUIDITY_FILTER cfg && negb (f_liquidity_ok feed) then
      (pending, Skipped LiquidityFilter)
    else (delete symbol pending, Signal (r_side state) (c_close c)).

(** Body of [for symbol, data in symbols_data.items()], lines 899-1086. *)
Definition scan_symbol
    (cfg : Config) (env : Env) (w : Window) (pending : gmap string Retest)
    (symbol : string) (data : SymbolData) (feed : Feed)
  : gmap string Retest * Verdict :=
  if default 0 (e_trades_by_symbol env !! symbol) >=? MAX_TRADES_PER_SYMBOL cfg then
    (pending, Skipped TradeCap)
  else
    match f_candle feed with
    | None => (pending, Skipped NoCandle)
    | Some c =>
        let volume_confirmed := check_volume_confirmation cfg feed c in
        match (if USE_RETEST_ENTRY cfg then pending !! symbol else None) with
        | Some state =>
            retest_chain cfg env pending symbol data state c volume_confirmed feed
        | None =>
            if Qltb (sd_long_trigger data) (c_close c) && Qltb (sd_vwap data) (c_close c) then
              breakout_chain cfg env w pending symbol BUY (sd_long_trigger data)
                c volume_confirmed feed
            else if Qltb (c_close c) (sd_short_trigger data)
                    && Qltb (c_close c) (sd_vwap data) then
              breakout_chain cfg env w pending symbol SELL (sd_short_trigger data)
                c volume_confirmed feed
            else (pending, NoBreakout)
        end
    end.

(** The [for] loop over the symbols in declared order: the first signal
    breaks out of it. *)
Fixpoint scan_symbols
    (cfg : Config) (env : Env) (w : Window) (pending : gmap string Retest)
    (symbols : list (string * SymbolData * Feed))
  : gmap string Retest * option (string * Side * Q) :=
  match symbols with
  | [] => (pending, None)
  | (symbol, data, feed) :: rest =>
      match scan_symbol cfg env w pending symbol data feed with
      | (pending', Signal side price) => (pending', Some (symbol, side, price))
      | (pending', _) => scan_symbols cfg env w pending' rest
      end
  end.

(** Head of the [while not signal_found and not self.should_stop] loop,
    lines 865-893: the window in which this pass scans, [None] when the loop
    is left without scanning. *)
Definition entry_window (cfg : Config) (env : Env) (current_time_int : Z)
  : option Window :=
  if e_should_stop env then None
  else if e_num_trades_today env >=? MAX_TRADES_PER_DAY_PORTFOLIO cfg then None
  else if current_time_int >=? 1045 then None
  else if current_time_int <? 1015 then Some PRIMARY
  else if current_time_int <? 1045 then Some SOFT
  else None.

(** One pass of the entry search. *)
Definition entry_pass
    (cfg : Config) (env : Env) (current_time_int : Z)
    (pending : gmap string Retest) (symbols : list (string * SymbolData * Feed))
  : gmap string Retest * option (string * Side * Q) :=
  match entry_window cfg env current_time_int with
  | Some w => scan_symbols cfg env w pending symbols
  | None => (pending, None)
  end.

(** Pending-retest dicts that the entry search can build, starting from the
    empty dict of a new session. *)
Inductive reachable_pending (cfg : Config) : gmap string Retest -> Prop :=
| rp_empty : reachable_pending cfg ∅
| rp_scan env w pending symbol data feed :
    reachable_pending cfg pending ->
    reachable_pending cfg (fst (scan_symbol cfg env w pending symbol data feed)).

(** The first filter of an ordered chain that rejects: each entry pairs the
    reason with "this filter rejects". *)
Fixpoint first_rejecting (chain : list (SkipReason * bool)) : option SkipReason :=
  match chain with
  | [] => None
  | (r, rejects) :: rest => if rejects then Some r else first_rejecting rest
  end.

(** The filters of a fresh breakout, in the order they are applied. *)
Definition breakout_filters
    (cfg : Config) (env : Env) (w : Window) (side : Side) (c : Candle)
    (volume_confirmed : bool) (feed : Feed) : list (SkipReason * bool) :=
  [ (SoftVolume, match w with SOFT => negb volume_confirmed | PRIMARY => false end);
    (NiftyBias, is_nifty_bias_blocking cfg env side);
    (TrendFilter, USE_TREND_FILTER cfg && negb (is_trend_aligned cfg feed (c_close c) side));
    (LiquidityFilter, USE_LIQUIDITY_FILTER cfg && negb (f_liquidity_ok feed)) ].

(** The filters of a pending retest on a candle it has not seen, in the
    order they are applied; [state] is the record after its update. *)
Definition retest_filters
    (cfg : Config) (env : Env) (data : SymbolData) (state : Retest) (c : Candle)
    (volume_confirmed : bool) (feed : Feed) : list (SkipReason * bool) :=
  [ (RetestTimeout, r_candles_waited state >? RETEST_MAX_CANDLES cfg);
    (RetestNotOk, negb (retest_ok cfg state (sd_vwap data) c));
    (RetestVolume, USE_VOLUME_FILTER cfg && negb volume_confirmed);
    (NiftyBias, is_nifty_bias_blocking cfg env (r_side state));
    (TrendFilter, USE_TREND_FILTER cfg
                  && negb (is_trend_aligned cfg feed (c_close c) (r_side state)));
    (LiquidityFilter, USE_LIQUIDITY_FILTER cfg && negb (f_liquidity_ok feed)) ].

(** The record of a pending retest after a candle it has not seen. *)
Definition advance (state : Retest) (c : Candle) : Retest :=
  {| r_side := r_side state; r_trigger := r_trigger state;
     r_last_candle_time := c_time c;
     r_candles_waited := r_candles_waited state + 1 |}.

(** The stages of the filter chain that the specification puts in order; the
    entry-window state comes before them, at the head of the search loop. *)
Inductive Stage :=
| VolumeStage | IndexBiasStage | TrendStage | LiquidityStage | RetestStage.

(** The stage a skip of the code belongs to; the trade cap and a missing
    candle are no filters. *)
Definition stage_of_skip (r : SkipReason) : option Stage :=
  match r with
  | SoftVolume | RetestVolume => Some VolumeStage
  | NiftyBias => Some IndexBiasStage
  | TrendFilter => Some TrendStage
  | LiquidityFilter => Some LiquidityStage
  | SameCandle | RetestTimeout | RetestNotOk => Some RetestStage
  | TradeCap | NoCandle => None
  end.

(** The stage at which the code rejected a candle; [None] when no filter
    rejected it. *)
Definition rejecting_stage (v : Verdict) : option Stage :=
  match v with
  | Skipped r => stage_of_skip r
  | _ => None
  end.

(** The stage that rejects a candle when the filters run in the order the
    specification gives: volume confirmation (required in every window
    state), index-bias block, trend alignment, liquidity check and, last,
    the retest confirmation; [retest_fails] tells whether that one fails.
    Follows the specification's words, not the code. *)
Definition spec_rejecting_stage
    (cfg : Config) (env : Env) (side : Side) (c : Candle)
    (volume_confirmed : bool) (feed : Feed) (retest_fails : bool)
  : option Stage :=
  if negb volume_confirmed then Some VolumeStage
  else if is_nifty_bias_blocking cfg env side then Some IndexBiasStage
  else if USE_TREND_FILTER cfg && negb (is_trend_aligned cfg feed (c_close c) side)
  then Some TrendStage
  else if USE_LIQUIDITY_FILTER cfg && negb (f_liquidity_ok feed)
  then Some LiquidityStage
  else if retest_fails then Some RetestStage
  else None.

End SignalEvaluator.

(** ** Sample entry searches *)

Module EntryScenario.
Import SignalEvaluator.

(** [config.py] with [USE_RETEST_ENTRY = False]. *)
Definition config_without_retest : Config := {|
  LEVERAGE := LEVERAGE config;
  USE_LEVERAGE_IN_SIZING := USE_LEVERAGE_IN_SIZING config;
  MARGIN_UTILIZATION := MARGIN_UTILIZATION config;
  USE_RETEST_ENTRY := false;
  RETEST_MAX_CANDLES := RETEST_MAX_CANDLES config;
  RETEST_ZONE_PCT := RETEST_ZONE_PCT config;
  USE_LIQUIDITY_FILTER := USE_LIQUIDITY_FILTER config;
  USE_VOLUME_FILTER := USE_VOLUME_FILTER config;
  VOLUME_MULTIPLIER := VOLUME_MULTIPLIER config;
  VOLUME_LOOKBACK_CANDLES := VOLUME_LOOKBACK_CANDLES config;
  USE_TIME_OF_DAY_VOLUME := USE_TIME_OF_DAY_VOLUME config;
  VOLUME_EARLY_MULT := VOLUME_EARLY_MULT config;
  VOLUME_MID_MULT := VOLUME_MID_MULT config;
  VOLUME_LATE_MULT := VOLUME_LATE_MULT config;
  VOLUME_CLOSE_MULT := VOLUME_CLOSE_MULT config;
  USE_NIFTY_FILTER := USE_NIFTY_FILTER config;
  USE_NIFTY_SOFT_BIAS := USE_NIFTY_SOFT_BIAS config;
  NIFTY_STRONG_THRESHOLD_PCT := NIFTY_STRONG_THRESHOLD_PCT config;
  USE_TREND_FILTER := USE_TREND_FILTER config;
  DYNAMIC_SL_BUFFER := DYNAMIC_SL_BUFFER config;
  USE_ATR_TRAILING_EXIT := USE_ATR_TRAILING_EXIT config;
  ATR_TRAIL_MULTIPLIER := ATR_TRAIL_MULTIPLIER config;
  ATR_TRAIL_START_R := ATR_TRAIL_START_R config;
  USE_PARTIAL_BOOKING := USE_PARTIAL_BOOKING config;
  PARTIAL_BOOKING_FIRST_CLOSE_PCT := PARTIAL_BOOKING_FIRST_CLOSE_PCT config;
  PARTIAL_BOOKING_FIRST_TARGET_R := PARTIAL_BOOKING_FIRST_TARGET_R config;
  PARTIAL_BOOKING_SECOND_CLOSE_PCT := PARTIAL_BOOKING_SECOND_CLOSE_PCT config;
  PARTIAL_BOOKING_SECOND_TARGET_R := PARTIAL_BOOKING_SECOND_TARGET_R config;
  PARTIAL_BOOKING_EOD_CLOSE_PCT := PARTIAL_BOOKING_EOD_CLOSE_PCT config;
  STOPLOSS_DISTANCE_FACTOR := STOPLOSS_DISTANCE_FACTOR config;
  USE_DAILY_LOSS_LIMIT := USE_DAILY_LOSS_LIMIT config;
  DAILY_LOSS_LIMIT_PCT := DAILY_LOSS_LIMIT_PCT config;
  AUTO_SHUTDOWN_ON_LOSS_LIMIT := AUTO_SHUTDOWN_ON_LOSS_LIMIT config;
  PROFIT_TARGET_IS_RATIO := PROFIT_TARGET_IS_RATIO config;
  PROFIT_TARGET_RATIO := PROFIT_TARGET_RATIO config;
  MAX_TRADES_PER_SYMBOL := MAX_TRADES_PER_SYMBOL config;
  MAX_TRADES_PER_DAY_PORTFOLIO := MAX_TRADES_PER_DAY_PORTFOLIO config
|}.

Definition calm_market : Env :=
  {| e_should_stop := false; e_num_trades_today := 0%Z;
     e_trades_by_symbol := ∅; e_nifty_bias := NEUTRAL;
     e_nifty_strength_pct := 0 |}.

(** Opening range with VWAP 99, long trigger 100 and short trigger 95. *)
Definition setup : SymbolData :=
  {| sd_vwap := 99; sd_long_trigger := 100; sd_short_trigger := 95 |}.

(** The 09:45 candle closes at 101, above the long trigger and the VWAP. *)
Definition breakout_candle : Candle :=
  {| c_open := 100; c_high := 1015 # 10; c_low := 998 # 10; c_close := 101;
     c_volume := 1000; c_time := Some 945%Z |}.

(** Five earlier candles of volume 1000 each: the breakout candle trades the
    average volume, below the required multiple of it. *)
Definition weak_volume_feed : Feed :=
  {| f_candle := Some breakout_candle; f_minutes := 945%Z;
     f_volume_history := Some [1000; 1000; 1000; 1000; 1000]%Q;
     f_trend_vwap := None; f_liquidity_ok := true |}.

(** The 09:50 candle stays above the retest zone, again on the average
    volume. *)
Definition drifting_candle : Candle :=
  {| c_open := 1013 # 10; c_high := 102; c_low := 1012 # 10;
     c_close := 1018 # 10; c_volume := 1000; c_time := Some 950%Z |}.

Definition drifting_feed : Feed :=
  {| f_candle := Some drifting_candle; f_minutes := 950%Z;
     f_volume_history := Some [1000; 1000; 1000; 1000; 1000]%Q;
     f_trend_vwap := None; f_liquidity_ok := true |}.

(** The retest waited for after that breakout. *)
Definition waiting : Retest :=
  {| r_side := BUY; r_trigger := 100; r_last_candle_time := Some 945%Z;
     r_candles_waited := 0%Z |}.

(** The 09:50 candle dips into the retest zone and closes back above the
    trigger, on three times the average volume. *)
Definition retest_candle : Candle :=
  {| c_open := 101; c_high := 1012 # 10; c_low := 100; c_close := 1008 # 10;
     c_volume := 3000; c_time := Some 950%Z |}.

Definition strong_volume_feed : Feed :=
  {| f_candle := Some retest_candle; f_minutes := 950%Z;
     f_volume_history := Some [1000; 1000; 1000; 1000; 1000]%Q;
     f_trend_vwap := None; f_liquidity_ok := true |}.

(** [config.py] with [USE_NIFTY_FILTER = False]. *)
Definition config_without_filter : Config := {|
  LEVERAGE := LEVERAGE config;
  USE_LEVERAGE_IN_SIZING := USE_LEVERAGE_IN_SIZING config;
  MARGIN_UTILIZATION := MARGIN_UTILIZATION config;
  USE_RETEST_ENTRY := USE_RETEST_ENTRY config;
  RETEST_MAX_CANDLES := RETEST_MAX_CANDLES config;
  RETEST_ZONE_PCT := RETEST_ZONE_PCT config;
  USE_LIQUIDITY_FILTER := USE_LIQUIDITY_FILTER config;
  USE_VOLUME_FILTER := USE_VOLUME_FILTER config;
  VOLUME_MULTIPLIER := VOLUME_MULTIPLIER config;
  VOLUME_LOOKBACK_CANDLES := VOLUME_LOOKBACK_CANDLES config;
  USE_TIME_OF_DAY_VOLUME := USE_TIME_OF_DAY_VOLUME config;
  VOLUME_EARLY_MULT := VOLUME_EARLY_MULT config;
  VOLUME_MID_MULT := VOLUME_MID_MULT config;
  VOLUME_LATE_MULT := VOLUME_LATE_MULT config;
  VOLUME_CLOSE_MULT := VOLUME_CLOSE_MULT config;
  USE_NIFTY_FILTER := false;
  USE_NIFTY_SOFT_BIAS := USE_NIFTY_SOFT_BIAS config;
  NIFTY_STRONG_THRESHOLD_PCT := NIFTY_STRONG_THRESHOLD_PCT config;
  USE_TREND_FILTER := USE_TREND_FILTER config;
  DYNAMIC_SL_BUFFER := DYNAMIC_SL_BUFFER config;
  USE_ATR_TRAILING_EXIT := USE_ATR_TRAILING_EXIT config;
  ATR_TRAIL_MULTIPLIER := ATR_TRAIL_MULTIPLIER config;
  ATR_TRAIL_START_R := ATR_TRAIL_START_R config;
  USE_PARTIAL_BOOKING := USE_PARTIAL_BOOKING config;
  PARTIAL_BOOKING_FIRST_CLOSE_PCT := PARTIAL_BOOKING_FIRST_CLOSE_PCT config;
  PARTIAL_BOOKING_FIRST_TARGET_R := PARTIAL_BOOKING_FIRST_TARGET_R config;
  PARTIAL_BOOKING_SECOND_CLOSE_PCT := PARTIAL_BOOKING_SECOND_CLOSE_PCT config;
  PARTIAL_BOOKING_SECOND_TARGET_R := PARTIAL_BOOKING_SECOND_TARGET_R config;
  PARTIAL_BOOKING_EOD_CLOSE_PCT := PARTIAL_BOOKING_EOD_CLOSE_PCT config;
  STOPLOSS_DISTANCE_FACTOR := STOPLOSS_DISTANCE_FACTOR config;
  USE_DAILY_LOSS_LIMIT := USE_DAILY_LOSS_LIMIT config;
  DAILY_LOSS_LIMIT_PCT := DAILY_LOSS_LIMIT_PCT config;
  AUTO_SHUTDOWN_ON_LOSS_LIMIT := AUTO_SHUTDOWN_ON_LOSS_LIMIT config;
  PROFIT_TARGET_IS_RATIO := PROFIT_TARGET_IS_RATIO config;
  PROFIT_TARGET_RATIO := PROFIT_TARGET_RATIO config;
  MAX_TRADES_PER_SYMBOL := MAX_TRADES_PER_SYMBOL config;
  MAX_TRADES_PER_DAY_PORTFOLIO := MAX_TRADES_PER_DAY_PORTFOLIO config
|}.

End EntryScenario.


(** ** kite_service.py: VWAP *)

Module KiteService.
Import SignalEvaluator.
Local Open Scope Z_scope.

(** [KiteService.calculate_vwap(candles)]: the candle dicts are [Candle]
    records, so every key the source reads is present. *)
Definition calculate_vwap (candles : list Candle) : Q :=
  match candles with
  | [] => 0
  | _ =>
      let typical_price_volume :=
        py_sum (map (fun c => ((c_close c + c_high c + c_low c) / 3 * c_volume c)%Q)
                    candles) in
      let total_volume := py_sum (map c_volume candles) in
      if Qeq_bool total_volume 0 then
        match last candles with Some c => c_close c | None => 0 end
      else (typical_price_volume / total_volume)%Q
  end.

(** A candle with [low <= close <= high], a non-negative volume and its
    range inside [[lo, hi]]. *)
Definition candle_within (lo hi : Q) (c : Candle) : Prop :=
  (lo <= c_low c)%Q /\ (c_low c <= c_close c)%Q /\ (c_close c <= c_high c)%Q
  /\ (c_high c <= hi)%Q /\ (0 <= c_volume c)%Q.

End KiteService.

(** ** Market data of the bot: VWAP, ATR, opening range *)

Module MarketData.
Import SignalEvaluator.
Local Open Scope Z_scope.

(** Constants of [config.py] read by the set-up of the symbols. *)
Record SetupConfig := {
  BUFFER_AMOUNT : Q;
  USE_DYNAMIC_ATR_BUFFER : bool;
  ATR_PERIOD : Z;
  ATR_MULTIPLIER : Q;
  USE_RANGE_FILTER : bool;
  RANGE_MIN_PCT : Q;
  RANGE_MAX_PCT : Q
}.

Definition setup_config : SetupConfig := {|
  BUFFER_AMOUNT := 10 # 100;
  USE_DYNAMIC_ATR_BUFFER := true;
  ATR_PERIOD := 10;
  ATR_MULTIPLIER := 2 # 10;
  USE_RANGE_FILTER := true;
  RANGE_MIN_PCT := 1 # 10;
  RANGE_MAX_PCT := 25 # 10
|}.

(** [KiteApp.calculate_vwap(instrument_token)]; [candles] is the answer of
    [get_historical_data], which is [[]] when the fetch fails. *)
Definition calculate_vwap (candles : list Candle) : option Q :=
  match candles with
  | [] => None
  | _ => Some (KiteService.calculate_vwap candles)
  end.

(** [max(high - low, abs(high - prev_close), abs(low - prev_close))] *)
Definition true_range (prev c : Candle) : Q :=
  Qmax (Qmax (c_high c - c_low c) (Qabs (c_high c - c_close prev)))
       (Qabs (c_low c - c_close prev)).

(** The [for i in range(1, len(candles))] loop of [calculate_atr_value]. *)
Fixpoint tr_values_from (prev : Candle) (rest : list Candle) : list Q :=
  match rest with
  | [] => []
  | c :: rest' => true_range prev c :: tr_values_from c rest'
  end.

Definition tr_values (candles : list Candle) : list Q :=
  match candles with
  | [] => []
  | c :: rest => tr_values_from c rest
  end.

(** [l[-n:]] for an int [n] of any sign ([l[-0:]] is [l]). *)
Definition py_tail_slice {A} (n : Z) (l : list A) : list A :=
  if 0 <? n then last_n (Z.to_nat n) l else drop (Z.to_nat (- n)) l.

(** [calculate_atr_value(instrument_token)] on the candles fetched; the
    division by a zero period raises and the handler returns [None]. *)
Definition calculate_atr_value (sc : SetupConfig) (candles : list Candle)
  : option Q :=
  let period := ATR_PERIOD sc in
  match candles with
  | [] => None
  | _ =>
      if Z.of_nat (length candles) <? period + 1 then None
      else if period =? 0 then None
      else Some (py_sum (py_tail_slice period (tr_values candles))
                 / inject_Z period)%Q
  end.

(** A candle that did not move: open, high, low and close at [p]. *)
Definition flat_at (p : Q) (c : Candle) : Prop :=
  (c_high c == p)%Q /\ (c_low c == p)%Q /\ (c_close c == p)%Q.

(** [calculate_atr_buffer(instrument_token)] *)
Definition calculate_atr_buffer (sc : SetupConfig) (candles : list Candle) : Q :=
  let atr_value := calculate_atr_value sc candles in
  if negb (truthy_opt atr_value) then BUFFER_AMOUNT sc
  else
    match atr_value with
    | Some atr_value => (ATR_MULTIPLIER sc * atr_value)%Q
    | None => BUFFER_AMOUNT sc
    end.

(** [get_first_candle(instrument_token)] on the candles fetched: [None] is
    the tuple of four [None]s. *)
Definition get_first_candle (candles : list Candle) : option (Q * Q * Q * Q) :=
  match candles with
  | [] => None
  | candle :: _ =>
      let o := c_open candle in
      let h := c_high candle in
      let l := c_low candle in
      let c := c_close candle in
      if Qle_bool h 0 || Qle_bool l 0 || Qltb h l then None
      else Some (o, h, l, c)
  end.

(** [check_range_quality(symbol, high, low, vwap)] *)
Definition check_range_quality (sc : SetupConfig) (high low vwap : Q) : bool :=
  if negb (truthy vwap) || Qle_bool vwap 0 then true
  else
    let range_pct := ((high - low) / vwap * 100)%Q in
    if Qltb range_pct (RANGE_MIN_PCT sc) || Qltb (RANGE_MAX_PCT sc) range_pct
    then false
    else true.

(** What the collaborator answers for one monitored symbol during set-up. *)
Record SymbolFeed := {
  sf_token : option Z;              (* [find_instrument_token] *)
  sf_range_candles : list Candle;   (* 09:15-09:30, for [get_first_candle] *)
  sf_vwap_candles : list Candle;    (* 5-minute candles since 09:15 *)
  sf_atr_candles : list Candle      (* history of [calculate_atr_value] *)
}.

(** A value of the [symbols_data] dict. *)
Record Setup := {
  s_token : Z;
  s_open : Q;
  s_high : Q;
  s_low : Q;
  s_close : Q;
  s_vwap : Q;
  s_long_trigger : Q;
  s_short_trigger : Q;
  s_buffer : Q
}.

(** Body of the [for symbol_config in config.SYMBOLS_TO_MONITOR] loop of
    [get_symbols_setup_data]; [None] is [continue]. *)
Definition setup_symbol
    (sc : SetupConfig) (has_credentials : bool) (f : SymbolFeed) : option Setup :=
  if negb has_credentials then None
  else
    match sf_token f with
    | None => None
    | Some token =>
        if negb (truthyZ token) then None
        else
          match get_first_candle (sf_range_candles f) with
          | None => None
          | Some (o, h, l, c) =>
              match calculate_vwap (sf_vwap_candles f) with
              | None => None
              | Some vwap =>
                  if USE_RANGE_FILTER sc && has_credentials
                     && negb (check_range_quality sc h l vwap)
                  then None
                  else
                    let buffer :=
                      if USE_DYNAMIC_ATR_BUFFER sc && truthyZ token
                      then calculate_atr_buffer sc (sf_atr_candles f)
                      else BUFFER_AMOUNT sc in
                    Some {| s_token := token; s_open := o; s_high := h;
                            s_low := l; s_close := c; s_vwap := vwap;
                            s_long_trigger := (h + buffer)%Q;
                            s_short_trigger := (l - buffer)%Q;
                            s_buffer := buffer |}
              end
          end
    end.

(** [get_symbols_setup_data()]: the dict built over the monitored symbols in
    their declared order. *)
Definition get_symbols_setup_data
    (sc : SetupConfig) (has_credentials : bool)
    (symbols : list (string * SymbolFeed)) : gmap string Setup :=
  fold_left
    (fun symbols_data '(symbol, f) =>
       match setup_symbol sc has_credentials f with
       | Some s => <[symbol := s]> symbols_data
       | None => symbols_data
       end)
    symbols ∅.

(** The entries of a [symbols_data] value that the entry search reads. *)
Definition symbol_data (s : Setup) : SymbolData :=
  {| sd_vwap := s_vwap s;
     sd_long_trigger := s_long_trigger s;
     sd_short_trigger := s_short_trigger s |}.

(** [self.atr_cache] and [self.atr_cache_time]; times are microseconds. *)
Record AtrCache := {
  atr_cache : gmap Z Q;
  atr_cache_time : gmap Z Z
}.

(** [(later - earlier).seconds]: the seconds field of the normalised
    [timedelta], which drops the days and the microseconds. *)
Definition timedelta_seconds (later earlier : Z) : Z :=
  ((later - earlier) / 1000000) mod 86400.

(** [get_cached_atr(instrument_token, refresh_sec)]; [candles] is what
    [calculate_atr_value] would fetch at [now]. *)
Definition get_cached_atr
    (sc : SetupConfig) (cache : AtrCache) (now : Z)
    (instrument_token : Z) (refresh_sec : Z) (candles : list Candle)
  : AtrCache * option Q :=
  let refresh :=
    let atr_value := calculate_atr_value sc candles in
    if truthy_opt atr_value then
      match atr_value with
      | Some v =>
          ({| atr_cache := <[instrument_token := v]> (atr_cache cache);
              atr_cache_time := <[instrument_token := now]> (atr_cache_time cache) |},
           atr_value)
      | None => (cache, atr_value)
      end
    else (cache, atr_value) in
  match atr_cache_time cache !! instrument_token with
  | Some last_time =>
      if timedelta_seconds now last_time <? refresh_sec
      then (cache, atr_cache cache !! instrument_token)
      else refresh
  | None => refresh
  end.

(** Caches the bot can hold: empty at start-up, then only calls of
    [get_cached_atr]. *)
Inductive reachable_cache (sc : SetupConfig) : AtrCache -> Prop :=
| rc_empty : reachable_cache sc {| atr_cache := ∅; atr_cache_time := ∅ |}
| rc_get cache now token refresh_sec candles :
    reachable_cache sc cache ->
    reachable_cache sc (fst (get_cached_atr sc cache now token refresh_sec candles)).

(** Microseconds in a day. *)
Definition day_us : Z := 86400 * 1000000.

End MarketData.

(** ** One session of the entry search *)

Module Session.
Import SignalEvaluator.

(** The [pending_retests] dicts of one session: [symbols_data] is fixed
    before the search starts, [pending_retests] starts empty, and each step
    scans one of its symbols with that symbol's data. *)
Inductive session_pending (cfg : Config) (symbols_data : gmap string SymbolData)
  : gmap string Retest -> Prop :=
| sp_empty : session_pending cfg symbols_data ∅
| sp_scan env w pending symbol data feed :
    session_pending cfg symbols_data pending ->
    symbols_data !! symbol = Some data ->
    session_pending cfg symbols_data
      (fst (scan_symbol cfg env w pending symbol data feed)).

(** The trigger of [data] on the side of a pending retest. *)
Definition trigger_of (data : SymbolData) (side : Side) : Q :=
  match side with
  | BUY => sd_long_trigger data
  | SELL => sd_short_trigger data
  end.

End Session.

(** ** The index bias *)

Module IndexTrend.
Import SignalEvaluator.

(** The NIFTY quote dict: [None] is a missing key. *)
Record NiftyQuote := {
  nq_last_price : option Q;
  nq_open : option Q      (* [quote['ohlc']['open']] *)
}.

(** [check_nifty_trend()]: the bias returned and the value of
    [self.nifty_strength_pct] after the call ([strength] before it).  A
    missing quote raises at the first [.get] and the handler answers
    [NEUTRAL]; [candles] is the 09:15 candle history of the index. *)
Definition check_nifty_trend
    (cfg : Config) (strength : Q) (nifty_quote : option NiftyQuote)
    (candles : list Candle) : Bias * Q :=
  match nifty_quote with
  | None => (NEUTRAL, strength)
  | Some nifty_quote =>
      let nifty_price := default 0%Q (nq_last_price nifty_quote) in
      if Qle_bool nifty_price 0 then (NEUTRAL, strength)
      else
        let nifty_vwap :=
          match candles with
          | candle :: _ => KiteService.calculate_vwap [candle]
          | [] => default nifty_price (nq_open nifty_quote)
          end in
        let strength :=
          if truthy nifty_vwap
          then (Qabs (nifty_price - nifty_vwap) / nifty_vwap * 100)%Q
          else 0%Q in
        if Qltb strength (NIFTY_STRONG_THRESHOLD_PCT cfg) then (NEUTRAL, strength)
        else if Qltb nifty_vwap nifty_price then (LONG, strength)
        else (SHORT, strength)
  end.

(** Line 860, [self.nifty_bias = self.check_nifty_trend()]: the attributes
    the entry search reads afterwards. *)
Definition refresh_nifty_bias
    (cfg : Config) (env : Env) (nifty_quote : option NiftyQuote)
    (candles : list Candle) : Env :=
  let '(bias, strength) :=
    check_nifty_trend cfg (e_nifty_strength_pct env) nifty_quote candles in
  {| e_should_stop := e_should_stop env;
     e_num_trades_today := e_num_trades_today env;
     e_trades_by_symbol := e_trades_by_symbol env;
     e_nifty_bias := bias;
     e_nifty_strength_pct := strength |}.

End IndexTrend.

(** ** Sample set-up data *)

Module SetupScenario.
Import SignalEvaluator MarketData.

(** Set-up answers for one symbol: the opening candle, one candle of VWAP
    history and no ATR history yet. *)
Definition opening_feed : SymbolFeed :=
  {| sf_token := Some 895745%Z;
     sf_range_candles := [EntryScenario.breakout_candle];
     sf_vwap_candles := [EntryScenario.breakout_candle];
     sf_atr_candles := [] |}.

(** A five-minute candle that closes above the long trigger of
    [opening_feed] (high 101.5 plus the fallback buffer 0.10). *)
Definition clearing_candle : Candle :=
  {| c_open := 1012 # 10; c_high := 1022 # 10; c_low := 1010 # 10;
     c_close := 102; c_volume := 3000; c_time := Some 950%Z |}.

Definition clearing_feed : Feed :=
  {| f_candle := Some clearing_candle; f_minutes := 950%Z;
     f_volume_history := Some [1000; 1000; 1000; 1000; 1000]%Q;
     f_trend_vwap := None; f_liquidity_ok := true |}.

End SetupScenario.

(** ** A sample ATR cache *)

Module CacheScenario.
Import SignalEvaluator MarketData.
Local Open Scope Z_scope.

(** Eleven candles that each span one rupee. *)
Definition moving_candles : list Candle :=
  replicate 11 {| c_open := 100; c_high := 101; c_low := 100; c_close := 100;
                  c_volume := 1000; c_time := None |}.

(** Time of the first fetch, in microseconds. *)
Definition fetched_at : Z := 36000 * 1000000.

(** The cache after one fetch for token 895745. *)
Definition warm_cache : AtrCache :=
  fst (get_cached_atr setup_config {| atr_cache := ∅; atr_cache_time := ∅ |}
         fetched_at 895745 60 moving_candles).

End CacheScenario.

(** ** The stop of a new trade *)

Module EntryExecution.
Import SignalEvaluator RiskEngine.
Local Open Scope Z_scope.

(** Lines 1106-1117: the stop-loss of the trade entered on a signal;
    [current_candle] is the answer of [get_latest_5min_candle]. *)
Definition entry_stop
    (cfg : Config) (entry_side : Side) (entry_price vwap : Q)
    (current_candle : option Candle) : Q :=
  let sl_price :=
    match current_candle with
    | Some c => calculate_dynamic_sl cfg entry_side vwap (c_high c) (c_low c)
    | None => vwap
    end in
  apply_stoploss_distance_factor cfg entry_price sl_price entry_side.

End EntryExecution.

(** ** The trade row in the database *)

Module TradeStore.
Local Open Scope Z_scope.

Inductive Status := OPEN | CLOSED.

(** The columns of [backend.models.Trade] that [update_trade_in_db] reads or
    writes; times are opaque stamps. *)
Record TradeRow := {
  tr_user_id : Z;
  tr_side : Side;                  (* ['B'] or ['S'] *)
  tr_quantity : Z;
  tr_entry_price : Q;
  tr_exit_price : option Q;
  tr_exit_time : option Z;
  tr_stoploss_price : Q;
  tr_pnl : option Q;
  tr_pnl_percent : option Q;
  tr_status : Status;
  tr_updated_at : Z
}.

(** The keyword arguments the bot passes; [None] is an absent keyword. *)
Record Updates := {
  u_quantity : option Z;
  u_exit_price : option Q;
  u_exit_qty : option Z;
  u_exit_time : option Z;
  u_stoploss_price : option Q;
  u_pnl : option Q;
  u_status : option Status
}.

(** The [for key, value in updates.items(): setattr(trade, key, value)]
    loop; [exit_qty] is no attribute of [Trade] and is skipped. *)
Definition set_attributes (trade : TradeRow) (updates : Updates) : TradeRow :=
  {| tr_user_id := tr_user_id trade;
     tr_side := tr_side trade;
     tr_quantity := default (tr_quantity trade) (u_quantity updates);
     tr_entry_price := tr_entry_price trade;
     tr_exit_price :=
       match u_exit_price updates with
       | Some p => Some p
       | None => tr_exit_price trade
       end;
     tr_exit_time :=
       match u_exit_time updates with
       | Some t => Some t
       | None => tr_exit_time trade
       end;
     tr_stoploss_price := default (tr_stoploss_price trade) (u_stoploss_price updates);
     tr_pnl :=
       match u_pnl updates with
       | Some p => Some p
       | None => tr_pnl trade
       end;
     tr_pnl_percent := tr_pnl_percent trade;
     tr_status := default (tr_status trade) (u_status updates);
     tr_updated_at := tr_updated_at trade |}.

(** [updates] with the [pnl] keyword replaced. *)
Definition with_pnl (updates : Updates) (pnl : option Q) : Updates :=
  {| u_quantity := u_quantity updates;
     u_exit_price := u_exit_price updates;
     u_exit_qty := u_exit_qty updates;
     u_exit_time := u_exit_time updates;
     u_stoploss_price := u_stoploss_price updates;
     u_pnl := pnl;
     u_status := u_status updates |}.

(** Price move from entry to [exit_price] in the direction of the trade. *)
Definition signed_move (side : Side) (entry_price exit_price : Q) : Q :=
  match side with
  | BUY => (exit_price - entry_price)%Q
  | SELL => (entry_price - exit_price)%Q
  end.

Inductive UpdateResult :=
| Committed (db : gmap Z TradeRow)   (* returns [True] *)
| Refused                            (* returns [False] before any change *)
| Raised.                            (* an exception, caught: returns [False] *)

(** [update_trade_in_db(trade_db_id, **updates)]; [db] maps trade ids to
    rows, [now] is [get_ist_time()]. *)
Definition update_trade_in_db
    (user_id : option Z) (db : gmap Z TradeRow) (now : Z)
    (trade_db_id : option Z) (updates : Updates) : UpdateResult :=
  match trade_db_id, user_id with
  | Some id, Some uid =>
      if negb (truthyZ id) || negb (truthyZ uid) then Refused
      else
        match db !! id with
        | None => Refused
        | Some row =>
            if negb (tr_user_id row =? uid) then Refused
            else
              let trade := set_attributes row updates in
              let exit_qty :=
                if bool_decide (is_Some (u_exit_price updates))
                   && negb (bool_decide (is_Some (u_exit_qty updates)))
                then tr_quantity trade
                else default (tr_quantity trade) (u_exit_qty updates) in
              let stamp (t : TradeRow) pnl pnl_percent :=
                {| tr_user_id := tr_user_id t; tr_side := tr_side t;
                   tr_quantity := tr_quantity t;
                   tr_entry_price := tr_entry_price t;
                   tr_exit_price := tr_exit_price t;
                   tr_exit_time := tr_exit_time t;
                   tr_stoploss_price := tr_stoploss_price t;
                   tr_pnl := pnl; tr_pnl_percent := pnl_percent;
                   tr_status := tr_status t; tr_updated_at := now |} in
              match u_exit_price updates with
              | Some exit_price =>
                  let pnl :=
                    match tr_side trade with
                    | BUY => ((exit_price - tr_entry_price trade) * inject_Z exit_qty)%Q
                    | SELL => ((tr_entry_price trade - exit_price) * inject_Z exit_qty)%Q
                    end in
                  if Qltb 0 (tr_entry_price trade) then
                    if exit_qty =? 0 then Raised
                    else
                      Committed
                        (<[id := stamp trade (Some pnl)
                                   (Some (pnl / (tr_entry_price trade * inject_Z exit_qty)
                                          * 100)%Q)]> db)
                  else
                    Committed (<[id := stamp trade (Some pnl) (tr_pnl_percent trade)]> db)
              | None =>
                  Committed
                    (<[id := stamp trade (tr_pnl trade) (tr_pnl_percent trade)]> db)
              end
        end
  | _, _ => Refused
  end.

End TradeStore.

(** ** A sample trade row *)

Module StoreScenario.
Import TradeStore.
Local Open Scope Z_scope.

(** A long of 50 shares at 100 of which 37 were booked: the row holds the
    remaining 13 shares. *)
Definition open_trades : gmap Z TradeRow :=
  {[ 1 := {| tr_user_id := 7; tr_side := BUY; tr_quantity := 13;
             tr_entry_price := 100; tr_exit_price := Some (102 : Q);
             tr_exit_time := None; tr_stoploss_price := 100;
             tr_pnl := Some (62 : Q); tr_pnl_percent := Some (2 : Q);
             tr_status := OPEN; tr_updated_at := 0 |} ]}.

(** The keywords of the final exit at 104, with the trade's total P&L. *)
Definition final_exit : Updates :=
  {| u_quantity := None; u_exit_price := Some (104 : Q); u_exit_qty := None;
     u_exit_time := Some 0; u_stoploss_price := None;
     u_pnl := Some (114 : Q); u_status := Some CLOSED |}.

(** The rows after the final exit: the P&L stored is that of the last 13
    shares, not the 114 the caller passed. *)
Definition closed_trades : gmap Z TradeRow :=
  {[ 1 := {| tr_user_id := 7; tr_side := BUY; tr_quantity := 13;
             tr_entry_price := 100; tr_exit_price := Some (104 : Q);
             tr_exit_time := Some 0; tr_stoploss_price := 100;
             tr_pnl := Some (52 : Q); tr_pnl_percent := Some (5200 # 1300)%Q;
             tr_status := CLOSED; tr_updated_at := 0 |} ]}.

End StoreScenario.


(** * Properties *)

(** ** Comparisons and truncation *)

Module PyFacts.

Lemma Qltb_lt a b : Qltb a b = true <-> (a < b)%Q.
Proof.
  unfold Qltb. rewrite negb_true_iff.
  destruct (Qle_bool b a) eqn:E.
  - apply Qle_bool_iff in E. split; [discriminate | intros H; exfalso; lra].
  - split; [intros _ | reflexivity].
    apply Qnot_le_lt. intros H. apply Qle_bool_iff in H. congruence.
Qed.

Lemma Qltb_ge a b : Qltb a b = false <-> (b <= a)%Q.
Proof.
  destruct (Qltb a b) eqn:E.
  - apply Qltb_lt in E. split; [discriminate | intros H; exfalso; lra].
  - split; [intros _ | reflexivity].
    apply Qnot_lt_le. intros H. apply Qltb_lt in H. congruence.
Qed.

Lemma Qle_bool_gt a b : Qle_bool a b = false <-> (b < a)%Q.
Proof.
  destruct (Qle_bool a b) eqn:E.
  - apply Qle_bool_iff in E. split; [discriminate | intros H; exfalso; lra].
  - split; [intros _ | reflexivity].
    apply Qnot_le_lt. intros H. apply Qle_bool_iff in H. congruence.
Qed.

Lemma Qeq_bool_false a b : Qeq_bool a b = false <-> ~ (a == b)%Q.
Proof.
  split.
  - apply Qeq_bool_neq.
  - intros H. destruct (Qeq_bool a b) eqn:E; [|reflexivity].
    apply Qeq_bool_iff in E. contradiction.
Qed.

(** On a non-negative float [int] is [floor]. *)
Lemma py_int_floor x : (0 <= x)%Q -> py_int x = Qfloor x.
Proof.
  destruct x as [n d]. unfold Qle, py_int, Qfloor. simpl. intros H.
  apply Z.quot_div_nonneg; lia.
Qed.

(** On a non-positive float [int] is non-positive. *)
Lemma py_int_nonpos x : (x <= 0)%Q -> (py_int x <= 0)%Z.
Proof.
  destruct x as [n d]. unfold Qle, py_int. simpl. intros H.
  assert (Hn : (n <= 0)%Z) by lia.
  rewrite <- (Z.opp_involutive n), Z.quot_opp_l by lia.
  pose proof (Z.quot_pos (- n) (Z.pos d)). lia.
Qed.

(** Closed comparisons between numerals. *)
Ltac q_decide := vm_compute; first [reflexivity | discriminate].

End PyFacts.
Import PyFacts.

(** ** Initial stop and distance factor *)

Module RiskFacts.
Import RiskEngine.

(** C8.  Distance factor: when [0 <= factor < 1] the returned stop lies at
    distance [factor * |entry - stop|] from the entry price, below the entry
    for a long and above it for a short; when [factor >= 1] the stop is
    returned unchanged; with entry 1500, stop 1425 and factor 0.5 the result
    is 1462.5 (risk 75 scaled to 37.5). *)
Theorem apply_stoploss_distance_factor_scales
    (cfg : Config) (entry sl : Q) (side : Side) :
  let factor := STOPLOSS_DISTANCE_FACTOR cfg in
  let r := apply_stoploss_distance_factor cfg entry sl side in
  ((0 <= factor)%Q -> (factor < 1)%Q ->
     (Qabs (entry - r) == factor * Qabs (entry - sl))%Q
     /\ match side with
        | BUY => (r == entry - factor * Qabs (entry - sl))%Q /\ (r <= entry)%Q
        | SELL => (r == entry + factor * Qabs (entry - sl))%Q /\ (entry <= r)%Q
        end)
  /\ ((1 <= factor)%Q -> r = sl)
  /\ (apply_stoploss_distance_factor config 1500 1425 BUY == 14625 # 10)%Q
  /\ (Qabs (1500 - 1425) == 75)%Q
  /\ (Qabs (1500 - apply_stoploss_distance_factor config 1500 1425 BUY) == 375 # 10)%Q.
Proof.
  cbv zeta. split; [|split; [|repeat split; q_decide]].
  - intros H0 H1. unfold apply_stoploss_distance_factor.
    assert (E : Qle_bool 1 (STOPLOSS_DISTANCE_FACTOR cfg) = false)
      by (apply Qle_bool_gt; exact H1).
    rewrite E.
    set (f := STOPLOSS_DISTANCE_FACTOR cfg) in *.
    pose proof (Qabs_nonneg (entry - sl)) as Hd.
    set (d := Qabs (entry - sl)) in *.
    assert (Hfd : (0 <= d * f)%Q) by (apply Qmult_le_0_compat; lra).
    destruct side.
    + split; [|split; lra].
      assert (E1 : (entry - (entry - d * f) == d * f)%Q) by ring.
      rewrite E1, Qabs_pos by exact Hfd. ring.
    + split; [|split; lra].
      assert (E1 : (entry - (entry + d * f) == - (d * f))%Q) by ring.
      rewrite E1, Qabs_opp, Qabs_pos by exact Hfd. ring.
  - intros H1. unfold apply_stoploss_distance_factor.
    apply Qle_bool_iff in H1. now rewrite H1.
Qed.

(** The distance factor of [config.py] applied to a short. *)
Lemma apply_stoploss_distance_factor_scales_witness :
  (Qabs (200 - apply_stoploss_distance_factor config 200 210 SELL)
   == STOPLOSS_DISTANCE_FACTOR config * Qabs (200 - 210))%Q.
Proof.
  apply (apply_stoploss_distance_factor_scales config 200 210 SELL); q_decide.
Defined.

(** With both candidates on the risk side of the entry, the stop returned
    for a long is the one farther from the entry. *)
Lemma calculate_dynamic_sl_long_farther (cfg : Config) (entry vwap h_5 l_5 : Q) :
  (vwap <= entry)%Q -> (l_5 - DYNAMIC_SL_BUFFER cfg <= entry)%Q ->
  (entry - calculate_dynamic_sl cfg BUY vwap h_5 l_5
   == Qmax (entry - vwap) (entry - (l_5 - DYNAMIC_SL_BUFFER cfg)))%Q.
Proof.
  intros Hv Hl. unfold calculate_dynamic_sl.
  set (s := (l_5 - DYNAMIC_SL_BUFFER cfg)%Q) in *.
  destruct (Qlt_le_dec vwap s) as [H|H].
  - rewrite (Q.min_r s vwap), (Q.max_l (entry - vwap) (entry - s)); lra.
  - rewrite (Q.min_l s vwap), (Q.max_r (entry - vwap) (entry - s)); lra.
Qed.

(** Likewise for a short. *)
Lemma calculate_dynamic_sl_short_farther (cfg : Config) (entry vwap h_5 l_5 : Q) :
  (entry <= vwap)%Q -> (entry <= h_5 + DYNAMIC_SL_BUFFER cfg)%Q ->
  (calculate_dynamic_sl cfg SELL vwap h_5 l_5 - entry
   == Qmax (vwap - entry) (h_5 + DYNAMIC_SL_BUFFER cfg - entry))%Q.
Proof.
  intros Hv Hl. unfold calculate_dynamic_sl.
  set (s := (h_5 + DYNAMIC_SL_BUFFER cfg)%Q) in *.
  destruct (Qlt_le_dec vwap s) as [H|H].
  - rewrite (Q.max_l s vwap), (Q.max_r (vwap - entry) (s - entry)); lra.
  - rewrite (Q.max_r s vwap), (Q.max_l (vwap - entry) (s - entry)); lra.
Qed.

(** C6.  Initial stop.  For a long entered at 100 with VWAP 98 and a candle
    low of 99 (buffer 0.05) the candidates are 98 and 98.95; the tighter one
    is 98.95 but [calculate_dynamic_sl] returns 98.  For a short entered at
    100 with VWAP 102 and a candle high of 101 the candidates are 102 and
    101.05; the tighter one is 101.05 but 102 is returned. *)
Theorem calculate_dynamic_sl_not_tighter :
  (calculate_dynamic_sl config BUY 98 101 99 == 98)%Q
  /\ (closer_to 100 98 (99 - DYNAMIC_SL_BUFFER config) == 9895 # 100)%Q
  /\ (calculate_dynamic_sl config SELL 102 101 99 == 102)%Q
  /\ (closer_to 100 102 (101 + DYNAMIC_SL_BUFFER config) == 10105 # 100)%Q.
Proof. repeat split; q_decide. Qed.

End RiskFacts.


(** ** The monitoring loop *)

Module ExitFacts.
Import ExitManager.

Local Open Scope Z_scope.

(** Case analysis on every test of the goal. *)
Ltac case_tests :=
  repeat match goal with
  | |- context [if ?b then _ else _] => destruct b eqn:?
  | |- context [match ?x with Some _ => _ | None => _ end] => destruct x eqn:?
  | |- context [match ?x with BUY => _ | SELL => _ end] => destruct x eqn:?
  end.

Ltac unfold_exit_ops :=
  unfold forced_exit, full_exit, atr_trailing_update, breakeven_move,
    book_target1, book_target2, commit_target2, repeat_target2_update,
    update_stoploss_order, place_stoploss_order, close_position.

Ltac frame := intros; unfold_exit_ops; case_tests; reflexivity.

(** *** Exited legs and the broker log *)

Lemma sumZ_app l1 l2 : sumZ (l1 ++ l2) = sumZ l1 + sumZ l2.
Proof.
  unfold sumZ. induction l1 as [|x l1 IH]; simpl; [reflexivity | lia].
Qed.

Lemma exited_legs_close_ok qty price s :
  exited_legs (close_position qty price true s) = exited_legs s ++ [qty].
Proof. reflexivity. Qed.

Lemma exited_legs_close_failed qty price s :
  exited_legs (close_position qty price false s) = exited_legs s.
Proof. reflexivity. Qed.

Lemma exited_close_position qty price ok s :
  sumZ (exited_legs (close_position qty price ok s))
  = sumZ (exited_legs s) + (if ok then qty else 0).
Proof.
  destruct ok.
  - rewrite exited_legs_close_ok, sumZ_app. unfold sumZ at 2. simpl. lia.
  - rewrite exited_legs_close_failed. lia.
Qed.

Lemma exited_update_stoploss_order qty trigger res s :
  exited_legs (update_stoploss_order qty trigger res s) = exited_legs s.
Proof. frame. Qed.

(** *** What each step leaves alone *)

Lemma atr_trailing_update_frame cfg p i price s :
  let s' := atr_trailing_update cfg p i price s in
  remaining_quantity s' = remaining_quantity s
  /\ exited_legs s' = exited_legs s
  /\ first_partial_booked s' = first_partial_booked s
  /\ second_partial_booked s' = second_partial_booked s
  /\ trades_today s' = trades_today s
  /\ should_stop s' = should_stop s.
Proof. cbv zeta. repeat split; frame. Qed.

Lemma breakeven_move_frame p i price s :
  let s' := breakeven_move p i price s in
  remaining_quantity s' = remaining_quantity s
  /\ exited_legs s' = exited_legs s
  /\ first_partial_booked s' = first_partial_booked s
  /\ second_partial_booked s' = second_partial_booked s
  /\ trades_today s' = trades_today s
  /\ should_stop s' = should_stop s.
Proof. cbv zeta. repeat split; frame. Qed.

Lemma book_target1_frame p i price s :
  let s' := book_target1 p i price s in
  sl_price s' = sl_price s
  /\ second_partial_booked s' = second_partial_booked s
  /\ trades_today s' = trades_today s
  /\ should_stop s' = should_stop s.
Proof. cbv zeta. repeat split; frame. Qed.

Lemma book_target2_frame p i price s :
  let s' := book_target2 p i price s in
  trades_today s' = trades_today s
  /\ should_stop s' = should_stop s.
Proof.
  cbv zeta. unfold book_target2.
  destruct (target2_due p price s) as [[cq q]|]; [|split; reflexivity].
  split; frame.
Qed.

Lemma full_exit_frame r p price ok s :
  let s' := full_exit r p price ok s in
  sl_price s' = sl_price s
  /\ remaining_quantity s' = remaining_quantity s
  /\ second_partial_booked s' = second_partial_booked s
  /\ trades_today s' = trades_today s
  /\ should_stop s' = should_stop s.
Proof. cbv zeta. repeat split; frame. Qed.

Lemma forced_exit_frame p i s :
  let s' := forced_exit p i s in
  sl_price s' = sl_price s
  /\ remaining_quantity s' = remaining_quantity s
  /\ second_partial_booked s' = second_partial_booked s
  /\ trades_today s' = trades_today s
  /\ should_stop s' = should_stop s.
Proof. cbv zeta. repeat split; frame. Qed.

(** [close_all_positions] leaves the bot as it is. *)
Lemma close_all_positions_state positions s :
  snd (close_all_positions positions s) = s.
Proof.
  unfold close_all_positions. destruct (map fst positions); reflexivity.
Qed.

Lemma check_daily_loss_limit_frame cfg positions s :
  let s' := snd (check_daily_loss_limit cfg positions s) in
  sl_price s' = sl_price s
  /\ remaining_quantity s' = remaining_quantity s
  /\ second_partial_booked s' = second_partial_booked s
  /\ trades_today s' = trades_today s
  /\ starting_balance s' = starting_balance s
  /\ (should_stop s = true -> should_stop s' = true).
Proof.
  cbv zeta. unfold check_daily_loss_limit.
  rewrite close_all_positions_state.
  repeat split; case_tests; simpl; try reflexivity; auto.
Qed.

Lemma daily_loss_gate_frame cfg i s :
  let s' := snd (daily_loss_gate cfg i s) in
  sl_price s' = sl_price s
  /\ remaining_quantity s' = remaining_quantity s
  /\ second_partial_booked s' = second_partial_booked s
  /\ trades_today s' = trades_today s
  /\ starting_balance s' = starting_balance s
  /\ (should_stop s = true -> should_stop s' = true).
Proof.
  cbv zeta. unfold daily_loss_gate.
  destruct (USE_DAILY_LOSS_LIMIT cfg).
  - apply check_daily_loss_limit_frame.
  - simpl. repeat split; auto.
Qed.

(** When the gate lets the pass continue it changed neither the log nor the
    loop state. *)
Lemma daily_loss_gate_continue cfg i s :
  fst (daily_loss_gate cfg i s) = true ->
  let s' := snd (daily_loss_gate cfg i s) in
  broker s' = broker s
  /\ first_partial_booked s' = first_partial_booked s
  /\ should_stop s' = should_stop s.
Proof.
  cbv zeta. unfold daily_loss_gate, check_daily_loss_limit.
  case_tests; simpl; intros H; try discriminate; repeat split; reflexivity.
Qed.

(** The exit checks never touch the stop or the stage flags. *)
Lemma exit_checks_frame cfg p i price s :
  let s' := outcome_state (exit_checks cfg p i price s) in
  sl_price s' = sl_price s
  /\ remaining_quantity s' = remaining_quantity s
  /\ second_partial_booked s' = second_partial_booked s
  /\ trades_today s' = trades_today s
  /\ should_stop s' = should_stop s.
Proof.
  cbv zeta. unfold exit_checks.
  case_tests; simpl; try apply full_exit_frame; repeat split; reflexivity.
Qed.

Lemma exit_checks_continue cfg p i price s s' :
  exit_checks cfg p i price s = Continue s' -> s' = s.
Proof. unfold exit_checks. case_tests; intros H; now inversion H. Qed.


(** *** The shape of a pass *)

Lemma tick_cases cfg p i s :
  (at_eod i = true /\ tick cfg p i s = Break (forced_exit p i s))
  \/ (at_eod i = false /\ fst (daily_loss_gate cfg i s) = false
      /\ tick cfg p i s = ReturnFalse (forced_exit p i (snd (daily_loss_gate cfg i s))))
  \/ (at_eod i = false /\ fst (daily_loss_gate cfg i s) = true
      /\ tick cfg p i s = Continue (snd (daily_loss_gate cfg i s)))
  \/ (exists price,
      at_eod i = false /\ fst (daily_loss_gate cfg i s) = true
      /\ quote i = Some price /\ truthy price = true
      /\ tick cfg p i s = priced_pass cfg p i price (snd (daily_loss_gate cfg i s))).
Proof.
  unfold tick. destruct (at_eod i); [left; split; reflexivity|].
  right. destruct (daily_loss_gate cfg i s) as [[|] s1]; simpl.
  - right. destruct (quote i) as [price|].
    + destruct (truthy price) eqn:Et.
      * right. exists price. repeat split; assumption.
      * left. repeat split.
    + left. repeat split.
  - left. repeat split.
Qed.

(** The exit checks run on the last of the pass points. *)
Lemma priced_pass_last_point cfg p i price s :
  priced_pass cfg p i price s
  = exit_checks cfg p i price
      (List.last (pass_points cfg p i price s) s).
Proof.
  unfold priced_pass, pass_points, partial_booking.
  destruct (USE_PARTIAL_BOOKING cfg); [|reflexivity].
  unfold target2_points, book_target2.
  destruct (target2_due _ _ _) as [[cq q]|]; [|reflexivity].
  destruct (close2_ok i); reflexivity.
Qed.

(** *** C2: the stage-2 lock *)

(** Target 2 either leaves the state alone or completes the leg with the
    stop at the entry price. *)
Lemma book_target2_locks p i price s :
  second_partial_booked s = false ->
  let s' := book_target2 p i price s in
  (second_partial_booked s' = false /\ sl_price s' = sl_price s)
  \/ (second_partial_booked s' = true /\ sl_price s' = entry_price p).
Proof.
  intros Hs. cbv zeta. unfold book_target2.
  destruct (target2_due p price s) as [[cq q]|]; [|left; split; [exact Hs | reflexivity]].
  destruct (close2_ok i).
  - right. unfold_exit_ops. case_tests; split; reflexivity.
  - left. split; [exact Hs | reflexivity].
Qed.

Lemma leg_pnl_at_entry side entry qty :
  (leg_pnl side entry entry qty == 0)%Q.
Proof. unfold leg_pnl. destruct side; ring. Qed.

Lemma leg_pnl_nonneg side entry price qty :
  (0 <= qty)%Z ->
  match side with BUY => (entry <= price)%Q | SELL => (price <= entry)%Q end ->
  (0 <= leg_pnl side entry price qty)%Q.
Proof.
  intros Hq Hs. unfold leg_pnl.
  assert (Hz : (0 <= inject_Z qty)%Q) by (rewrite Zle_Qle in Hq; exact Hq).
  destruct side; apply Qmult_le_0_compat; lra.
Qed.

(** C2.  Whenever a pass of the monitoring loop completes the second
    partial-booking leg, the stop price at the end of that pass is the entry
    price itself, so that the remaining quantity, exited at the stop price,
    realises a leg P&L of zero, and exited at any price on the safe side of
    the stop a leg P&L that is not negative. *)
Theorem stage2_moves_stop_to_entry
    (cfg : Config) (p : TradeParams) (i : Tick) (s : St) :
  second_partial_booked s = false ->
  second_partial_booked (outcome_state (tick cfg p i s)) = true ->
  let s' := outcome_state (tick cfg p i s) in
  sl_price s' = entry_price p
  /\ (pnl_at_stop p s' == 0)%Q
  /\ (0 <= pnl_at_stop p s')%Q
  /\ (forall exit_price,
        (0 <= remaining_quantity s')%Z ->
        match entry_side p with
        | BUY => (sl_price s' <= exit_price)%Q
        | SELL => (exit_price <= sl_price s')%Q
        end ->
        (0 <= leg_pnl (entry_side p) (entry_price p) exit_price
                (remaining_quantity s'))%Q).
Proof.
  intros H0 H1. cbv zeta.
  assert (Hsl : sl_price (outcome_state (tick cfg p i s)) = entry_price p).
  { destruct (daily_loss_gate_frame cfg i s) as (_ & _ & Hg & _).
    destruct (tick_cases cfg p i s)
      as [[_ E] | [(_ & _ & E) | [(_ & _ & E) | (price & _ & _ & _ & _ & E)]]];
      rewrite E in H1 |- *; simpl in H1 |- *.
    - destruct (forced_exit_frame p i s) as (_ & _ & Hf & _). congruence.
    - destruct (forced_exit_frame p i (snd (daily_loss_gate cfg i s)))
        as (_ & _ & Hf & _). congruence.
    - congruence.
    - unfold priced_pass in *.
      set (s1 := atr_trailing_update cfg p i price
                   (set_last_price price (snd (daily_loss_gate cfg i s)))) in *.
      destruct (exit_checks_frame cfg p i price (partial_booking cfg p i price s1))
        as (Hx1 & _ & Hx2 & _).
      rewrite Hx1. rewrite Hx2 in H1. clear Hx1 Hx2.
      assert (Hs1 : second_partial_booked s1 = false).
      { destruct (atr_trailing_update_frame cfg p i price
                    (set_last_price price (snd (daily_loss_gate cfg i s))))
          as (_ & _ & _ & Ha & _).
        fold s1 in Ha. rewrite Ha. simpl. congruence. }
      unfold partial_booking in *.
      destruct (USE_PARTIAL_BOOKING cfg); [|congruence].
      set (s2 := book_target1 p i price (breakeven_move p i price s1)) in *.
      assert (Hs2 : second_partial_booked s2 = false).
      { destruct (book_target1_frame p i price (breakeven_move p i price s1))
          as (_ & Hb & _).
        destruct (breakeven_move_frame p i price s1) as (_ & _ & _ & Hc & _).
        subst s2. congruence. }
      destruct (book_target2_locks p i price s2 Hs2) as [[Hn _] | [_ Hl]];
        [congruence | exact Hl]. }
  unfold pnl_at_stop. rewrite Hsl. split; [reflexivity|].
  pose proof (leg_pnl_at_entry (entry_side p) (entry_price p)
                (remaining_quantity (outcome_state (tick cfg p i s)))) as Hz.
  split; [exact Hz|]. split; [rewrite Hz; lra|].
  intros exit_price Hq Hside.
  apply leg_pnl_nonneg; assumption.
Qed.

(** A pass that completes both legs: the first quote is at 1.6R. *)
Lemma stage2_moves_stop_to_entry_witness :
  sl_price (outcome_state (tick config Scenario.long_trade Scenario.gap_up
                             Scenario.long_start))
  = entry_price Scenario.long_trade.
Proof.
  apply (stage2_moves_stop_to_entry config Scenario.long_trade Scenario.gap_up
           Scenario.long_start); vm_compute; reflexivity.
Defined.

(** *** The quantity still held *)

Ltac forall_list := repeat first [apply Forall_nil_2 | apply Forall_cons_2].

Lemma quantity_held_same p s0 s s' :
  remaining_quantity s' = remaining_quantity s ->
  exited_legs s' = exited_legs s ->
  quantity_held p s0 s -> quantity_held p s0 s'.
Proof.
  unfold quantity_held, exited_since. intros -> ->. exact (fun H => H).
Qed.

Lemma quantity_held_begin p s0 :
  1 <= quantity p -> quantity_held p s0 (begin_trade p s0).
Proof.
  intros H. unfold quantity_held, exited_since.
  change (exited_legs (begin_trade p s0)) with (exited_legs s0).
  change (remaining_quantity (begin_trade p s0)) with (quantity p). lia.
Qed.

Lemma current_quantity_held p s0 s :
  quantity_held p s0 s -> current_quantity_of p s = remaining_quantity s.
Proof.
  intros [_ H]. unfold current_quantity_of, truthyZ.
  destruct (remaining_quantity s =? 0) eqn:E; [apply Z.eqb_eq in E; lia | reflexivity].
Qed.

(** A partial exit of [q] shares out of the current quantity. *)
Lemma quantity_held_partial_exit p s0 s s1 s' bound q price :
  quantity_held p s0 s ->
  q = Z.min bound (Z.max (remaining_quantity s - 1) 0) ->
  q > 0 ->
  s1 = close_position q price true s ->
  remaining_quantity s' = remaining_quantity s - q ->
  exited_legs s' = exited_legs s1 ->
  quantity_held p s0 s'.
Proof.
  intros [H1 H2] Hq Hpos -> Hr He. unfold quantity_held, exited_since in *.
  rewrite Hr, He, exited_legs_close_ok, sumZ_app.
  unfold sumZ at 2. simpl. lia.
Qed.

Lemma quantity_held_target1 p s0 i price s :
  quantity_held p s0 s -> quantity_held p s0 (book_target1 p i price s).
Proof.
  intros H. unfold book_target1. rewrite (current_quantity_held p s0 s H).
  destruct (_ && _ && _ && _); [|exact H].
  destruct (_ >? 0) eqn:Eq; [|exact H].
  apply Z.gtb_lt in Eq.
  destruct (close1_ok i).
  - eapply (quantity_held_partial_exit p s0 s _ _ _ _ price);
      [exact H | reflexivity | apply Z.lt_gt; exact Eq
      | reflexivity | reflexivity | reflexivity].
  - eapply quantity_held_same; [| |exact H]; reflexivity.
Qed.

Lemma target2_due_quantities p s0 price s cq q :
  quantity_held p s0 s ->
  target2_due p price s = Some (cq, q) ->
  cq = remaining_quantity s
  /\ q = Z.min (second_close_qty p) (Z.max (remaining_quantity s - 1) 0)
  /\ q > 0.
Proof.
  intros H. unfold target2_due. rewrite (current_quantity_held p s0 s H).
  destruct (_ && _ && _ && _ && _); [|discriminate].
  destruct (_ >? 0) eqn:Eq; [|discriminate].
  apply Z.gtb_lt in Eq.
  intros E. inversion E; subst. repeat split. lia.
Qed.

Lemma quantity_held_target2_points p s0 i price s :
  quantity_held p s0 s ->
  Forall (quantity_held p s0) (target2_points p i price s).
Proof.
  intros H. unfold target2_points.
  destruct (target2_due p price s) as [[cq q]|] eqn:Ed;
    [|forall_list; exact H].
  destruct (target2_due_quantities p s0 price s cq q H Ed) as (-> & Hq & Hpos).
  destruct (close2_ok i).
  - forall_list.
    + eapply (quantity_held_partial_exit p s0 s _ _ _ _ price);
        [exact H | exact Hq | exact Hpos | reflexivity | |];
        unfold_exit_ops; case_tests; reflexivity.
    + eapply (quantity_held_partial_exit p s0 s _ _ _ _ price);
        [exact H | exact Hq | exact Hpos | reflexivity | |];
        unfold_exit_ops; case_tests; reflexivity.
  - forall_list. eapply quantity_held_same; [| |exact H]; reflexivity.
Qed.

Lemma quantity_held_pass_points cfg p s0 i price s :
  quantity_held p s0 s ->
  Forall (quantity_held p s0) (pass_points cfg p i price s).
Proof.
  intros H. unfold pass_points.
  set (s1 := atr_trailing_update cfg p i price (set_last_price price s)).
  assert (H1 : quantity_held p s0 s1).
  { destruct (atr_trailing_update_frame cfg p i price (set_last_price price s))
      as (Ha & Hb & _).
    eapply quantity_held_same; [exact Ha | exact Hb |].
    eapply quantity_held_same; [| |exact H]; reflexivity. }
  destruct (USE_PARTIAL_BOOKING cfg); [|forall_list; exact H1].
  assert (H2 : quantity_held p s0 (breakeven_move p i price s1)).
  { destruct (breakeven_move_frame p i price s1) as (Ha & Hb & _).
    eapply quantity_held_same; [exact Ha | exact Hb | exact H1]. }
  pose proof (quantity_held_target1 p s0 i price _ H2) as H3.
  apply Forall_app. split.
  - forall_list; assumption.
  - apply quantity_held_target2_points, H3.
Qed.

Lemma quantity_held_gate cfg p s0 i s :
  fst (daily_loss_gate cfg i s) = true ->
  quantity_held p s0 s -> quantity_held p s0 (snd (daily_loss_gate cfg i s)).
Proof.
  intros Hg H. destruct (daily_loss_gate_continue cfg i s Hg) as (Hb & _).
  destruct (daily_loss_gate_frame cfg i s) as (_ & Hr & _).
  eapply quantity_held_same; [exact Hr | | exact H].
  unfold exited_legs. now rewrite Hb.
Qed.

Lemma quantity_held_tick_points cfg p s0 i s :
  quantity_held p s0 s ->
  Forall (quantity_held p s0) (tick_points cfg p i s).
Proof.
  intros H. unfold tick_points.
  destruct (at_eod i); [apply Forall_nil_2|].
  pose proof (quantity_held_gate cfg p s0 i s) as Hg.
  destruct (daily_loss_gate cfg i s) as [[|] s1]; simpl in *; [|apply Forall_nil_2].
  specialize (Hg eq_refl H).
  destruct (quote i) as [price|]; [|forall_list; exact Hg].
  destruct (truthy price); [|forall_list; exact Hg].
  apply quantity_held_pass_points, Hg.
Qed.

(** The state a pass hands to the next one is the last of its points. *)
Lemma tick_continue_last_point cfg p i s s' :
  tick cfg p i s = Continue s' -> List.last (tick_points cfg p i s) s = s'.
Proof.
  unfold tick, tick_points.
  destruct (at_eod i); [discriminate|].
  destruct (daily_loss_gate cfg i s) as [[|] s1]; simpl; [|discriminate].
  destruct (quote i) as [price|]; [|intros E; now inversion E].
  destruct (truthy price); [|intros E; now inversion E].
  rewrite priced_pass_last_point. intros E.
  apply exit_checks_continue in E. rewrite E.
  unfold pass_points.
  destruct (USE_PARTIAL_BOOKING cfg); [|reflexivity].
  unfold target2_points.
  destruct (target2_due _ _ _) as [[cq q]|]; [|reflexivity].
  destruct (close2_ok i); reflexivity.
Qed.

Lemma Forall_last {A} (P : A -> Prop) (l : list A) (d : A) :
  P d -> Forall P l -> P (List.last l d).
Proof.
  intros Hd H. induction H as [|x l Hx Hl IH]; [exact Hd|].
  destruct l; [exact Hx | exact IH].
Qed.

Lemma quantity_held_loop_head cfg p s0 s :
  1 <= quantity p -> loop_head cfg p s0 s -> quantity_held p s0 s.
Proof.
  intros Hq Hl. induction Hl as [|i s s' Hl IH Ht].
  - apply quantity_held_begin, Hq.
  - apply tick_continue_last_point in Ht. rewrite <- Ht.
    apply Forall_last; [exact IH|].
    apply quantity_held_tick_points, IH.
Qed.

(** *** The ATR ratchet *)

(** The ATR update only ever tightens the stop. *)
Lemma atr_trailing_update_ratchet cfg p i price s :
  match entry_side p with
  | BUY => (sl_price s <= sl_price (atr_trailing_update cfg p i price s))%Q
  | SELL => (sl_price (atr_trailing_update cfg p i price s) <= sl_price s)%Q
  end.
Proof.
  unfold atr_trailing_update.
  destruct (_ && _); [|destruct (entry_side p); lra].
  destruct (Qle_bool _ _); [|destruct (entry_side p); lra].
  destruct (atr i) as [a|]; [|destruct (entry_side p); lra].
  destruct (_ && _); [|destruct (entry_side p); lra].
  destruct (entry_side p).
  - destruct (Qltb _ _) eqn:E; [|lra].
    apply Qltb_lt in E.
    unfold update_stoploss_order, place_stoploss_order.
    destruct (atr_sl_order i); simpl; lra.
  - destruct (Qltb _ _) eqn:E; [|lra].
    apply Qltb_lt in E.
    unfold update_stoploss_order, place_stoploss_order.
    destruct (atr_sl_order i); simpl; lra.
Qed.

(** *** C5: the record of the day *)

Lemma priced_pass_frame cfg p i price s :
  let s' := outcome_state (priced_pass cfg p i price s) in
  trades_today s' = trades_today s /\ should_stop s' = should_stop s.
Proof.
  cbv zeta. unfold priced_pass.
  set (s1 := atr_trailing_update cfg p i price (set_last_price price s)).
  destruct (atr_trailing_update_frame cfg p i price (set_last_price price s))
    as (_ & _ & _ & _ & Ha1 & Ha2). fold s1 in Ha1, Ha2.
  destruct (exit_checks_frame cfg p i price (partial_booking cfg p i price s1))
    as (_ & _ & _ & Hx1 & Hx2).
  rewrite Hx1, Hx2. clear Hx1 Hx2. unfold partial_booking.
  destruct (USE_PARTIAL_BOOKING cfg); [|split; [rewrite Ha1 | rewrite Ha2]; reflexivity].
  destruct (book_target2_frame p i price
              (book_target1 p i price (breakeven_move p i price s1))) as (Hc1 & Hc2).
  destruct (book_target1_frame p i price (breakeven_move p i price s1))
    as (_ & _ & Hb1 & Hb2).
  destruct (breakeven_move_frame p i price s1) as (_ & _ & _ & _ & Hd1 & Hd2).
  split; [rewrite Hc1, Hb1, Hd1, Ha1 | rewrite Hc2, Hb2, Hd2, Ha2]; reflexivity.
Qed.

Lemma tick_frame cfg p i s :
  let s' := outcome_state (tick cfg p i s) in
  trades_today s' = trades_today s
  /\ (should_stop s = true -> should_stop s' = true).
Proof.
  cbv zeta.
  destruct (daily_loss_gate_frame cfg i s) as (_ & _ & _ & Hg1 & _ & Hg2).
  destruct (tick_cases cfg p i s)
    as [[_ E] | [(_ & _ & E) | [(_ & _ & E) | (price & _ & _ & _ & _ & E)]]];
    rewrite E; simpl.
  - destruct (forced_exit_frame p i s) as (_ & _ & _ & H1 & H2).
    split; [exact H1 | intros H; now rewrite H2].
  - destruct (forced_exit_frame p i (snd (daily_loss_gate cfg i s)))
      as (_ & _ & _ & H1 & H2).
    split; [now rewrite H1 | intros H; rewrite H2; auto].
  - split; [exact Hg1 | exact Hg2].
  - destruct (priced_pass_frame cfg p i price (snd (daily_loss_gate cfg i s)))
      as (H1 & H2).
    split; [now rewrite H1 | intros H; rewrite H2; auto].
Qed.

(** No operation on the bot writes [self.trades_today], and none clears
    [self.should_stop]. *)
Lemma bot_op_frame cfg s s' :
  bot_op cfg s s' ->
  trades_today s' = trades_today s
  /\ (should_stop s = true -> should_stop s' = true).
Proof.
  intros H. destruct H as [balance s | p s | positions s | p i s | balance s].
  - split; [reflexivity | exact (fun H => H)].
  - split; [reflexivity | exact (fun H => H)].
  - destruct (check_daily_loss_limit_frame cfg positions s)
      as (_ & _ & _ & H1 & _ & H2). split; assumption.
  - apply tick_frame.
  - split; [reflexivity | exact (fun H => H)].
Qed.

Lemma reachable_trades_today cfg s : reachable cfg s -> trades_today s = [].
Proof.
  unfold reachable.
  apply (rtc_ind_r (fun s => trades_today s = [])); [reflexivity|].
  intros s1 s2 _ Hop IH.
  destruct (bot_op_frame cfg s1 s2 Hop) as [E _]. now rewrite E.
Qed.

(** With an empty record of the day the check computes a P&L of zero and
    lets the session continue. *)
Lemma check_daily_loss_limit_empty cfg positions s :
  (0 < DAILY_LOSS_LIMIT_PCT cfg)%Q ->
  trades_today s = [] ->
  fst (check_daily_loss_limit cfg positions s) = true
  /\ (USE_DAILY_LOSS_LIMIT cfg = true ->
      daily_pnl (snd (check_daily_loss_limit cfg positions s)) = 0%Q).
Proof.
  intros Hl Ht. unfold check_daily_loss_limit. rewrite Ht.
  destruct (USE_DAILY_LOSS_LIMIT cfg); simpl; [|split; [reflexivity | discriminate]].
  set (b := py_or _ _).
  assert (E : Qle_bool (if Qltb 0 b then (0 / b)%Q else 0%Q)
                (- DAILY_LOSS_LIMIT_PCT cfg) = false).
  { apply Qle_bool_gt. destruct (Qltb 0 b).
    - assert (Hz : (0 / b == 0)%Q) by (unfold Qdiv; ring). rewrite Hz. lra.
    - lra. }
  unfold py_sum. simpl. rewrite E. simpl. split; reflexivity.
Qed.

(** C5.  [self.trades_today] is empty in a fresh [KiteApp] and stays empty
    under every operation of the trade lifecycle (a closed trade goes to
    [self.trades]); hence, for a positive loss limit, in every reachable bot
    state [check_daily_loss_limit] computes a daily P&L of zero and lets the
    session continue, and no pass of the monitoring loop takes the
    daily-loss exit. *)
Theorem trades_today_stays_empty (cfg : Config) (s : St) :
  (0 < DAILY_LOSS_LIMIT_PCT cfg)%Q ->
  reachable cfg s ->
  trades_today KiteApp_init = []
  /\ trades_today s = []
  /\ (forall r p price,
        trades_today (full_exit r p price true s) = []
        /\ exists t, trades (full_exit r p price true s) = trades s ++ [t])
  /\ (forall positions,
        fst (check_daily_loss_limit cfg positions s) = true
        /\ (USE_DAILY_LOSS_LIMIT cfg = true ->
            daily_pnl (snd (check_daily_loss_limit cfg positions s)) = 0%Q))
  /\ (forall p i s', tick cfg p i s <> ReturnFalse s').
Proof.
  intros Hl Hr. pose proof (reachable_trades_today cfg s Hr) as Ht.
  split; [reflexivity|]. split; [exact Ht|]. split; [|split].
  - intros r p price. split.
    + destruct (full_exit_frame r p price true s) as (_ & _ & _ & E & _).
      now rewrite E.
    + unfold full_exit. destruct r; eexists; reflexivity.
  - intros positions. apply check_daily_loss_limit_empty; assumption.
  - intros p i s' E.
    destruct (tick_cases cfg p i s)
      as [[_ E'] | [(_ & Hg & _) | [(_ & _ & E') | (price & _ & _ & _ & _ & E')]]].
    + congruence.
    + unfold daily_loss_gate in Hg.
      destruct (USE_DAILY_LOSS_LIMIT cfg); [|discriminate].
      destruct (check_daily_loss_limit_empty cfg (positions i) s Hl Ht) as [Hc _].
      congruence.
    + congruence.
    + rewrite E' in E. unfold priced_pass, exit_checks in E.
      revert E. case_tests; discriminate.
Qed.

(** The sample long after a pass, under the values of [config.py]. *)
Lemma trades_today_stays_empty_witness :
  trades_today (outcome_state (tick config Scenario.long_trade Scenario.gap_up
                                 Scenario.long_start)) = [].
Proof.
  refine (proj1 (proj2 (trades_today_stays_empty config _ _ _))).
  - q_decide.
  - unfold reachable.
    eapply rtc_l; [apply (op_startup config 20000)|].
    eapply rtc_l; [apply (op_begin config Scenario.long_trade)|].
    eapply rtc_l; [apply (op_pass config Scenario.long_trade Scenario.gap_up)|].
    apply rtc_refl.
Defined.

End ExitFacts.

(** ** The entry search *)

Module SignalFacts.
Import SignalEvaluator.

Local Open Scope Z_scope.

Ltac case_tests :=
  repeat match goal with
  | |- context [if ?b then _ else _] => destruct b eqn:?
  | |- context [match ?x with Some _ => _ | None => _ end] => destruct x eqn:?
  end.

(** *** Pending retests exist only under retest entry *)

Lemma scan_symbol_without_retest cfg env w pending symbol data feed :
  USE_RETEST_ENTRY cfg = false ->
  fst (scan_symbol cfg env w pending symbol data feed) = pending.
Proof.
  intros H. unfold scan_symbol, breakout_chain. rewrite H.
  case_tests; reflexivity.
Qed.

Lemma reachable_pending_without_retest cfg pending :
  USE_RETEST_ENTRY cfg = false -> reachable_pending cfg pending -> pending = ∅.
Proof.
  intros H Hr. induction Hr as [|env w pending symbol data feed Hr IH];
    [reflexivity|].
  now rewrite scan_symbol_without_retest.
Qed.

Lemma reachable_pending_retest_enabled cfg pending symbol state :
  reachable_pending cfg pending -> pending !! symbol = Some state ->
  USE_RETEST_ENTRY cfg = true.
Proof.
  intros Hr Hl. destruct (USE_RETEST_ENTRY cfg) eqn:E; [reflexivity|].
  rewrite (reachable_pending_without_retest cfg pending E Hr), lookup_empty in Hl.
  discriminate.
Qed.

(** C10.  For a symbol with a pending retest record, evaluating a candle
    whose timestamp is the record's last-seen timestamp leaves the pending
    retests unchanged (the record and its wait counter included) and yields
    no entry signal, for the symbol and for the pass that scans it. *)
Theorem seen_candle_never_fires
    (cfg : Config) (env : Env) (w : Window) (pending : gmap string Retest)
    (symbol : string) (data : SymbolData) (feed : Feed)
    (state : Retest) (c : Candle) :
  reachable_pending cfg pending ->
  pending !! symbol = Some state ->
  f_candle feed = Some c ->
  c_time c = r_last_candle_time state ->
  let r := scan_symbol cfg env w pending symbol data feed in
  fst r = pending
  /\ fst r !! symbol = Some state
  /\ (snd r = Skipped SameCandle \/ snd r = Skipped TradeCap)
  /\ (forall side price, snd r <> Signal side price)
  /\ scan_symbols cfg env w pending [(symbol, data, feed)] = (pending, None).
Proof.
  intros Hr Hl Hc Ht. cbv zeta.
  pose proof (reachable_pending_retest_enabled cfg pending symbol state Hr Hl) as He.
  assert (E : scan_symbol cfg env w pending symbol data feed = (pending, Skipped SameCandle)
              \/ scan_symbol cfg env w pending symbol data feed = (pending, Skipped TradeCap)).
  { unfold scan_symbol. destruct (_ >=? _); [right; reflexivity|].
    left. rewrite Hc, He, Hl. unfold retest_chain.
    rewrite bool_decide_eq_true_2 by exact Ht. reflexivity. }
  unfold scan_symbols.
  destruct E as [E | E]; rewrite E; simpl;
    (split; [reflexivity|]; split; [exact Hl|]; split; [auto|];
     split; [intros side price; discriminate | reflexivity]).
Qed.

(** The sample retest, shown again the 09:45 candle it was registered on. *)
Lemma seen_candle_never_fires_witness :
  fst (scan_symbol config EntryScenario.calm_market PRIMARY
         (fst (scan_symbol config EntryScenario.calm_market PRIMARY ∅
                 "TATASTEEL" EntryScenario.setup EntryScenario.weak_volume_feed))
         "TATASTEEL" EntryScenario.setup EntryScenario.weak_volume_feed)
  = fst (scan_symbol config EntryScenario.calm_market PRIMARY ∅
           "TATASTEEL" EntryScenario.setup EntryScenario.weak_volume_feed).
Proof.
  refine (proj1 (seen_candle_never_fires config EntryScenario.calm_market PRIMARY
                   _ "TATASTEEL" EntryScenario.setup EntryScenario.weak_volume_feed
                   EntryScenario.waiting EntryScenario.breakout_candle _ _ _ _)).
  - apply rp_scan, rp_empty.
  - vm_compute. reflexivity.
  - reflexivity.
  - reflexivity.
Defined.

(** *** C9: volume confirmation and the order of the filters *)

(** With the volume filter switched off the confirmation always passes. *)
Lemma check_volume_confirmation_off cfg feed c :
  USE_VOLUME_FILTER cfg = false -> check_volume_confirmation cfg feed c = true.
Proof. intros H. unfold check_volume_confirmation. now rewrite H. Qed.

Lemma breakout_chain_order cfg env w pending symbol side trigger c vc feed :
  breakout_chain cfg env w pending symbol side trigger c vc feed
  = match first_rejecting (breakout_filters cfg env w side c vc feed) with
    | Some r => (pending, Skipped r)
    | None =>
        if USE_RETEST_ENTRY cfg then
          (<[symbol := {| r_side := side; r_trigger := trigger;
                          r_last_candle_time := c_time c;
                          r_candles_waited := 0 |}]> pending, Registered)
        else (pending, Signal side (c_close c))
    end.
Proof.
  unfold breakout_chain, breakout_filters, first_rejecting.
  case_tests; reflexivity.
Qed.

Lemma retest_chain_order cfg env pending symbol data state c vc feed :
  c_time c <> r_last_candle_time state ->
  let state' := advance state c in
  let pending' := <[symbol := state']> pending in
  retest_chain cfg env pending symbol data state c vc feed
  = match first_rejecting (retest_filters cfg env data state' c vc feed) with
    | Some RetestTimeout => (delete symbol pending', Skipped RetestTimeout)
    | Some r => (pending', Skipped r)
    | None => (delete symbol pending', Signal (r_side state') (c_close c))
    end.
Proof.
  intros Hn. cbv zeta. unfold retest_chain, retest_filters, first_rejecting.
  rewrite bool_decide_eq_false_2 by exact Hn.
  fold (advance state c).
  case_tests; reflexivity.
Qed.

(** A signal of the retest chain has passed the volume confirmation. *)
Lemma retest_chain_signal_volume cfg env pending symbol data state c feed side price :
  snd (retest_chain cfg env pending symbol data state c
         (check_volume_confirmation cfg feed c) feed) = Signal side price ->
  check_volume_confirmation cfg feed c = true.
Proof.
  unfold retest_chain.
  destruct (bool_decide _); [discriminate|].
  destruct (_ >? _); [discriminate|].
  destruct (negb (retest_ok _ _ _ _)); [discriminate|].
  destruct (USE_VOLUME_FILTER cfg) eqn:Ev.
  - destruct (check_volume_confirmation cfg feed c); [reflexivity | discriminate].
  - intros _. apply check_volume_confirmation_off, Ev.
Qed.

(** A signal of the breakout chain comes without retest entry, and in the
    soft window it has passed the volume confirmation. *)
Lemma breakout_chain_signal cfg env w pending symbol s trigger c vc feed side price :
  snd (breakout_chain cfg env w pending symbol s trigger c vc feed) = Signal side price ->
  USE_RETEST_ENTRY cfg = false /\ (w = SOFT -> vc = true).
Proof.
  unfold breakout_chain.
  destruct w; simpl.
  - case_tests; try discriminate. intros _. split; [reflexivity | discriminate].
  - destruct vc; simpl; [|discriminate].
    case_tests; try discriminate. intros _. split; reflexivity.
Qed.

(** C9 as stated fails under the values of [config.py].  In the primary
    window a breakout candle that trades only the average volume passes the
    index, trend and liquidity filters and is registered for its retest: no
    filter rejects it, although in the order of the specification the volume
    confirmation, second after the window state, rejects it; the next candle
    then fires the entry of that breakout.  And a candle
    of the pending retest that fails both the retest condition and the
    volume confirmation is rejected by the retest condition, which the
    specification places last, behind the volume confirmation. *)
Lemma filters_run_in_another_order :
  check_volume_confirmation config EntryScenario.weak_volume_feed
    EntryScenario.breakout_candle = false
  /\ scan_symbol config EntryScenario.calm_market PRIMARY ∅ "TATASTEEL"
       EntryScenario.setup EntryScenario.weak_volume_feed
     = ({["TATASTEEL"%string := EntryScenario.waiting]}, Registered)
  /\ rejecting_stage
       (snd (scan_symbol config EntryScenario.calm_market PRIMARY ∅ "TATASTEEL"
               EntryScenario.setup EntryScenario.weak_volume_feed))
     <> spec_rejecting_stage config EntryScenario.calm_market BUY
          EntryScenario.breakout_candle
          (check_volume_confirmation config EntryScenario.weak_volume_feed
             EntryScenario.breakout_candle)
          EntryScenario.weak_volume_feed false
  /\ snd (scan_symbol config EntryScenario.calm_market PRIMARY
            {["TATASTEEL"%string := EntryScenario.waiting]} "TATASTEEL"
            EntryScenario.setup EntryScenario.strong_volume_feed)
     = Signal BUY (1008 # 10)
  /\ snd (scan_symbol config EntryScenario.calm_market PRIMARY
            {["TATASTEEL"%string := EntryScenario.waiting]} "TATASTEEL"
            EntryScenario.setup EntryScenario.drifting_feed)
     = Skipped RetestNotOk
  /\ rejecting_stage
       (snd (scan_symbol config EntryScenario.calm_market PRIMARY
               {["TATASTEEL"%string := EntryScenario.waiting]} "TATASTEEL"
               EntryScenario.setup EntryScenario.drifting_feed))
     <> spec_rejecting_stage config EntryScenario.calm_market BUY
          EntryScenario.drifting_candle
          (check_volume_confirmation config EntryScenario.drifting_feed
             EntryScenario.drifting_candle)
          EntryScenario.drifting_feed true.
Proof.
  split; [vm_compute; reflexivity|].
  split; [vm_compute; reflexivity|].
  split; [vm_compute; discriminate|].
  split; [vm_compute; reflexivity|].
  split; [vm_compute; reflexivity|].
  vm_compute; discriminate.
Qed.

(** C9, amended.  With retest entry enabled, an entry signal fires only if
    the volume confirmation of the candle that fires it passes, and nothing
    is scanned while the entry window is closed.  A breakout candle is
    checked in the order: volume confirmation (in the soft window only),
    index bias, trend alignment, liquidity, and is then registered for its
    retest.  A later candle of that symbol, not seen before, is checked in
    the order: wait limit, retest condition, volume confirmation, index
    bias, trend alignment, liquidity, and then fires. *)
Theorem entry_signal_filters
    (cfg : Config) (env : Env) (w : Window) (pending : gmap string Retest)
    (symbol : string) (data : SymbolData) (feed : Feed) (c : Candle) :
  USE_RETEST_ENTRY cfg = true ->
  f_candle feed = Some c ->
  let vc := check_volume_confirmation cfg feed c in
  (forall side price,
     snd (scan_symbol cfg env w pending symbol data feed) = Signal side price ->
     vc = true)
  /\ (forall current_time_int symbols,
        entry_window cfg env current_time_int = None ->
        entry_pass cfg env current_time_int pending symbols = (pending, None))
  /\ (forall side trigger,
        breakout_chain cfg env w pending symbol side trigger c vc feed
        = match first_rejecting (breakout_filters cfg env w side c vc feed) with
          | Some r => (pending, Skipped r)
          | None =>
              (<[symbol := {| r_side := side; r_trigger := trigger;
                              r_last_candle_time := c_time c;
                              r_candles_waited := 0 |}]> pending, Registered)
          end)
  /\ (forall state,
        c_time c <> r_last_candle_time state ->
        retest_chain cfg env pending symbol data state c vc feed
        = match first_rejecting
                  (retest_filters cfg env data (advance state c) c vc feed) with
          | Some RetestTimeout =>
              (delete symbol (<[symbol := advance state c]> pending),
               Skipped RetestTimeout)
          | Some r => (<[symbol := advance state c]> pending, Skipped r)
          | None =>
              (delete symbol (<[symbol := advance state c]> pending),
               Signal (r_side state) (c_close c))
          end).
Proof.
  intros Hon Hc. cbv zeta. split; [|split; [|split]].
  - intros side price Hs. unfold scan_symbol in Hs.
    destruct (_ >=? _); [discriminate|]. rewrite Hc in Hs.
    destruct (if USE_RETEST_ENTRY cfg then pending !! symbol else None)
      as [state|] eqn:Ep.
    + eapply retest_chain_signal_volume, Hs.
    + assert (Hb : USE_RETEST_ENTRY cfg = false
                   /\ (w = SOFT -> check_volume_confirmation cfg feed c = true)).
      { revert Hs. case_tests; try discriminate; apply breakout_chain_signal. }
      destruct Hb as [Hoff _]. congruence.
  - intros t symbols Hw. unfold entry_pass. rewrite Hw. reflexivity.
  - intros side trigger. rewrite breakout_chain_order, Hon. reflexivity.
  - intros state Hn. apply (retest_chain_order cfg env pending symbol data state c _ feed Hn).
Qed.

(** The sample retest fires at 09:50 on three times the average volume. *)
Lemma entry_signal_filters_witness :
  check_volume_confirmation config EntryScenario.strong_volume_feed
    EntryScenario.retest_candle = true.
Proof.
  refine (proj1 (entry_signal_filters config EntryScenario.calm_market PRIMARY
                   {["TATASTEEL"%string := EntryScenario.waiting]} "TATASTEEL"
                   EntryScenario.setup EntryScenario.strong_volume_feed
                   EntryScenario.retest_candle eq_refl eq_refl) BUY (1008 # 10)%Q _).
  vm_compute. reflexivity.
Defined.

End SignalFacts.


(** ** More on the ladder and the monitoring loop *)

Module ExitMore.
Import ExitManager ExitFacts.

Local Open Scope Z_scope.

(** Boolean integer tests among the hypotheses, turned into inequalities. *)
Ltac z_hyps :=
  repeat match goal with
  | H : (_ && _) = true |- _ => apply andb_true_iff in H; destruct H
  | H : (_ && _) = false |- _ => apply andb_false_iff in H; destruct H
  | H : (_ >? _) = true |- _ => apply Z.gtb_lt in H
  | H : (_ >? _) = false |- _ => rewrite Z.gtb_ltb in H; apply Z.ltb_ge in H
  | H : (_ >=? _) = true |- _ => apply Z.geb_le in H
  | H : (_ >=? _) = false |- _ => rewrite Z.geb_leb in H; apply Z.leb_gt in H
  | H : (_ =? _) = true |- _ => apply Z.eqb_eq in H
  | H : (_ =? _) = false |- _ => apply Z.eqb_neq in H
  end.

Lemma py_int_nonneg x : (0 <= x)%Q -> 0 <= py_int x.
Proof.
  destruct x as [n d]. unfold Qle, py_int. simpl. intros H.
  apply Z.quot_pos; lia.
Qed.

Lemma repair_legs_bounds iq f s :
  1 <= iq -> 0 <= f -> 0 <= s ->
  0 <= fst (repair_legs iq f s) /\ 0 <= snd (repair_legs iq f s)
  /\ fst (repair_legs iq f s) + snd (repair_legs iq f s) <= iq - 1.
Proof.
  intros Hq Hf Hs. unfold repair_legs.
  remember (if (iq >=? 2) && (f =? 0) then 1 else f) as f1 eqn:Ef1.
  remember (if (iq >=? 4) && (s =? 0) then 1 else s) as s1 eqn:Es1.
  assert (Hf1 : 0 <= f1)
    by (subst f1; destruct ((iq >=? 2) && (f =? 0)); lia).
  assert (Hs1 : 0 <= s1)
    by (subst s1; destruct ((iq >=? 4) && (s =? 0)); lia).
  clear Ef1 Es1.
  destruct (f1 + s1 >=? iq) eqn:E; [|z_hyps; cbn [fst snd]; lia].
  destruct ((f1 + s1 - (iq - 1) >? 0) && (s1 >? 0)) eqn:E1;
    match goal with
    | |- context [if ?b then _ else _] => destruct b eqn:E2
    end; cbn [fst snd]; z_hyps; lia.
Qed.

(** X1.  The leg quantities of the ladder: for a trade of at least one share
    and close percentages that are not negative, the quantities of the first
    two legs are not negative and together leave at least one share for the
    final leg. *)
Theorem ladder_leaves_a_share
    (cfg : Config) (side : Side) (entry sl : Q) (qty number : Z) :
  1 <= qty ->
  (0 <= PARTIAL_BOOKING_FIRST_CLOSE_PCT cfg)%Q ->
  (0 <= PARTIAL_BOOKING_SECOND_CLOSE_PCT cfg)%Q ->
  let p := setup_trade cfg side entry sl qty number in
  0 <= first_close_qty p /\ 0 <= second_close_qty p
  /\ first_close_qty p + second_close_qty p <= quantity p - 1.
Proof.
  intros Hq H1 H2. cbv zeta. unfold setup_trade.
  cbn [first_close_qty second_close_qty quantity].
  assert (Hz : (0 <= inject_Z qty)%Q).
  { assert (H0 : 0 <= qty) by lia. rewrite Zle_Qle in H0. exact H0. }
  apply repair_legs_bounds; [exact Hq | |];
    apply py_int_nonneg, Qmult_le_0_compat; assumption.
Qed.

Lemma ladder_leaves_a_share_witness :
  first_close_qty (setup_trade config BUY 1500 (14625 # 10) 83 1)
  + second_close_qty (setup_trade config BUY 1500 (14625 # 10) 83 1)
  <= 83 - 1.
Proof.
  refine (proj2 (proj2 (ladder_leaves_a_share config BUY 1500 (14625 # 10) 83 1 _ _ _)));
    q_decide.
Defined.


Lemma scale_le k a b : (0 <= k)%Q -> (a <= b)%Q -> (k * a <= k * b)%Q.
Proof.
  intros Hk Hab. rewrite (Qmult_comm k a), (Qmult_comm k b).
  apply Qmult_le_compat_r; assumption.
Qed.

(** X2.  The target ladder: with ratio targets and multiples
    [0 <= first <= second <= final], the three targets exist, each lies at
    its multiple of the risk [|entry - stop|] from the entry, and they are
    ordered away from the entry on the profit side (upward for a long,
    downward for a short). *)
Theorem ladder_targets_ordered
    (cfg : Config) (side : Side) (entry sl : Q) (qty number : Z) :
  PROFIT_TARGET_IS_RATIO cfg = true ->
  (0 <= PARTIAL_BOOKING_FIRST_TARGET_R cfg)%Q ->
  (PARTIAL_BOOKING_FIRST_TARGET_R cfg <= PARTIAL_BOOKING_SECOND_TARGET_R cfg)%Q ->
  (PARTIAL_BOOKING_SECOND_TARGET_R cfg <= PROFIT_TARGET_RATIO cfg)%Q ->
  let p := setup_trade cfg side entry sl qty number in
  exists t1 t2 t3,
    target_price p = Some t1 /\ second_target_price p = Some t2
    /\ eod_target_price p = Some t3
    /\ on_profit_side side entry t1 /\ on_profit_side side t1 t2
    /\ on_profit_side side t2 t3
    /\ (Qabs (t1 - entry) == PARTIAL_BOOKING_FIRST_TARGET_R cfg * base_risk p)%Q
    /\ (Qabs (t2 - entry) == PARTIAL_BOOKING_SECOND_TARGET_R cfg * base_risk p)%Q
    /\ (Qabs (t3 - entry) == PROFIT_TARGET_RATIO cfg * base_risk p)%Q.
Proof.
  intros Hr H1 H2 H3. cbv zeta. unfold setup_trade.
  cbn [target_price second_target_price eod_target_price base_risk].
  rewrite Hr. do 3 eexists.
  split; [reflexivity|]. split; [reflexivity|]. split; [reflexivity|].
  pose proof (Qabs_nonneg (entry - sl)) as Hk.
  set (k := Qabs (entry - sl)) in *.
  set (r1 := PARTIAL_BOOKING_FIRST_TARGET_R cfg) in *.
  set (r2 := PARTIAL_BOOKING_SECOND_TARGET_R cfg) in *.
  set (r3 := PROFIT_TARGET_RATIO cfg) in *.
  assert (K1 : (0 <= k * r1)%Q) by (apply Qmult_le_0_compat; lra).
  assert (K12 : (k * r1 <= k * r2)%Q) by (apply scale_le; lra).
  assert (K23 : (k * r2 <= k * r3)%Q) by (apply scale_le; lra).
  assert (A : forall x, (0 <= k * x)%Q ->
                (Qabs (entry + k * x - entry) == x * k)%Q).
  { intros x Hx. assert (E : (entry + k * x - entry == k * x)%Q) by ring.
    rewrite E, Qabs_pos by exact Hx. ring. }
  assert (B : forall x, (0 <= k * x)%Q ->
                (Qabs (entry - k * x - entry) == x * k)%Q).
  { intros x Hx. assert (E : (entry - k * x - entry == - (k * x))%Q) by ring.
    rewrite E, Qabs_opp, Qabs_pos by exact Hx. ring. }
  destruct side; unfold on_profit_side, offset_from_entry.
  - repeat (split; [lra|]). split; [|split]; apply A; lra.
  - repeat (split; [lra|]). split; [|split]; apply B; lra.
Qed.

Lemma ladder_targets_ordered_witness :
  exists t1 t2 t3,
    target_price Scenario.long_trade = Some t1
    /\ second_target_price Scenario.long_trade = Some t2
    /\ eod_target_price Scenario.long_trade = Some t3
    /\ on_profit_side BUY 100 t1 /\ on_profit_side BUY t1 t2
    /\ on_profit_side BUY t2 t3
    /\ (Qabs (t1 - 100) == PARTIAL_BOOKING_FIRST_TARGET_R config
                           * base_risk Scenario.long_trade)%Q
    /\ (Qabs (t2 - 100) == PARTIAL_BOOKING_SECOND_TARGET_R config
                           * base_risk Scenario.long_trade)%Q
    /\ (Qabs (t3 - 100) == PROFIT_TARGET_RATIO config
                           * base_risk Scenario.long_trade)%Q.
Proof.
  apply (ladder_targets_ordered config BUY 100 90 10 1); q_decide.
Defined.


(** *** The stop once the move-to-entry steps are spent *)

Lemma no_looser_refl side x : no_looser side x x.
Proof. destruct side; simpl; lra. Qed.

Lemma no_looser_trans side x y z :
  no_looser side x y -> no_looser side y z -> no_looser side x z.
Proof. destruct side; simpl; lra. Qed.

(** The stage flags and the stop across the steps of a pass. *)
Lemma atr_trailing_update_flags cfg p i price s :
  sl_moved_to_breakeven (atr_trailing_update cfg p i price s)
  = sl_moved_to_breakeven s.
Proof. frame. Qed.

Lemma breakeven_move_spent p i price s :
  sl_moved_to_breakeven s = true -> breakeven_move p i price s = s.
Proof. intros H. unfold breakeven_move. rewrite H. reflexivity. Qed.

Lemma book_target1_flags p i price s :
  sl_moved_to_breakeven (book_target1 p i price s) = sl_moved_to_breakeven s.
Proof. frame. Qed.

Lemma book_target2_spent p i price s :
  second_partial_booked s = true -> book_target2 p i price s = s.
Proof.
  intros H. unfold book_target2, target2_due. rewrite H.
  rewrite andb_false_r. reflexivity.
Qed.

Lemma exit_checks_flags cfg p i price s :
  sl_moved_to_breakeven (outcome_state (exit_checks cfg p i price s))
  = sl_moved_to_breakeven s.
Proof. unfold exit_checks. frame. Qed.

Lemma forced_exit_flags p i s :
  sl_moved_to_breakeven (forced_exit p i s) = sl_moved_to_breakeven s.
Proof. frame. Qed.

Lemma daily_loss_gate_flags cfg i s :
  sl_moved_to_breakeven (snd (daily_loss_gate cfg i s)) = sl_moved_to_breakeven s.
Proof.
  unfold daily_loss_gate, check_daily_loss_limit, close_all_positions.
  case_tests; reflexivity.
Qed.

Lemma priced_pass_settled cfg p i price s :
  settled cfg s ->
  let s' := outcome_state (priced_pass cfg p i price s) in
  no_looser (entry_side p) (sl_price s) (sl_price s') /\ settled cfg s'.
Proof.
  intros Hs. cbv zeta. unfold priced_pass.
  set (s1 := atr_trailing_update cfg p i price (set_last_price price s)).
  assert (R : no_looser (entry_side p) (sl_price s) (sl_price s1)).
  { pose proof (atr_trailing_update_ratchet cfg p i price (set_last_price price s)) as H.
    unfold no_looser. exact H. }
  assert (F1 : sl_moved_to_breakeven s1 = sl_moved_to_breakeven s)
    by (unfold s1; now rewrite atr_trailing_update_flags).
  assert (F2 : second_partial_booked s1 = second_partial_booked s).
  { destruct (atr_trailing_update_frame cfg p i price (set_last_price price s))
      as (_ & _ & _ & H & _). exact H. }
  destruct (exit_checks_frame cfg p i price (partial_booking cfg p i price s1))
    as (X1 & _ & X2 & _).
  rewrite X1. unfold settled. rewrite X2, exit_checks_flags.
  unfold partial_booking. destruct Hs as [Hoff | [Hb H2]].
  - rewrite Hoff. split; [exact R | left; reflexivity].
  - destruct (USE_PARTIAL_BOOKING cfg); [|split; [exact R | right; split; congruence]].
    rewrite breakeven_move_spent by congruence.
    destruct (book_target1_frame p i price s1) as (T1 & T2 & _).
    rewrite book_target2_spent by congruence.
    rewrite T1, T2, book_target1_flags.
    split; [exact R | right; split; congruence].
Qed.

Lemma tick_settled cfg p i s :
  settled cfg s ->
  let s' := outcome_state (tick cfg p i s) in
  no_looser (entry_side p) (sl_price s) (sl_price s') /\ settled cfg s'.
Proof.
  intros Hs. cbv zeta.
  destruct (daily_loss_gate_frame cfg i s) as (G1 & _ & G2 & _).
  pose proof (daily_loss_gate_flags cfg i s) as G3.
  assert (Hg : settled cfg (snd (daily_loss_gate cfg i s))).
  { destruct Hs as [H | [H1 H2]]; [left; exact H | right; split; congruence]. }
  destruct (tick_cases cfg p i s)
    as [[_ E] | [(_ & _ & E) | [(_ & _ & E) | (price & _ & _ & _ & _ & E)]]];
    rewrite E; simpl.
  - destruct (forced_exit_frame p i s) as (H1 & _ & H2 & _).
    rewrite H1. split; [apply no_looser_refl|].
    unfold settled. rewrite H2, forced_exit_flags. exact Hs.
  - destruct (forced_exit_frame p i (snd (daily_loss_gate cfg i s)))
      as (H1 & _ & H2 & _).
    rewrite H1, G1. split; [apply no_looser_refl|].
    unfold settled. rewrite H2, forced_exit_flags. exact Hg.
  - rewrite G1. split; [apply no_looser_refl | exact Hg].
  - destruct (priced_pass_settled cfg p i price _ Hg) as [H1 H2].
    rewrite G1 in H1. split; assumption.
Qed.

(** X3.  Once the stop is settled (partial booking is disabled, or the 1R
    move and the second leg are both done), no run of passes of the
    monitoring loop loosens it: for a long the stop at the end is at least
    the stop at the start, for a short at most. *)
Theorem settled_stop_never_loosens
    (cfg : Config) (p : TradeParams) (ticks : list Tick) (s : St) :
  settled cfg s ->
  no_looser (entry_side p) (sl_price s)
    (sl_price (outcome_state (run_loop cfg p ticks s))).
Proof.
  revert s. induction ticks as [|i rest IH]; intros s Hs.
  - apply no_looser_refl.
  - simpl. destruct (tick_settled cfg p i s Hs) as [H1 H2].
    destruct (tick cfg p i s) as [s1 | s1 | s1] eqn:E; simpl in *.
    + eapply no_looser_trans; [exact H1 | apply IH, H2].
    + exact H1.
    + exact H1.
Qed.

(** The sample long after its first pass has completed both legs; two more
    passes trail the stop. *)
Lemma settled_stop_never_loosens_witness :
  let s1 := outcome_state (tick config Scenario.long_trade Scenario.gap_up
                             Scenario.long_start) in
  no_looser BUY (sl_price s1)
    (sl_price (outcome_state
                 (run_loop config Scenario.long_trade
                    [Scenario.poll 125 (Some 5%Q) true true;
                     Scenario.poll 121 (Some 5%Q) true true] s1))).
Proof.
  cbv zeta.
  apply (settled_stop_never_loosens config Scenario.long_trade).
  right. split; vm_compute; reflexivity.
Defined.


(** *** Realised P&L of the partial legs *)

Lemma target_touched_profit side entry target price :
  (forall t, target = Some t -> on_profit_side side entry t) ->
  target_touched side target price = true ->
  on_profit_side side entry price.
Proof.
  intros Ht. unfold target_touched. destruct target as [t|]; [|discriminate].
  specialize (Ht t eq_refl). intros H. apply andb_true_iff in H as [_ H].
  destruct side; apply Qle_bool_iff in H; unfold on_profit_side in *; lra.
Qed.

Lemma leg_pnl_profit side entry price qty :
  0 <= qty -> on_profit_side side entry price ->
  (0 <= leg_pnl side entry price qty)%Q.
Proof. intros Hq Hs. apply leg_pnl_nonneg; [exact Hq | exact Hs]. Qed.

Lemma book_target1_realized p i price s :
  (forall t, target_price p = Some t ->
             on_profit_side (entry_side p) (entry_price p) t) ->
  (realized_pnl s <= realized_pnl (book_target1 p i price s))%Q.
Proof.
  intros Ht. unfold book_target1.
  destruct (_ && _ && _ && _) eqn:E; [|lra].
  apply andb_true_iff in E as [_ E].
  destruct (_ >? 0) eqn:Eq; [|lra]. apply Z.gtb_lt in Eq.
  destruct (close1_ok i); [|simpl; lra]. simpl.
  pose proof (leg_pnl_profit (entry_side p) (entry_price p) price _
                (Z.lt_le_incl _ _ Eq)
                (target_touched_profit _ _ _ _ Ht E)) as Hl.
  lra.
Qed.

Lemma book_target2_realized p i price s :
  (forall t, second_target_price p = Some t ->
             on_profit_side (entry_side p) (entry_price p) t) ->
  (realized_pnl s <= realized_pnl (book_target2 p i price s))%Q.
Proof.
  intros Ht. unfold book_target2, target2_due.
  destruct (_ && _ && _ && _ && _) eqn:E; [|lra].
  apply andb_true_iff in E as [_ E].
  destruct (_ >? 0) eqn:Eq; [|lra]. apply Z.gtb_lt in Eq.
  destruct (close2_ok i); [|simpl; lra].
  pose proof (leg_pnl_profit (entry_side p) (entry_price p) price _
                (Z.lt_le_incl _ _ Eq)
                (target_touched_profit _ _ _ _ Ht E)) as Hl.
  unfold repeat_target2_update, commit_target2, update_stoploss_order,
    place_stoploss_order, close_position.
  destruct (t2_sl_order i); simpl; lra.
Qed.

Lemma realized_frames cfg p i price s :
  realized_pnl (atr_trailing_update cfg p i price s) = realized_pnl s
  /\ realized_pnl (breakeven_move p i price s) = realized_pnl s
  /\ realized_pnl (outcome_state (exit_checks cfg p i price s)) = realized_pnl s
  /\ realized_pnl (forced_exit p i s) = realized_pnl s
  /\ realized_pnl (snd (daily_loss_gate cfg i s)) = realized_pnl s.
Proof.
  repeat split.
  - frame.
  - frame.
  - unfold exit_checks. frame.
  - frame.
  - unfold daily_loss_gate, check_daily_loss_limit, close_all_positions.
    case_tests; reflexivity.
Qed.

Lemma tick_realized cfg p i s :
  (forall t, target_price p = Some t \/ second_target_price p = Some t ->
             on_profit_side (entry_side p) (entry_price p) t) ->
  (realized_pnl s <= realized_pnl (outcome_state (tick cfg p i s)))%Q.
Proof.
  intros Ht.
  destruct (realized_frames cfg p i 0 s) as (_ & _ & _ & F4 & F5).
  destruct (tick_cases cfg p i s)
    as [[_ E] | [(_ & _ & E) | [(_ & _ & E) | (price & _ & _ & _ & _ & E)]]];
    rewrite E; simpl.
  - rewrite F4. lra.
  - destruct (realized_frames cfg p i 0 (snd (daily_loss_gate cfg i s)))
      as (_ & _ & _ & F4' & _).
    rewrite F4', F5. lra.
  - rewrite F5. lra.
  - unfold priced_pass.
    set (s0 := snd (daily_loss_gate cfg i s)) in *.
    set (s1 := atr_trailing_update cfg p i price (set_last_price price s0)).
    destruct (realized_frames cfg p i price (partial_booking cfg p i price s1))
      as (_ & _ & F3 & _).
    rewrite F3.
    assert (E1 : realized_pnl s1 = realized_pnl s).
    { unfold s1.
      destruct (realized_frames cfg p i price (set_last_price price s0))
        as (F1 & _). rewrite F1. simpl. exact F5. }
    unfold partial_booking. destruct (USE_PARTIAL_BOOKING cfg); [|rewrite E1; lra].
    destruct (realized_frames cfg p i price s1) as (_ & F2 & _).
    pose proof (book_target1_realized p i price (breakeven_move p i price s1)
                  (fun t H => Ht t (or_introl H))) as B1.
    pose proof (book_target2_realized p i price
                  (book_target1 p i price (breakeven_move p i price s1))
                  (fun t H => Ht t (or_intror H))) as B2.
    rewrite F2, E1 in B1. lra.
Qed.

Lemma offset_on_profit_side side entry k r :
  (0 <= k)%Q -> (0 <= r)%Q ->
  on_profit_side side entry (offset_from_entry side entry (k * r)).
Proof.
  intros Hk Hr.
  assert (Hm : (0 <= k * r)%Q) by (apply Qmult_le_0_compat; assumption).
  destruct side; unfold on_profit_side, offset_from_entry; lra.
Qed.

(** X4.  Partial legs only ever add profit: with target multiples that are
    not negative, the realised P&L of a trade is zero or more at the head of
    every pass of the monitoring loop, and no pass lowers it. *)
Theorem realized_pnl_never_negative
    (cfg : Config) (side : Side) (entry sl : Q) (qty number : Z)
    (s0 s : St) (i : Tick) :
  (0 <= PARTIAL_BOOKING_FIRST_TARGET_R cfg)%Q ->
  (0 <= PARTIAL_BOOKING_SECOND_TARGET_R cfg)%Q ->
  let p := setup_trade cfg side entry sl qty number in
  loop_head cfg p s0 s ->
  (0 <= realized_pnl s)%Q
  /\ (realized_pnl s <= realized_pnl (outcome_state (tick cfg p i s)))%Q.
Proof.
  intros H1 H2. cbv zeta. intros Hl.
  set (p := setup_trade cfg side entry sl qty number) in *.
  assert (Ht : forall t, target_price p = Some t \/ second_target_price p = Some t ->
                         on_profit_side (entry_side p) (entry_price p) t).
  { intros t. unfold p, setup_trade.
    cbn [target_price second_target_price entry_side entry_price].
    destruct (PROFIT_TARGET_IS_RATIO cfg); [|intros [H | H]; discriminate].
    pose proof (Qabs_nonneg (entry - sl)) as Hk.
    intros [H | H]; inversion H; apply offset_on_profit_side; assumption. }
  split; [|apply tick_realized, Ht].
  induction Hl as [|j s s' Hl IH Hj].
  - simpl. lra.
  - pose proof (tick_realized cfg p j s Ht) as Hs. rewrite Hj in Hs.
    simpl in Hs. lra.
Qed.

Lemma realized_pnl_never_negative_witness :
  (0 <= realized_pnl
          (outcome_state (tick config Scenario.long_trade
                            (Scenario.poll 106 None true true)
                            Scenario.long_start)))%Q.
Proof.
  refine (proj1 (realized_pnl_never_negative config BUY 100 90 10 1
                   (run_startup 20000 KiteApp_init) _
                   Scenario.gap_up _ _ _)).
  - q_decide.
  - q_decide.
  - apply (lh_pass _ _ _ (Scenario.poll 106 None true true) Scenario.long_start).
    + apply lh_begin.
    + vm_compute. reflexivity.
Defined.


(** *** The trade record *)

Lemma trades_frames cfg p i price s :
  trades (atr_trailing_update cfg p i price s) = trades s
  /\ trades (breakeven_move p i price s) = trades s
  /\ trades (book_target1 p i price s) = trades s
  /\ trades (book_target2 p i price s) = trades s
  /\ trades (snd (daily_loss_gate cfg i s)) = trades s.
Proof.
  repeat split.
  - frame.
  - frame.
  - frame.
  - unfold book_target2. destruct (target2_due p price s) as [[cq q]|];
      [frame | reflexivity].
  - unfold daily_loss_gate, check_daily_loss_limit, close_all_positions.
    case_tests; reflexivity.
Qed.

(** A full exit appends the trade when the order is accepted, and nothing
    otherwise. *)
Lemma full_exit_trades r p price ok s :
  let s' := full_exit r p price ok s in
  (ok = false /\ trades s' = trades s)
  \/ (ok = true
      /\ exists t, trades s' = trades s ++ [t]
         /\ t_entry_side t = entry_side p /\ t_entry_price t = entry_price p
         /\ t_entry_qty t = quantity p /\ t_exit_price t = price
         /\ t_pnl t = (realized_pnl s
                       + leg_pnl (entry_side p) (entry_price p) price
                           (exit_qty_of p s))%Q).
Proof.
  cbv zeta. unfold full_exit. destruct ok; [right | left; split; reflexivity].
  split; [reflexivity|]. eexists.
  split; [destruct r; reflexivity|]. repeat split; reflexivity.
Qed.

Lemma tick_trades cfg p i s :
  let o := tick cfg p i s in
  match o with
  | Continue s' => trades s' = trades s
  | Break s' | ReturnFalse s' =>
      trades s' = trades s
      \/ exists t, trades s' = trades s ++ [t]
           /\ t_entry_side t = entry_side p /\ t_entry_price t = entry_price p
           /\ t_entry_qty t = quantity p
  end.
Proof.
  cbv zeta.
  assert (F : forall r price ok s1,
            trades s1 = trades s ->
            trades (full_exit r p price ok s1) = trades s
            \/ exists t, trades (full_exit r p price ok s1) = trades s ++ [t]
                 /\ t_entry_side t = entry_side p /\ t_entry_price t = entry_price p
                 /\ t_entry_qty t = quantity p).
  { intros r price ok s1 H1.
    destruct (full_exit_trades r p price ok s1)
      as [[_ H] | [_ (t & H & A & B & C & _)]].
    - left. congruence.
    - right. exists t. rewrite H, H1. repeat split; assumption. }
  assert (G : forall s1, trades s1 = trades s ->
            trades (forced_exit p i s1) = trades s
            \/ exists t, trades (forced_exit p i s1) = trades s ++ [t]
                 /\ t_entry_side t = entry_side p /\ t_entry_price t = entry_price p
                 /\ t_entry_qty t = quantity p).
  { intros s1 H1. unfold forced_exit.
    destruct (_ >? 0); [apply F, H1 | left; exact H1]. }
  destruct (trades_frames cfg p i 0 s) as (_ & _ & _ & _ & T5).
  destruct (tick_cases cfg p i s)
    as [[_ E] | [(_ & _ & E) | [(_ & _ & E) | (price & _ & _ & _ & _ & E)]]];
    rewrite E.
  - apply G. reflexivity.
  - apply G. exact T5.
  - exact T5.
  - unfold priced_pass.
    set (s1 := atr_trailing_update cfg p i price
                 (set_last_price price (snd (daily_loss_gate cfg i s)))).
    assert (E1 : trades (partial_booking cfg p i price s1) = trades s).
    { assert (E0 : trades s1 = trades s).
      { unfold s1.
        destruct (trades_frames cfg p i price
                    (set_last_price price (snd (daily_loss_gate cfg i s))))
          as (A & _). rewrite A. simpl. exact T5. }
      unfold partial_booking. destruct (USE_PARTIAL_BOOKING cfg); [|exact E0].
      destruct (trades_frames cfg p i price
                  (book_target1 p i price (breakeven_move p i price s1)))
        as (_ & _ & _ & D & _).
      destruct (trades_frames cfg p i price (breakeven_move p i price s1))
        as (_ & _ & C & _).
      destruct (trades_frames cfg p i price s1) as (_ & B & _).
      congruence. }
    unfold exit_checks.
    destruct (_ && _ && _); [apply F, E1|].
    destruct (_ && _); [apply F, E1 | exact E1].
Qed.

(** X5.  A run of the monitoring loop records the trade at most once: while
    the loop continues [self.trades] is untouched, and when it ends the list
    is either unchanged (the final order was rejected, or there was nothing
    to close) or longer by the one trade of this loop. *)
Theorem loop_records_trade_at_most_once
    (cfg : Config) (p : TradeParams) (ticks : list Tick) (s : St) :
  match run_loop cfg p ticks s with
  | Continue s' => trades s' = trades s
  | Break s' | ReturnFalse s' =>
      trades s' = trades s
      \/ exists t, trades s' = trades s ++ [t]
           /\ t_entry_side t = entry_side p /\ t_entry_price t = entry_price p
           /\ t_entry_qty t = quantity p
  end.
Proof.
  revert s. induction ticks as [|i rest IH]; intros s; [reflexivity|].
  simpl. pose proof (tick_trades cfg p i s) as H. cbv zeta in H.
  destruct (tick cfg p i s) as [s1 | s1 | s1]; try exact H.
  specialize (IH s1). rewrite H in IH. exact IH.
Qed.

(** *** Leaving the loop *)

Lemma exit_qty_positive p s : 1 <= quantity p -> 0 < exit_qty_of p s.
Proof.
  intros H. unfold exit_qty_of.
  destruct (_ && _) eqn:E; [|lia].
  apply andb_true_iff in E as [_ E]. apply Z.gtb_lt in E. exact E.
Qed.

Lemma last_price_breakeven p i price s :
  last_price (breakeven_move p i price s) = last_price s.
Proof. frame. Qed.

Lemma last_price_target1 p i price s :
  last_price (book_target1 p i price s) = last_price s.
Proof. frame. Qed.

Lemma last_price_target2 p i price s :
  last_price (book_target2 p i price s) = last_price s.
Proof.
  unfold book_target2. destruct (target2_due p price s) as [[cq q]|];
    [frame | reflexivity].
Qed.

(** X6.  The loop goes on only while the stop holds: a pass of a trade of at
    least one share that read a quote and lets the loop continue leaves the
    quote as the last price and strictly on the safe side of the stop; and a
    pass at the close of the day always leaves the loop. *)
Theorem loop_continues_clear_of_stop
    (cfg : Config) (p : TradeParams) (i : Tick) (s s' : St) (price : Q) :
  1 <= quantity p ->
  quote i = Some price -> truthy price = true ->
  (tick cfg p i s = Continue s' ->
     last_price s' = price /\ clear_of_stop (entry_side p) (sl_price s') price)
  /\ (at_eod i = true -> tick cfg p i s = Break (forced_exit p i s)).
Proof.
  intros Hq Hp Ht. split.
  - unfold tick. destruct (at_eod i); [discriminate|].
    destruct (daily_loss_gate cfg i s) as [[|] s1]; simpl; [|discriminate].
    rewrite Hp, Ht. unfold priced_pass.
    set (s2 := partial_booking cfg p i price _).
    assert (L : last_price s2 = price).
    { unfold s2, partial_booking.
      assert (A : forall s0, last_price (atr_trailing_update cfg p i price s0)
                             = last_price s0) by frame.
      destruct (USE_PARTIAL_BOOKING cfg); [|now rewrite A].
      rewrite last_price_target2, last_price_target1, last_price_breakeven, A.
      reflexivity. }
    clearbody s2. unfold exit_checks.
    pose proof (exit_qty_positive p s2 Hq) as Hx. apply Z.gtb_lt in Hx.
    rewrite Hx, !andb_true_r.
    destruct (_ && _); [discriminate|].
    destruct (entry_side p); simpl;
      destruct (Qle_bool _ _) eqn:E; try discriminate;
      intros H; injection H as <-; (split; [exact L|]);
      apply Qle_bool_gt in E; exact E.
  - intros He. unfold tick. now rewrite He.
Qed.

Lemma loop_continues_clear_of_stop_witness :
  clear_of_stop BUY
    (sl_price (outcome_state (tick config Scenario.long_trade Scenario.gap_up
                                Scenario.long_start))) 116.
Proof.
  refine (proj2 (proj1 (loop_continues_clear_of_stop config Scenario.long_trade
                          Scenario.gap_up Scenario.long_start _ 116 _ _ _) _)).
  - vm_compute. discriminate.
  - reflexivity.
  - reflexivity.
  - vm_compute. reflexivity.
Defined.


Lemma exit_qty_held p s0 s :
  quantity_held p s0 s -> exit_qty_of p s = remaining_quantity s.
Proof.
  intros [_ H]. unfold exit_qty_of, truthyZ.
  destruct (remaining_quantity s =? 0) eqn:E; [apply Z.eqb_eq in E; lia|].
  destruct (remaining_quantity s >? 0) eqn:E'; [reflexivity|].
  rewrite Z.gtb_ltb in E'. apply Z.ltb_ge in E'. lia.
Qed.

Lemma full_exit_closes_all r p s0 price s :
  quantity_held p s0 s ->
  exited_since s0 (full_exit r p price true s) = quantity p.
Proof.
  intros H. pose proof (exit_qty_held p s0 s H) as Ex. destruct H as [H1 H2].
  unfold exited_since in *.
  assert (E : exited_legs (full_exit r p price true s)
              = exited_legs s ++ [remaining_quantity s]).
  { unfold full_exit. rewrite Ex. destruct r; reflexivity. }
  rewrite E, sumZ_app. unfold sumZ at 2. simpl. lia.
Qed.

(** X7.  When the loop of a trade of at least one share ends with a [break]
    whose closing order the broker accepts, the legs exited since the entry
    add up to the initial quantity: the whole position is closed. *)
Theorem break_closes_whole_position
    (cfg : Config) (p : TradeParams) (s0 s s' : St) (i : Tick) :
  1 <= quantity p ->
  loop_head cfg p s0 s ->
  tick cfg p i s = Break s' ->
  final_ok i = true ->
  exited_since s0 s' = quantity p.
Proof.
  intros Hq Hl Ht Hok.
  pose proof (quantity_held_loop_head cfg p s0 s Hq Hl) as H.
  pose proof (quantity_held_tick_points cfg p s0 i s H) as Hp.
  assert (broke : forall r price s1,
            quantity_held p s0 s1 ->
            Break (full_exit r p price true s1) = Break s' ->
            exited_since s0 s' = quantity p).
  { intros r price s1 Hh E. apply (f_equal outcome_state) in E.
    cbn [outcome_state] in E. rewrite <- E. apply full_exit_closes_all, Hh. }
  revert Ht Hp. unfold tick, tick_points.
  destruct (at_eod i).
  - intros Ht _. revert Ht. unfold forced_exit.
    pose proof (exit_qty_positive p s Hq) as Hx. apply Z.gtb_lt in Hx.
    rewrite Hx, Hok. apply broke; exact H.
  - destruct (daily_loss_gate cfg i s) as [[|] s1]; simpl; [|discriminate].
    destruct (quote i) as [price|]; [|discriminate].
    destruct (truthy price); [|discriminate].
    rewrite priced_pass_last_point. intros Ht Hp.
    assert (Hh : quantity_held p s0 (List.last (pass_points cfg p i price s1) s1)).
    { apply Forall_last; [|exact Hp].
      unfold pass_points in Hp.
      destruct (USE_PARTIAL_BOOKING cfg).
      - apply Forall_cons_1 in Hp as [Ha _].
        destruct (atr_trailing_update_frame cfg p i price (set_last_price price s1))
          as (A & B & _).
        eapply quantity_held_same; [| |exact Ha]; [now rewrite A | now rewrite B].
      - apply Forall_cons_1 in Hp as [Ha _].
        destruct (atr_trailing_update_frame cfg p i price (set_last_price price s1))
          as (A & B & _).
        eapply quantity_held_same; [| |exact Ha]; [now rewrite A | now rewrite B]. }
    revert Ht. unfold exit_checks. rewrite Hok.
    destruct (_ && _ && _); [apply broke; exact Hh|].
    destruct (_ && _); [|discriminate]. apply broke; exact Hh.
Qed.

(** The sample long is stopped out at 89 on the first pass. *)
Lemma break_closes_whole_position_witness :
  exited_since (run_startup 20000 KiteApp_init)
    (outcome_state (tick config Scenario.long_trade
                      (Scenario.poll 89 None true true) Scenario.long_start))
  = quantity Scenario.long_trade.
Proof.
  apply (break_closes_whole_position config Scenario.long_trade
           (run_startup 20000 KiteApp_init) Scenario.long_start _
           (Scenario.poll 89 None true true)).
  - vm_compute. discriminate.
  - apply lh_begin.
  - vm_compute. reflexivity.
  - reflexivity.
Defined.


(** *** Each leg is booked once *)

Lemma legs_match_flags_same p s0 s s' :
  exited_legs s' = exited_legs s ->
  first_partial_booked s' = first_partial_booked s ->
  second_partial_booked s' = second_partial_booked s ->
  legs_match_flags p s0 s -> legs_match_flags p s0 s'.
Proof. unfold legs_match_flags. intros -> -> ->. exact (fun H => H). Qed.

Lemma book_target1_cases p i price s :
  let s' := book_target1 p i price s in
  (exited_legs s' = exited_legs s
   /\ first_partial_booked s' = first_partial_booked s
   /\ second_partial_booked s' = second_partial_booked s)
  \/ (first_partial_booked s = false /\ first_partial_booked s' = true
      /\ second_partial_booked s' = second_partial_booked s
      /\ exists q, exited_legs s' = exited_legs s ++ [q]
                   /\ 0 < q <= first_close_qty p).
Proof.
  cbv zeta. unfold book_target1.
  destruct (negb (first_partial_booked s)) eqn:Ef;
    [|left; repeat split; reflexivity].
  apply negb_true_iff in Ef. cbn [andb].
  destruct (_ && _ && _); [|left; repeat split; reflexivity].
  destruct (_ >? 0) eqn:Eq; [|left; repeat split; reflexivity].
  apply Z.gtb_lt in Eq.
  destruct (close1_ok i); [|left; repeat split; reflexivity].
  right. split; [exact Ef|]. split; [reflexivity|]. split; [reflexivity|].
  eexists. split; [reflexivity|]. lia.
Qed.

Lemma book_target2_cases p i price s :
  let s' := book_target2 p i price s in
  (exited_legs s' = exited_legs s
   /\ first_partial_booked s' = first_partial_booked s
   /\ second_partial_booked s' = second_partial_booked s)
  \/ (first_partial_booked s = true /\ second_partial_booked s = false
      /\ first_partial_booked s' = true /\ second_partial_booked s' = true
      /\ exists q, exited_legs s' = exited_legs s ++ [q]
                   /\ 0 < q <= second_close_qty p).
Proof.
  cbv zeta. unfold book_target2, target2_due.
  destruct (first_partial_booked s) eqn:Ef;
    [|cbn [andb]; left; repeat split; first [reflexivity | assumption]].
  destruct (second_partial_booked s) eqn:Es;
    [cbn [andb negb]; left; repeat split; first [reflexivity | assumption]|].
  cbn [andb negb].
  destruct (_ && _ && _);
    [|left; repeat split; first [reflexivity | assumption]].
  destruct (_ >? 0) eqn:Eq;
    [|left; repeat split; first [reflexivity | assumption]].
  apply Z.gtb_lt in Eq.
  destruct (close2_ok i);
    [|left; repeat split; first [reflexivity | assumption]].
  right. split; [reflexivity|]. split; [reflexivity|].
  assert (F : forall s1, first_partial_booked s1 = true ->
              first_partial_booked
                (repeat_target2_update (current_quantity_of p s)
                   (Z.min (second_close_qty p)
                      (Z.max (current_quantity_of p s - 1) 0))
                   (commit_target2 p i price (current_quantity_of p s)
                      (Z.min (second_close_qty p)
                         (Z.max (current_quantity_of p s - 1) 0)) s1)) = true)
    by (intros s1 H1; unfold_exit_ops; case_tests; exact H1).
  split; [apply F; exact Ef|].
  split; [unfold_exit_ops; case_tests; reflexivity|].
  eexists. split; [unfold_exit_ops; case_tests; reflexivity|]. lia.
Qed.

Lemma legs_match_flags_pass cfg p s0 i price s :
  legs_match_flags p s0 s ->
  legs_match_flags p s0
    (partial_booking cfg p i price
       (atr_trailing_update cfg p i price (set_last_price price s))).
Proof.
  intros H.
  set (s1 := atr_trailing_update cfg p i price (set_last_price price s)).
  assert (H1 : legs_match_flags p s0 s1).
  { destruct (atr_trailing_update_frame cfg p i price (set_last_price price s))
      as (_ & A & B & C & _).
    eapply legs_match_flags_same; [exact A | exact B | exact C | exact H]. }
  unfold partial_booking. destruct (USE_PARTIAL_BOOKING cfg); [|exact H1].
  set (s2 := breakeven_move p i price s1).
  assert (H2 : legs_match_flags p s0 s2).
  { destruct (breakeven_move_frame p i price s1) as (_ & A & B & C & _).
    eapply legs_match_flags_same; [exact A | exact B | exact C | exact H1]. }
  set (s3 := book_target1 p i price s2).
  assert (H3 : legs_match_flags p s0 s3).
  { destruct (book_target1_cases p i price s2)
      as [(A & B & C) | (Ef & Ef' & Es & q & Eq & Hq)].
    - eapply legs_match_flags_same; [exact A | exact B | exact C | exact H2].
    - destruct H2 as (legs & El & Hm). fold s3 in Ef', Es, Eq.
      rewrite Ef in Hm. unfold legs_match_flags.
      exists (legs ++ [q]). rewrite Eq, El, Ef', Es, app_assoc.
      split; [reflexivity|].
      destruct (second_partial_booked s2); [contradiction|].
      subst legs. exists q. split; [reflexivity | exact Hq]. }
  destruct (book_target2_cases p i price s3)
    as [(A & B & C) | (Ef & Es & Ef' & Es' & q & Eq & Hq)].
  - eapply legs_match_flags_same; [exact A | exact B | exact C | exact H3].
  - destruct H3 as (legs & El & Hm). rewrite Ef, Es in Hm.
    destruct Hm as (q1 & -> & Hq1). unfold legs_match_flags.
    exists [q1; q]. rewrite Eq, El, Ef', Es', <- app_assoc.
    split; [reflexivity|]. exists q1, q. repeat split; lia.
Qed.

Lemma legs_match_flags_loop_head cfg p s0 s :
  loop_head cfg p s0 s -> legs_match_flags p s0 s.
Proof.
  intros Hl. induction Hl as [|i s s' Hl IH Ht].
  - exists []. split; [symmetry; apply app_nil_r | reflexivity].
  - revert Ht. unfold tick. destruct (at_eod i); [discriminate|].
    pose proof (daily_loss_gate_continue cfg i s) as Hg.
    destruct (daily_loss_gate_frame cfg i s) as (_ & _ & G2 & _).
    destruct (daily_loss_gate cfg i s) as [[|] s1]; simpl in *; [|discriminate].
    destruct (Hg eq_refl) as (Gb & G1 & _).
    assert (H1 : legs_match_flags p s0 s1).
    { eapply legs_match_flags_same; [| exact G1 | exact G2 | exact IH].
      unfold exited_legs. now rewrite Gb. }
    destruct (quote i) as [price|]; [|intros E; injection E as <-; exact H1].
    destruct (truthy price); [|intros E; injection E as <-; exact H1].
    unfold priced_pass. intros E. apply exit_checks_continue in E. subst s'.
    apply legs_match_flags_pass, H1.
Qed.

(** X8.  Each partial leg is booked at most once and in order: at the head
    of every pass the legs exited since the entry are none, the first leg,
    or the first and then the second, as the two stage flags say; each is
    positive and no larger than its ladder quantity, and the second stage is
    never flagged without the first. *)
Theorem legs_booked_once
    (cfg : Config) (p : TradeParams) (s0 s : St) :
  loop_head cfg p s0 s ->
  legs_match_flags p s0 s
  /\ (second_partial_booked s = true -> first_partial_booked s = true).
Proof.
  intros Hl. pose proof (legs_match_flags_loop_head cfg p s0 s Hl) as H.
  split; [exact H|]. destruct H as (legs & _ & Hm).
  destruct (first_partial_booked s), (second_partial_booked s);
    try reflexivity; try discriminate; contradiction.
Qed.

(** The sample long after the pass at 116 has booked both legs, 2 and 5. *)
Lemma legs_booked_once_witness :
  legs_match_flags Scenario.long_trade (run_startup 20000 KiteApp_init)
    (outcome_state (tick config Scenario.long_trade Scenario.gap_up
                      Scenario.long_start)).
Proof.
  refine (proj1 (legs_booked_once config Scenario.long_trade
                   (run_startup 20000 KiteApp_init) _ _)).
  apply (lh_pass _ _ _ Scenario.gap_up Scenario.long_start).
  - apply lh_begin.
  - vm_compute. reflexivity.
Defined.


(** *** Emergency close *)

Lemma check_daily_loss_limit_orders cfg positions s :
  let s' := snd (check_daily_loss_limit cfg positions s) in
  broker s' = broker s /\ last_price s' = last_price s
  /\ remaining_quantity s' = remaining_quantity s.
Proof.
  cbv zeta. unfold check_daily_loss_limit.
  rewrite close_all_positions_state.
  repeat split; case_tests; reflexivity.
Qed.

(** X9.  The emergency close places no order.  [close_all_positions]
    iterates the keys of the positions dict, so it returns [True] only for
    an empty dict and otherwise fails with [False] before any order, leaving
    the bot as it is; [check_daily_loss_limit], which calls it when the
    limit is hit, therefore never adds to the orders sent to the broker;
    and a pass of the monitoring loop that ends on the daily loss limit
    sends at most one order, the close of the quantity the trade itself
    still holds, at the last observed price. *)
Theorem emergency_close_places_no_order
    (cfg : Config) (positions : Positions) (s : St) :
  snd (close_all_positions positions s) = s
  /\ (fst (close_all_positions positions s) = true <-> positions = [])
  /\ broker (snd (check_daily_loss_limit cfg positions s)) = broker s
  /\ (forall p i s',
        tick cfg p i s = ReturnFalse s' ->
        broker s' = broker s
        \/ broker s'
           = ClosePosition (exit_qty_of p s) (last_price s) (final_ok i)
             :: broker s).
Proof.
  split; [apply close_all_positions_state|]. split.
  { unfold close_all_positions. destruct positions as [|[k v] rest]; simpl.
    - split; reflexivity.
    - split; discriminate. }
  split; [apply check_daily_loss_limit_orders|].
  intros p i s' E.
  destruct (tick_cases cfg p i s)
    as [[_ E'] | [(_ & _ & E') | [(_ & _ & E') | (price & _ & _ & _ & _ & E')]]].
  - congruence.
  - rewrite E' in E. injection E as <-.
    assert (Hg : broker (snd (daily_loss_gate cfg i s)) = broker s
                 /\ last_price (snd (daily_loss_gate cfg i s)) = last_price s
                 /\ remaining_quantity (snd (daily_loss_gate cfg i s))
                    = remaining_quantity s).
    { unfold daily_loss_gate. destruct (USE_DAILY_LOSS_LIMIT cfg);
        [apply check_daily_loss_limit_orders | repeat split]. }
    destruct Hg as (Hb & Hp & Hq).
    set (s1 := snd (daily_loss_gate cfg i s)) in *.
    assert (Hx : exit_qty_of p s1 = exit_qty_of p s)
      by (unfold exit_qty_of; rewrite Hq; reflexivity).
    unfold forced_exit. destruct (exit_qty_of p s1 >? 0); [|left; exact Hb].
    right. unfold full_exit, close_position. rewrite Hx, Hp.
    case_tests; simpl; rewrite Hb; reflexivity.
  - congruence.
  - rewrite E' in E. unfold priced_pass, exit_checks in E.
    revert E. case_tests; discriminate.
Qed.

End ExitMore.


(** ** More on the entry search *)

Module SignalMore.
Import SignalEvaluator SignalFacts.

Local Open Scope Z_scope.

(** X10.  Among the symbols of a pass the first that fires wins: when the
    symbols scanned before it fire nothing, its signal is the result of the
    pass, whatever symbols follow, and those are not scanned (the pending
    retests are as that symbol left them). *)
Theorem first_signal_wins
    (cfg : Config) (env : Env) (w : Window)
    (pending pending1 pending2 : gmap string Retest)
    (before after : list (string * SymbolData * Feed))
    (symbol : string) (data : SymbolData) (feed : Feed)
    (side : Side) (price : Q) :
  scan_symbols cfg env w pending before = (pending1, None) ->
  scan_symbol cfg env w pending1 symbol data feed = (pending2, Signal side price) ->
  scan_symbols cfg env w pending (before ++ (symbol, data, feed) :: after)
  = (pending2, Some (symbol, side, price)).
Proof.
  revert pending. induction before as [|[[sy d] f] rest IH]; intros pending Hb Hs.
  - simpl in Hb. injection Hb as <-. simpl. now rewrite Hs.
  - simpl in Hb |- *.
    destruct (scan_symbol cfg env w pending sy d f) as [pm v].
    destruct v; try (apply IH; assumption). discriminate.
Qed.

(** The sample retest fires for the second symbol of the pass; the first
    symbol has no candle yet. *)
Lemma first_signal_wins_witness :
  scan_symbols config EntryScenario.calm_market PRIMARY
    {["TATASTEEL"%string := EntryScenario.waiting]}
    ([("GOKEX"%string, EntryScenario.setup,
       {| f_candle := None; f_minutes := 950; f_volume_history := None;
          f_trend_vwap := None; f_liquidity_ok := true |})]
     ++ ("TATASTEEL"%string, EntryScenario.setup, EntryScenario.strong_volume_feed)
        :: [("INFY"%string, EntryScenario.setup, EntryScenario.weak_volume_feed)])
  = (delete "TATASTEEL"%string
       (<["TATASTEEL"%string := advance EntryScenario.waiting EntryScenario.retest_candle]>
          {["TATASTEEL"%string := EntryScenario.waiting]}),
     Some ("TATASTEEL"%string, BUY, (1008 # 10)%Q)).
Proof.
  apply (first_signal_wins config EntryScenario.calm_market PRIMARY _
           {["TATASTEEL"%string := EntryScenario.waiting]}).
  - reflexivity.
  - vm_compute. reflexivity.
Defined.

(** *** Pending retests *)

Lemma scan_symbol_other cfg env w pending symbol data feed other :
  other <> symbol ->
  fst (scan_symbol cfg env w pending symbol data feed) !! other = pending !! other.
Proof.
  intros Hne. unfold scan_symbol, retest_chain, breakout_chain.
  case_tests; simpl;
    rewrite ?lookup_delete_ne, ?lookup_insert_ne by congruence; reflexivity.
Qed.

Lemma scan_symbol_same cfg env w pending symbol data feed state :
  0 <= RETEST_MAX_CANDLES cfg ->
  (forall st, pending !! symbol = Some st ->
              0 <= r_candles_waited st <= RETEST_MAX_CANDLES cfg) ->
  fst (scan_symbol cfg env w pending symbol data feed) !! symbol = Some state ->
  0 <= r_candles_waited state <= RETEST_MAX_CANDLES cfg.
Proof.
  intros Hm Hp. unfold scan_symbol.
  destruct (_ >=? _); [apply Hp|].
  destruct (f_candle feed) as [c|]; [|apply Hp].
  destruct (if USE_RETEST_ENTRY cfg then pending !! symbol else None)
    as [st|] eqn:Est.
  - assert (Hst : pending !! symbol = Some st)
      by (destruct (USE_RETEST_ENTRY cfg); [exact Est | discriminate]).
    specialize (Hp st Hst) as Hw.
    unfold retest_chain.
    destruct (bool_decide _); [apply Hp|]. cbn [r_candles_waited].
    destruct (_ >? _) eqn:Et;
      [simpl; rewrite lookup_delete_eq; discriminate|].
    rewrite Z.gtb_ltb in Et. apply Z.ltb_ge in Et.
    case_tests; simpl; rewrite ?lookup_delete_eq, ?lookup_insert_eq;
      try discriminate; intros E; injection E as <-; simpl; lia.
  - assert (Hb : forall side trigger vc,
              fst (breakout_chain cfg env w pending symbol side trigger c vc feed)
                !! symbol = Some state ->
              0 <= r_candles_waited state <= RETEST_MAX_CANDLES cfg).
    { intros side trigger vc. unfold breakout_chain.
      case_tests; simpl; try apply Hp.
      rewrite lookup_insert_eq. intros E; injection E as <-; simpl. lia. }
    case_tests; try apply Hb. apply Hp.
Qed.

Lemma reachable_pending_waits cfg pending :
  0 <= RETEST_MAX_CANDLES cfg ->
  reachable_pending cfg pending ->
  forall symbol state,
    pending !! symbol = Some state ->
    0 <= r_candles_waited state <= RETEST_MAX_CANDLES cfg.
Proof.
  intros Hm Hr. induction Hr as [|env w pending sy data feed Hr IH].
  - intros symbol state H. rewrite lookup_empty in H. discriminate.
  - intros symbol state H. destruct (decide (symbol = sy)) as [->|Hne].
    + eapply scan_symbol_same; [exact Hm | | exact H]. intros st. apply IH.
    + rewrite scan_symbol_other in H by exact Hne. eapply IH, H.
Qed.

(** X11.  A pending retest never waits beyond the limit: in every
    pending-retest dict the entry search can build, each record has waited
    between 0 and [RETEST_MAX_CANDLES] candles; and a symbol whose scan ends
    in a retest timeout or in a signal of a pending retest has no record
    afterwards. *)
Theorem pending_retest_wait_bounded
    (cfg : Config) (env : Env) (w : Window) (pending : gmap string Retest)
    (symbol : string) (data : SymbolData) (feed : Feed) :
  0 <= RETEST_MAX_CANDLES cfg ->
  reachable_pending cfg pending ->
  (forall sy state,
     pending !! sy = Some state ->
     0 <= r_candles_waited state <= RETEST_MAX_CANDLES cfg)
  /\ (snd (scan_symbol cfg env w pending symbol data feed) = Skipped RetestTimeout ->
      fst (scan_symbol cfg env w pending symbol data feed) !! symbol = None)
  /\ (forall side price,
        USE_RETEST_ENTRY cfg = true ->
        snd (scan_symbol cfg env w pending symbol data feed) = Signal side price ->
        fst (scan_symbol cfg env w pending symbol data feed) !! symbol = None).
Proof.
  intros Hm Hr. split; [apply reachable_pending_waits; assumption|].
  assert (Hb : forall side trigger c vc r,
            r = Skipped RetestTimeout \/ (exists sd pr, r = Signal sd pr /\ USE_RETEST_ENTRY cfg = true) ->
            snd (breakout_chain cfg env w pending symbol side trigger c vc feed) = r ->
            fst (breakout_chain cfg env w pending symbol side trigger c vc feed)
              !! symbol = None).
  { intros side trigger c vc r Hor. unfold breakout_chain.
    destruct Hor as [-> | (sd & pr & -> & He)].
    - case_tests; simpl; discriminate.
    - rewrite He. case_tests; simpl; discriminate. }
  assert (Hc : forall state c vc r,
            r = Skipped RetestTimeout \/ (exists sd pr, r = Signal sd pr) ->
            snd (retest_chain cfg env pending symbol data state c vc feed) = r ->
            fst (retest_chain cfg env pending symbol data state c vc feed)
              !! symbol = None).
  { intros state c vc r Hor. unfold retest_chain.
    destruct Hor as [-> | (sd & pr & ->)];
      case_tests; simpl; try discriminate;
      intros _; apply lookup_delete_eq. }
  split.
  - unfold scan_symbol. destruct (_ >=? _); [discriminate|].
    destruct (f_candle feed) as [c|]; [|discriminate].
    destruct (if USE_RETEST_ENTRY cfg then pending !! symbol else None) as [st|].
    + apply Hc. left. reflexivity.
    + case_tests; try discriminate; apply (Hb _ _ _ _ _ (or_introl eq_refl)).
  - intros side price He. unfold scan_symbol.
    destruct (_ >=? _); [discriminate|].
    destruct (f_candle feed) as [c|]; [|discriminate].
    destruct (if USE_RETEST_ENTRY cfg then pending !! symbol else None) as [st|].
    + apply Hc. right. eauto.
    + case_tests; try discriminate; apply Hb; right; eauto.
Qed.

Lemma pending_retest_wait_bounded_witness :
  0 <= r_candles_waited EntryScenario.waiting <= RETEST_MAX_CANDLES config.
Proof.
  refine (proj1 (pending_retest_wait_bounded config EntryScenario.calm_market
                   PRIMARY _ "TATASTEEL" EntryScenario.setup
                   EntryScenario.weak_volume_feed _ _)
            "TATASTEEL"%string EntryScenario.waiting _).
  - vm_compute. discriminate.
  - apply (rp_scan config EntryScenario.calm_market PRIMARY ∅ "TATASTEEL"
             EntryScenario.setup EntryScenario.weak_volume_feed), rp_empty.
  - vm_compute. reflexivity.
Defined.

(** *** What a signal guarantees *)

Lemma retest_ok_side cfg state vwap c :
  retest_ok cfg state vwap c = true ->
  match r_side state with
  | BUY => (r_trigger state < c_close c)%Q /\ (vwap < c_close c)%Q
  | SELL => (c_close c < r_trigger state)%Q /\ (c_close c < vwap)%Q
  end.
Proof.
  unfold retest_ok. destruct (r_side state); intros H;
    repeat (apply andb_true_iff in H as [H ?]);
    split; apply Qltb_lt; assumption.
Qed.

Lemma breakout_signal_shape cfg env w pending symbol s trigger c vc feed side price :
  snd (breakout_chain cfg env w pending symbol s trigger c vc feed)
    = Signal side price ->
  side = s /\ price = c_close c /\ USE_RETEST_ENTRY cfg = false.
Proof.
  unfold breakout_chain.
  repeat match goal with
         | |- context [if ?b then _ else _] => destruct b eqn:?
         end; simpl; try discriminate.
  intros E. injection E as <- <-. repeat split.
Qed.

Lemma retest_signal_shape cfg env pending symbol data st c vc feed side price :
  snd (retest_chain cfg env pending symbol data st c vc feed)
    = Signal side price ->
  side = r_side st /\ price = c_close c
  /\ c_time c <> r_last_candle_time st
  /\ match r_side st with
     | BUY => (r_trigger st < c_close c)%Q /\ (sd_vwap data < c_close c)%Q
     | SELL => (c_close c < r_trigger st)%Q /\ (c_close c < sd_vwap data)%Q
     end.
Proof.
  unfold retest_chain.
  destruct (bool_decide _) eqn:Eb; [discriminate|].
  apply bool_decide_eq_false in Eb.
  destruct (_ >? _); [discriminate|].
  destruct (negb (retest_ok _ _ _ _)) eqn:Er; [discriminate|].
  apply negb_false_iff, retest_ok_side in Er. cbn [r_side r_trigger] in Er.
  repeat match goal with
         | |- context [if ?b then _ else _] => destruct b eqn:?
         end; simpl; try discriminate;
    intros E; injection E as <- <-;
    (split; [reflexivity|]); (split; [reflexivity|]); (split; [exact Eb | exact Er]).
Qed.

Lemma signal_priced_at_close cfg env w pending symbol data feed side price :
  snd (scan_symbol cfg env w pending symbol data feed) = Signal side price ->
  exists c, f_candle feed = Some c /\ price = c_close c.
Proof.
  unfold scan_symbol. destruct (_ >=? _); [discriminate|].
  destruct (f_candle feed) as [c|]; [|discriminate].
  intros H. exists c. split; [reflexivity|].
  destruct (if USE_RETEST_ENTRY cfg then pending !! symbol else None) as [st|].
  - apply retest_signal_shape in H as (_ & -> & _). reflexivity.
  - destruct (_ && _).
    + apply breakout_signal_shape in H as (_ & -> & _). reflexivity.
    + destruct (_ && _); [|discriminate].
      apply breakout_signal_shape in H as (_ & -> & _). reflexivity.
Qed.

(** X12.  Every entry signal is priced at the close of the latest candle and
    lies beyond the VWAP in its own direction (above for a long, below for a
    short); with retest entry enabled it comes from a pending retest of the
    same side, is beyond that record's trigger, and is fired by a candle
    whose timestamp differs from the one the record saw last. *)
Theorem signal_beyond_vwap
    (cfg : Config) (env : Env) (w : Window) (pending : gmap string Retest)
    (symbol : string) (data : SymbolData) (feed : Feed)
    (side : Side) (price : Q) :
  snd (scan_symbol cfg env w pending symbol data feed) = Signal side price ->
  exists c,
    f_candle feed = Some c /\ price = c_close c
    /\ match side with
       | BUY => (sd_vwap data < price)%Q
       | SELL => (price < sd_vwap data)%Q
       end
    /\ (USE_RETEST_ENTRY cfg = true ->
        exists state,
          pending !! symbol = Some state /\ r_side state = side
          /\ c_time c <> r_last_candle_time state
          /\ match side with
             | BUY => (r_trigger state < price)%Q
             | SELL => (price < r_trigger state)%Q
             end).
Proof.
  unfold scan_symbol. destruct (_ >=? _); [discriminate|].
  destruct (f_candle feed) as [c|]; [|discriminate].
  intros H. exists c. split; [reflexivity|].
  destruct (if USE_RETEST_ENTRY cfg then pending !! symbol else None)
    as [st|] eqn:Est.
  - assert (Hst : pending !! symbol = Some st)
      by (destruct (USE_RETEST_ENTRY cfg); [exact Est | discriminate]).
    apply retest_signal_shape in H as (-> & -> & Hne & Hside).
    split; [reflexivity|].
    destruct (r_side st) eqn:Es; destruct Hside as [Ht Hv];
      (split; [exact Hv|]); intros _; exists st;
      (split; [exact Hst|]); (split; [exact Es|]); (split; [exact Hne | exact Ht]).
  - destruct (Qltb (sd_long_trigger data) (c_close c)
              && Qltb (sd_vwap data) (c_close c)) eqn:El.
    + apply andb_true_iff in El as [_ El]. apply Qltb_lt in El.
      apply breakout_signal_shape in H as (-> & -> & Hr).
      split; [reflexivity|]. split; [exact El|].
      intros Hr'. rewrite Hr in Hr'. discriminate.
    + destruct (Qltb (c_close c) (sd_short_trigger data)
                && Qltb (c_close c) (sd_vwap data)) eqn:Es; [|discriminate].
      apply andb_true_iff in Es as [_ Es]. apply Qltb_lt in Es.
      apply breakout_signal_shape in H as (-> & -> & Hr).
      split; [reflexivity|]. split; [exact Es|].
      intros Hr'. rewrite Hr in Hr'. discriminate.
Qed.

Lemma signal_beyond_vwap_witness :
  exists c,
    f_candle EntryScenario.strong_volume_feed = Some c
    /\ (1008 # 10)%Q = c_close c
    /\ (sd_vwap EntryScenario.setup < 1008 # 10)%Q
    /\ (USE_RETEST_ENTRY config = true ->
        exists state,
          ({["TATASTEEL"%string := EntryScenario.waiting]} : gmap string Retest)
            !! "TATASTEEL"%string = Some state
          /\ r_side state = BUY
          /\ c_time c <> r_last_candle_time state
          /\ (r_trigger state < 1008 # 10)%Q).
Proof.
  apply (signal_beyond_vwap config EntryScenario.calm_market PRIMARY
           {["TATASTEEL"%string := EntryScenario.waiting]} "TATASTEEL"
           EntryScenario.setup EntryScenario.strong_volume_feed BUY (1008 # 10)%Q).
  vm_compute. reflexivity.
Defined.

(** *** The index bias *)

(** X13.  The index-bias block: switched off it blocks nothing; in soft mode
    it blocks a side only against a bias of at least the strong threshold in
    the opposite direction, so never both sides and never under a neutral
    bias; in hard mode it blocks every long unless the bias is long and every
    short unless the bias is short, so a neutral bias blocks both sides. *)
Theorem nifty_bias_blocking_modes (cfg : Config) (env : Env) :
  (USE_NIFTY_FILTER cfg = false ->
     forall side, is_nifty_bias_blocking cfg env side = false)
  /\ (USE_NIFTY_FILTER cfg = true -> USE_NIFTY_SOFT_BIAS cfg = true ->
      (is_nifty_bias_blocking cfg env BUY = true <->
         e_nifty_bias env = SHORT
         /\ (NIFTY_STRONG_THRESHOLD_PCT cfg <= e_nifty_strength_pct env)%Q)
      /\ (is_nifty_bias_blocking cfg env SELL = true <->
            e_nifty_bias env = LONG
            /\ (NIFTY_STRONG_THRESHOLD_PCT cfg <= e_nifty_strength_pct env)%Q)
      /\ (is_nifty_bias_blocking cfg env BUY = false
          \/ is_nifty_bias_blocking cfg env SELL = false))
  /\ (USE_NIFTY_FILTER cfg = true -> USE_NIFTY_SOFT_BIAS cfg = false ->
      (is_nifty_bias_blocking cfg env BUY = true <-> e_nifty_bias env <> LONG)
      /\ (is_nifty_bias_blocking cfg env SELL = true <-> e_nifty_bias env <> SHORT)
      /\ (e_nifty_bias env = NEUTRAL ->
          is_nifty_bias_blocking cfg env BUY = true
          /\ is_nifty_bias_blocking cfg env SELL = true)).
Proof.
  unfold is_nifty_bias_blocking. split; [|split].
  - intros ->. reflexivity.
  - intros -> ->. cbn [negb].
    destruct (Qltb (e_nifty_strength_pct env) (NIFTY_STRONG_THRESHOLD_PCT cfg))
      eqn:E; [apply Qltb_lt in E | apply Qltb_ge in E];
      destruct (e_nifty_bias env);
      (split; [|split]);
      try (left; reflexivity); try (right; reflexivity);
      try (split; [discriminate | intros [? ?]; try discriminate; exfalso; lra]);
      (split; [intros _; split; [reflexivity | exact E] | reflexivity]).
  - intros -> ->. cbn [negb].
    destruct (e_nifty_bias env); (split; [|split]);
      try (split; [discriminate | intros H; exfalso; apply H; reflexivity]);
      try (split; [intros _; discriminate | reflexivity]);
      try discriminate; intros _; split; reflexivity.
Qed.

Lemma nifty_bias_blocking_modes_witness :
  is_nifty_bias_blocking EntryScenario.config_without_filter
    EntryScenario.calm_market BUY = false.
Proof.
  refine (proj1 (nifty_bias_blocking_modes EntryScenario.config_without_filter
                   EntryScenario.calm_market) _ BUY).
  reflexivity.
Defined.

(** *** Volume confirmation *)

(** X14.  Volume confirmation fails open and is monotone in the candle's
    volume: without a volume history (the fetch raised) or with fewer than
    five candles of history every candle is confirmed, and a candle confirmed
    on a feed stays confirmed on that feed whenever its volume is not
    smaller. *)
Theorem volume_confirmation_monotone (cfg : Config) (feed : Feed) :
  (match f_volume_history feed with
   | None => True
   | Some candles => (length candles < 5)%nat
   end ->
   forall c, check_volume_confirmation cfg feed c = true)
  /\ (forall c c',
        (c_volume c <= c_volume c')%Q ->
        check_volume_confirmation cfg feed c = true ->
        check_volume_confirmation cfg feed c' = true).
Proof.
  unfold check_volume_confirmation. split.
  - intros H c. destruct (negb _); [reflexivity|].
    destruct (f_volume_history feed) as [candles|]; [|reflexivity].
    apply Nat.ltb_lt in H. rewrite H. reflexivity.
  - intros c c' Hv. destruct (negb _); [reflexivity|].
    destruct (f_volume_history feed) as [candles|]; [|reflexivity].
    destruct (_ <? _)%nat; [reflexivity|]. cbv zeta.
    destruct (Qltb 0 _) eqn:Ea; [|exact (fun H => H)].
    apply Qltb_lt in Ea. rewrite !Qle_bool_iff. intros H.
    eapply Qle_trans; [exact H|].
    unfold Qdiv. apply Qmult_le_compat_r; [exact Hv|].
    apply Qinv_le_0_compat, Qlt_le_weak, Ea.
Qed.

Lemma volume_confirmation_monotone_witness :
  check_volume_confirmation config EntryScenario.strong_volume_feed
    {| c_time := Some 955%Z; c_open := 100; c_high := 101; c_low := 100;
       c_close := 1008 # 10; c_volume := 900000 |} = true.
Proof.
  refine (proj2 (volume_confirmation_monotone config
                   EntryScenario.strong_volume_feed)
            EntryScenario.retest_candle _ _ _).
  - vm_compute. discriminate.
  - vm_compute. reflexivity.
Defined.

(** *** When the search can fire *)

Lemma scan_symbols_signal cfg env w symbols :
  forall pending symbol side price,
    snd (scan_symbols cfg env w pending symbols) = Some (symbol, side, price) ->
    exists pending' data feed,
      In (symbol, data, feed) symbols
      /\ snd (scan_symbol cfg env w pending' symbol data feed) = Signal side price.
Proof.
  induction symbols as [|[[s d] f] rest IH]; intros pending symbol side price.
  - discriminate.
  - cbn [scan_symbols].
    destruct (scan_symbol cfg env w pending s d f) as [p' v] eqn:E.
    destruct v;
      try (intros H; apply IH in H as (q & data & feed & Hin & Hs);
           exists q, data, feed; split; [right; exact Hin | exact Hs]).
    cbn [snd]. intros H. injection H as <- <- <-.
    exists pending, d, f. split; [left; reflexivity|]. rewrite E. reflexivity.
Qed.

(** X15.  The entry search fires only inside its window: a pass that returns
    a signal was made before 10:45 with the stop flag clear and the day's
    portfolio trade cap not reached, the symbol is one of the scanned symbols
    and has not reached its per-symbol trade cap, and the price is the close
    of that symbol's latest candle. *)
Theorem entry_only_inside_window
    (cfg : Config) (env : Env) (current_time_int : Z)
    (pending : gmap string Retest) (symbols : list (string * SymbolData * Feed))
    (symbol : string) (side : Side) (price : Q) :
  snd (entry_pass cfg env current_time_int pending symbols)
    = Some (symbol, side, price) ->
  e_should_stop env = false
  /\ e_num_trades_today env < MAX_TRADES_PER_DAY_PORTFOLIO cfg
  /\ current_time_int < 1045
  /\ default 0 (e_trades_by_symbol env !! symbol) < MAX_TRADES_PER_SYMBOL cfg
  /\ exists data feed c,
       In (symbol, data, feed) symbols
       /\ f_candle feed = Some c /\ price = c_close c.
Proof.
  unfold entry_pass, entry_window.
  destruct (e_should_stop env); [discriminate|].
  destruct (_ >=? _) eqn:Ecap; [discriminate|].
  destruct (current_time_int >=? 1045) eqn:Et; [discriminate|].
  rewrite Z.geb_leb, Z.leb_gt in Ecap. rewrite Z.geb_leb, Z.leb_gt in Et.
  intros H.
  assert (Hs : exists w, snd (scan_symbols cfg env w pending symbols)
                         = Some (symbol, side, price)).
  { destruct (current_time_int <? 1015); [eexists; exact H|].
    destruct (current_time_int <? 1045); [eexists; exact H | discriminate]. }
  destruct Hs as [w Hs].
  apply scan_symbols_signal in Hs as (q & data & feed & Hin & Hs).
  split; [reflexivity|]. split; [exact Ecap|]. split; [exact Et|].
  revert Hs. unfold scan_symbol.
  destruct (_ >=? _) eqn:Esym; [discriminate|].
  rewrite Z.geb_leb, Z.leb_gt in Esym. intros Hs.
  split; [exact Esym|].
  assert (Hs' : snd (scan_symbol cfg env w q symbol data feed) = Signal side price).
  { unfold scan_symbol.
    replace (default 0 (e_trades_by_symbol env !! symbol)
             >=? MAX_TRADES_PER_SYMBOL cfg) with false
      by (symmetry; rewrite Z.geb_leb, Z.leb_gt; exact Esym).
    exact Hs. }
  apply signal_priced_at_close in Hs' as (c & Hc & Hp).
  exists data, feed, c. split; [exact Hin|]. split; [exact Hc | exact Hp].
Qed.

Lemma entry_only_inside_window_witness :
  e_should_stop EntryScenario.calm_market = false
  /\ e_num_trades_today EntryScenario.calm_market
     < MAX_TRADES_PER_DAY_PORTFOLIO config
  /\ 955 < 1045
  /\ default 0 (e_trades_by_symbol EntryScenario.calm_market !! "TATASTEEL"%string)
     < MAX_TRADES_PER_SYMBOL config
  /\ exists data feed c,
       In ("TATASTEEL"%string, data, feed)
          [("TATASTEEL"%string, EntryScenario.setup,
            EntryScenario.strong_volume_feed)]
       /\ f_candle feed = Some c /\ (1008 # 10)%Q = c_close c.
Proof.
  apply (entry_only_inside_window config EntryScenario.calm_market 955
           {["TATASTEEL"%string := EntryScenario.waiting]}
           [("TATASTEEL"%string, EntryScenario.setup,
             EntryScenario.strong_volume_feed)]
           "TATASTEEL" BUY (1008 # 10)%Q).
  vm_compute. reflexivity.
Defined.

End SignalMore.

(** ** Market data: VWAP, ATR, opening ranges *)

Module MarketFacts.
Import PyFacts SignalEvaluator MarketData.
Local Open Scope Z_scope.

(** *** Sums of floats *)

Lemma fold_left_Qplus_acc (xs : list Q) :
  forall a, (fold_left Qplus xs a == a + py_sum xs)%Q.
Proof.
  unfold py_sum. induction xs as [|x xs IH]; intros a; simpl.
  - ring.
  - rewrite (IH (a + x)%Q), (IH (0 + x)%Q). ring.
Qed.

Lemma py_sum_cons (x : Q) (xs : list Q) : (py_sum (x :: xs) == x + py_sum xs)%Q.
Proof.
  unfold py_sum at 1. simpl. rewrite fold_left_Qplus_acc. ring.
Qed.

Lemma py_sum_nonneg (xs : list Q) :
  Forall (fun x => (0 <= x)%Q) xs -> (0 <= py_sum xs)%Q.
Proof.
  induction 1 as [|x xs Hx _ IH].
  - unfold py_sum; simpl. lra.
  - rewrite py_sum_cons. lra.
Qed.

Lemma py_sum_zero (xs : list Q) :
  Forall (fun x => (x == 0)%Q) xs -> (py_sum xs == 0)%Q.
Proof.
  induction 1 as [|x xs Hx _ IH].
  - reflexivity.
  - rewrite py_sum_cons, Hx, IH. ring.
Qed.

(** *** VWAP *)

Lemma typical_price_within lo hi c :
  KiteService.candle_within lo hi c ->
  (lo * c_volume c <= (c_close c + c_high c + c_low c) / 3 * c_volume c)%Q
  /\ ((c_close c + c_high c + c_low c) / 3 * c_volume c <= hi * c_volume c)%Q.
Proof.
  intros (Hl & Hlc & Hch & Hh & Hv).
  assert (H1 : (lo <= (c_close c + c_high c + c_low c) / 3)%Q).
  { apply Qle_shift_div_l; [reflexivity | lra]. }
  assert (H2 : ((c_close c + c_high c + c_low c) / 3 <= hi)%Q).
  { apply Qle_shift_div_r; [reflexivity | lra]. }
  split; apply Qmult_le_compat_r; assumption.
Qed.

Lemma weighted_sum_within lo hi candles :
  Forall (KiteService.candle_within lo hi) candles ->
  let tpv := py_sum (map (fun c => ((c_close c + c_high c + c_low c) / 3
                                     * c_volume c)%Q) candles) in
  let tv := py_sum (map c_volume candles) in
  (lo * tv <= tpv)%Q /\ (tpv <= hi * tv)%Q /\ (0 <= tv)%Q.
Proof.
  induction 1 as [|c cs Hc _ IH]; cbv zeta in *.
  - unfold py_sum; simpl. lra.
  - cbn [map]. rewrite !py_sum_cons.
    destruct (typical_price_within lo hi c Hc) as [H1 H2].
    destruct Hc as (_ & _ & _ & _ & Hv).
    destruct IH as (I1 & I2 & I3).
    repeat split; [rewrite Qmult_plus_distr_r | rewrite Qmult_plus_distr_r |]; lra.
Qed.

(** X16.  The VWAP of a non-empty candle list lies inside the price range of
    its candles: when every candle has [low <= close <= high], a non-negative
    volume and its range inside [[lo, hi]], the bot's VWAP is defined and
    [lo <= vwap <= hi], also when no candle traded any volume (the last
    close is returned then). *)
Theorem vwap_within_candle_range (candles : list Candle) (lo hi : Q) :
  candles <> [] ->
  Forall (KiteService.candle_within lo hi) candles ->
  exists vwap,
    MarketData.calculate_vwap candles = Some vwap
    /\ vwap = KiteService.calculate_vwap candles
    /\ (lo <= vwap)%Q /\ (vwap <= hi)%Q.
Proof.
  intros Hne Hall. exists (KiteService.calculate_vwap candles).
  split; [destruct candles; [contradiction | reflexivity]|].
  split; [reflexivity|].
  destruct (weighted_sum_within lo hi candles Hall) as (H1 & H2 & H3).
  cbv zeta in H1, H2, H3.
  unfold KiteService.calculate_vwap.
  destruct candles as [|c0 cs]; [contradiction|].
  set (tv := py_sum (map c_volume (c0 :: cs))) in *.
  destruct (Qeq_bool tv 0) eqn:E.
  - destruct (last (c0 :: cs)) as [c|] eqn:El.
    + apply last_Some_elem_of in El.
      rewrite Forall_forall in Hall. apply Hall in El.
      destruct El as (? & ? & ? & ? & ?). split; lra.
    + apply last_None in El. discriminate.
  - apply Qeq_bool_false in E.
    assert (Hpos : (0 < tv)%Q) by (apply Qle_lteq in H3 as [?|Heq];
                                   [assumption | exfalso; apply E; symmetry; exact Heq]).
    split.
    + apply Qle_shift_div_l; assumption.
    + apply Qle_shift_div_r; [assumption | exact H2].
Qed.

Lemma vwap_within_candle_range_witness :
  exists vwap,
    MarketData.calculate_vwap
      [EntryScenario.breakout_candle; EntryScenario.retest_candle] = Some vwap
    /\ vwap = KiteService.calculate_vwap
                [EntryScenario.breakout_candle; EntryScenario.retest_candle]
    /\ (99 <= vwap)%Q /\ (vwap <= 102)%Q.
Proof.
  apply (vwap_within_candle_range
           [EntryScenario.breakout_candle; EntryScenario.retest_candle] 99 102).
  - discriminate.
  - apply Forall_cons_2; [|apply Forall_cons_2; [|apply Forall_nil_2]];
      unfold KiteService.candle_within; vm_compute; intuition discriminate.
Defined.

(** *** ATR *)

Lemma true_range_nonneg prev c : (0 <= true_range prev c)%Q.
Proof.
  unfold true_range.
  eapply Qle_trans; [apply Qabs_nonneg | apply Q.le_max_r].
Qed.

Lemma tr_values_from_nonneg rest :
  forall prev, Forall (fun x => (0 <= x)%Q) (tr_values_from prev rest).
Proof.
  induction rest as [|c rest IH]; intros prev; simpl.
  - apply Forall_nil_2.
  - apply Forall_cons_2; [apply true_range_nonneg | apply IH].
Qed.

Lemma tr_values_nonneg candles : Forall (fun x => (0 <= x)%Q) (tr_values candles).
Proof.
  destruct candles; [apply Forall_nil_2 | apply tr_values_from_nonneg].
Qed.

Lemma tr_values_from_length rest :
  forall prev, length (tr_values_from prev rest) = length rest.
Proof.
  induction rest as [|c rest IH]; intros prev; simpl; [reflexivity|].
  rewrite IH. reflexivity.
Qed.

Lemma tr_values_length candles :
  length (tr_values candles) = (length candles - 1)%nat.
Proof.
  destruct candles; simpl; [reflexivity|].
  rewrite tr_values_from_length. lia.
Qed.

Lemma py_tail_slice_Forall {A} (P : A -> Prop) n l :
  Forall P l -> Forall P (py_tail_slice n l).
Proof.
  intros H. unfold py_tail_slice, last_n.
  destruct (0 <? n); apply Forall_drop; exact H.
Qed.

Lemma py_tail_slice_length {A} n (l : list A) :
  0 < n -> n <= Z.of_nat (length l) ->
  Z.of_nat (length (py_tail_slice n l)) = n.
Proof.
  intros Hn Hl. unfold py_tail_slice, last_n.
  replace (0 <? n) with true by (symmetry; apply Z.ltb_lt; exact Hn).
  rewrite length_drop. lia.
Qed.

Lemma inject_Z_pos n : 0 < n -> (0 < inject_Z n)%Q.
Proof.
  intros H. change 0%Q with (inject_Z 0). rewrite <- Zlt_Qlt. exact H.
Qed.

(** The ATR in the form the buffer and the cache need: undefined on a short
    history, non-negative, and the mean of the sliced true ranges. *)
Lemma atr_value_short_or_nonneg (sc : SetupConfig) (candles : list Candle) :
  0 < ATR_PERIOD sc ->
  (Z.of_nat (length candles) < ATR_PERIOD sc + 1 ->
   is_Some (calculate_atr_value sc candles) -> False)
  /\ (forall v, calculate_atr_value sc candles = Some v ->
                (0 <= v)%Q
                /\ (v == py_sum (py_tail_slice (ATR_PERIOD sc) (tr_values candles))
                          / inject_Z (ATR_PERIOD sc))%Q).
Proof.
  intros Hp. unfold calculate_atr_value. cbv zeta.
  destruct candles as [|c0 cs].
  - split; [intros _ [? H]; discriminate | discriminate].
  - set (candles := c0 :: cs).
    destruct (Z.of_nat (length candles) <? ATR_PERIOD sc + 1) eqn:El.
    + split; [intros _ [? H]; discriminate | discriminate].
    + apply Z.ltb_ge in El.
      replace (ATR_PERIOD sc =? 0) with false by (symmetry; apply Z.eqb_neq; lia).
      split; [intros Hlt _; lia|].
      intros v E. injection E as <-. split; [|reflexivity].
      apply Qle_shift_div_l; [apply inject_Z_pos; exact Hp|].
      rewrite Qmult_0_l.
      apply py_sum_nonneg, py_tail_slice_Forall, (tr_values_nonneg (c0 :: cs)).
Qed.

(** X17.  For a positive ATR period the ATR is defined exactly when at least
    [period + 1] candles were fetched; it is then the mean of exactly the
    last [period] true ranges, each of them non-negative, and so is never
    negative. *)
Theorem atr_value_mean_of_period (sc : SetupConfig) (candles : list Candle) :
  0 < ATR_PERIOD sc ->
  (is_Some (calculate_atr_value sc candles)
   <-> ATR_PERIOD sc + 1 <= Z.of_nat (length candles))
  /\ (forall atr_value,
        calculate_atr_value sc candles = Some atr_value ->
        exists trs,
          atr_value = (py_sum trs / inject_Z (ATR_PERIOD sc))%Q
          /\ trs `suffix_of` tr_values candles
          /\ Z.of_nat (length trs) = ATR_PERIOD sc
          /\ Forall (fun tr => (0 <= tr)%Q) trs
          /\ (0 <= atr_value)%Q).
Proof.
  intros Hp. unfold calculate_atr_value. cbv zeta.
  destruct candles as [|c0 cs].
  - split.
    + split; [intros [? H]; discriminate | simpl; lia].
    + discriminate.
  - set (candles := c0 :: cs).
    destruct (Z.of_nat (length candles) <? ATR_PERIOD sc + 1) eqn:El.
    + apply Z.ltb_lt in El. split.
      * split; [intros [? H]; discriminate | lia].
      * discriminate.
    + apply Z.ltb_ge in El.
      replace (ATR_PERIOD sc =? 0) with false by (symmetry; apply Z.eqb_neq; lia).
      split.
      * split; [intros _; exact El | intros _; eexists; reflexivity].
      * intros v E. injection E as <-.
        pose proof (tr_values_length candles) as Hlen.
        assert (Hnn : Forall (fun tr => (0 <= tr)%Q)
                        (py_tail_slice (ATR_PERIOD sc) (tr_values candles)))
          by (apply py_tail_slice_Forall, (tr_values_nonneg (c0 :: cs))).
        exists (py_tail_slice (ATR_PERIOD sc) (tr_values candles)).
        split; [reflexivity|]. split.
        { unfold py_tail_slice, last_n.
          destruct (0 <? ATR_PERIOD sc); apply suffix_drop. }
        split; [apply py_tail_slice_length; lia|].
        split; [exact Hnn|].
        apply Qle_shift_div_l; [apply inject_Z_pos; exact Hp|].
        rewrite Qmult_0_l. apply py_sum_nonneg, Hnn.
Qed.

Lemma atr_value_mean_of_period_witness :
  is_Some (calculate_atr_value setup_config
             (replicate 11 EntryScenario.breakout_candle))
  <-> ATR_PERIOD setup_config + 1
      <= Z.of_nat (length (replicate 11 EntryScenario.breakout_candle)).
Proof.
  refine (proj1 (atr_value_mean_of_period setup_config
                   (replicate 11 EntryScenario.breakout_candle) _)).
  reflexivity.
Defined.

(** *** The breakout buffer *)

Lemma true_range_flat p prev c :
  flat_at p prev -> flat_at p c -> (true_range prev c == 0)%Q.
Proof.
  intros (_ & _ & Hc) (Hh & Hl & _).
  apply Qle_antisym; [|apply true_range_nonneg].
  unfold true_range.
  assert (E1 : (c_high c - c_low c == 0)%Q) by (rewrite Hh, Hl; ring).
  assert (E2 : (c_high c - c_close prev == 0)%Q) by (rewrite Hh, Hc; ring).
  assert (E3 : (c_low c - c_close prev == 0)%Q) by (rewrite Hl, Hc; ring).
  repeat apply Q.max_lub.
  - rewrite E1. apply Qle_refl.
  - rewrite E2. discriminate.
  - rewrite E3. discriminate.
Qed.

Lemma tr_values_from_flat p rest :
  forall prev, flat_at p prev -> Forall (flat_at p) rest ->
               Forall (fun x => (x == 0)%Q) (tr_values_from prev rest).
Proof.
  induction rest as [|c rest IH]; intros prev Hp Hall; simpl.
  - apply Forall_nil_2.
  - apply Forall_cons_1 in Hall as [Hc Hrest].
    apply Forall_cons_2; [apply (true_range_flat p); assumption|].
    apply IH; assumption.
Qed.

Lemma py_sum_tail_flat p candles n :
  Forall (flat_at p) candles ->
  (py_sum (py_tail_slice n (tr_values candles)) == 0)%Q.
Proof.
  intros Hall. apply py_sum_zero, py_tail_slice_Forall.
  destruct candles as [|c cs]; [apply Forall_nil_2|].
  apply Forall_cons_1 in Hall as [Hc Hcs].
  apply (tr_values_from_flat p); assumption.
Qed.

Lemma atr_buffer_gt_0 (sc : SetupConfig) (candles : list Candle) :
  0 < ATR_PERIOD sc -> (0 < ATR_MULTIPLIER sc)%Q -> (0 < BUFFER_AMOUNT sc)%Q ->
  (0 < calculate_atr_buffer sc candles)%Q.
Proof.
  intros Hp Hm Hb.
  destruct (atr_value_short_or_nonneg sc candles Hp) as [_ Hval].
  unfold calculate_atr_buffer. cbv zeta.
  destruct (calculate_atr_value sc candles) as [v|] eqn:Ev; [|exact Hb].
  destruct (Hval v eq_refl) as [Hv _].
  cbn [truthy_opt]. unfold truthy.
  destruct (Qeq_bool v 0) eqn:E; cbn [negb]; [exact Hb|].
  apply Qeq_bool_false in E.
  apply Qmult_lt_0_compat; [exact Hm|].
  apply Qle_lteq in Hv as [?|Heq];
    [assumption | exfalso; apply E; symmetry; exact Heq].
Qed.

(** X18.  With a positive ATR period, ATR multiplier and fallback buffer, the
    breakout buffer is strictly positive on every candle history.  It is the
    fallback [BUFFER_AMOUNT] when fewer than [period + 1] candles came back
    and also when the market did not move at all (every candle flat at one
    price, an ATR of zero); otherwise it is [ATR_MULTIPLIER] times the ATR. *)
Theorem atr_buffer_positive (sc : SetupConfig) (candles : list Candle) :
  0 < ATR_PERIOD sc -> (0 < ATR_MULTIPLIER sc)%Q -> (0 < BUFFER_AMOUNT sc)%Q ->
  (0 < calculate_atr_buffer sc candles)%Q
  /\ (Z.of_nat (length candles) < ATR_PERIOD sc + 1 ->
      calculate_atr_buffer sc candles = BUFFER_AMOUNT sc)
  /\ (forall p, Forall (flat_at p) candles ->
                calculate_atr_buffer sc candles = BUFFER_AMOUNT sc)
  /\ (forall atr_value,
        calculate_atr_value sc candles = Some atr_value ->
        (0 < atr_value)%Q ->
        calculate_atr_buffer sc candles = (ATR_MULTIPLIER sc * atr_value)%Q).
Proof.
  intros Hp Hm Hb.
  destruct (atr_value_short_or_nonneg sc candles Hp) as [Hdef Hval].
  unfold calculate_atr_buffer. cbv zeta.
  destruct (calculate_atr_value sc candles) as [v|] eqn:Ev.
  - destruct (Hval v eq_refl) as [Hv Hsum].
    cbn [truthy_opt]. unfold truthy.
    destruct (Qeq_bool v 0) eqn:E; cbn [negb].
    + apply Qeq_bool_iff in E.
      split; [exact Hb|]. split; [reflexivity|]. split; [reflexivity|].
      intros a Ha Hpos. injection Ha as <-. exfalso. lra.
    + apply Qeq_bool_false in E.
      assert (Hv' : (0 < v)%Q)
        by (apply Qle_lteq in Hv as [?|Heq];
            [assumption | exfalso; apply E; symmetry; exact Heq]).
      split; [apply Qmult_lt_0_compat; assumption|].
      split; [intros Hlen; exfalso; apply Hdef in Hlen; [exact Hlen | eexists; reflexivity]|].
      split.
      * intros p Hflat. exfalso. apply E. rewrite Hsum.
        rewrite (py_sum_tail_flat p candles _ Hflat).
        unfold Qdiv. ring.
      * intros a Ha _. injection Ha as <-. reflexivity.
  - cbn [truthy_opt negb].
    split; [exact Hb|]. split; [reflexivity|]. split; [reflexivity|]. discriminate.
Qed.

Lemma atr_buffer_positive_witness :
  (0 < calculate_atr_buffer setup_config
         (replicate 11 EntryScenario.breakout_candle))%Q.
Proof.
  refine (proj1 (atr_buffer_positive setup_config
                   (replicate 11 EntryScenario.breakout_candle) _ _ _));
    reflexivity.
Defined.

(** *** Set-up of the monitored symbols *)

Lemma get_first_candle_valid candles o h l c :
  get_first_candle candles = Some (o, h, l, c) ->
  (0 < l)%Q /\ (l <= h)%Q.
Proof.
  unfold get_first_candle. destruct candles as [|candle rest]; [discriminate|].
  cbv zeta.
  destruct (Qle_bool (c_high candle) 0) eqn:E1; [discriminate|].
  destruct (Qle_bool (c_low candle) 0) eqn:E2; [discriminate|].
  destruct (Qltb (c_high candle) (c_low candle)) eqn:E3; [discriminate|].
  cbn [orb]. intros E. injection E as <- <- <- <-.
  apply Qle_bool_gt in E2. apply Qltb_ge in E3. split; assumption.
Qed.

Lemma check_range_quality_bounds sc high low vwap :
  check_range_quality sc high low vwap = true ->
  (0 < vwap)%Q ->
  (RANGE_MIN_PCT sc * vwap <= (high - low) * 100)%Q
  /\ ((high - low) * 100 <= RANGE_MAX_PCT sc * vwap)%Q.
Proof.
  unfold check_range_quality. intros H Hv.
  assert (Hne : ~ (vwap == 0)%Q) by (intros E; rewrite E in Hv; discriminate).
  replace (negb (truthy vwap) || Qle_bool vwap 0) with false in H.
  2:{ symmetry. apply orb_false_iff. split.
      - unfold truthy. rewrite negb_involutive. apply Qeq_bool_false. exact Hne.
      - apply Qle_bool_gt. exact Hv. }
  cbv zeta in H.
  destruct (Qltb _ (RANGE_MIN_PCT sc)) eqn:E1; [discriminate|].
  destruct (Qltb (RANGE_MAX_PCT sc) _) eqn:E2; [discriminate|].
  apply Qltb_ge in E1. apply Qltb_ge in E2.
  assert (Eq : ((high - low) / vwap * 100 * vwap == (high - low) * 100)%Q)
    by (field; exact Hne).
  split.
  - rewrite <- Eq. apply Qmult_le_compat_r; [exact E1 | apply Qlt_le_weak, Hv].
  - rewrite <- Eq. apply Qmult_le_compat_r; [exact E2 | apply Qlt_le_weak, Hv].
Qed.

Lemma setup_symbol_valid sc cred f s :
  0 < ATR_PERIOD sc -> (0 < ATR_MULTIPLIER sc)%Q -> (0 < BUFFER_AMOUNT sc)%Q ->
  setup_symbol sc cred f = Some s ->
  cred = true
  /\ (0 < s_low s)%Q /\ (s_low s <= s_high s)%Q /\ (0 < s_buffer s)%Q
  /\ (s_short_trigger s < s_low s)%Q /\ (s_high s < s_long_trigger s)%Q
  /\ (USE_RANGE_FILTER sc = true -> (0 < s_vwap s)%Q ->
      (RANGE_MIN_PCT sc * s_vwap s <= (s_high s - s_low s) * 100)%Q
      /\ ((s_high s - s_low s) * 100 <= RANGE_MAX_PCT sc * s_vwap s)%Q).
Proof.
  intros Hp Hm Hb. unfold setup_symbol.
  destruct cred; [|discriminate]. cbn [negb andb].
  destruct (sf_token f) as [token|]; [|discriminate].
  destruct (negb (truthyZ token)); [discriminate|].
  destruct (get_first_candle _) as [[[[o h] l] c]|] eqn:Ec; [|discriminate].
  apply get_first_candle_valid in Ec as [Hl Hlh].
  destruct (MarketData.calculate_vwap _) as [vwap|]; [|discriminate].
  destruct (USE_RANGE_FILTER sc && true && negb (check_range_quality sc h l vwap))
    eqn:Er; [discriminate|].
  remember (if USE_DYNAMIC_ATR_BUFFER sc && truthyZ token
            then calculate_atr_buffer sc (sf_atr_candles f)
            else BUFFER_AMOUNT sc) as buffer eqn:Ebuf.
  assert (Hbuf : (0 < buffer)%Q).
  { subst buffer. destruct (USE_DYNAMIC_ATR_BUFFER sc && truthyZ token); [|exact Hb].
    apply (atr_buffer_gt_0 sc _ Hp Hm Hb). }
  clear Ebuf.
  intros E. injection E as <-. cbn.
  split; [reflexivity|]. split; [exact Hl|]. split; [exact Hlh|].
  split; [exact Hbuf|]. split; [lra|]. split; [lra|].
  intros Hf Hv. rewrite Hf in Er. cbn [andb] in Er.
  apply negb_false_iff in Er.
  apply check_range_quality_bounds; assumption.
Qed.

Lemma setup_fold_invariant sc cred (P : string -> Setup -> Prop) :
  forall (symbols : list (string * SymbolFeed)) (acc : gmap string Setup),
    (forall symbol s, acc !! symbol = Some s -> P symbol s) ->
    (forall symbol f s, In (symbol, f) symbols ->
                        setup_symbol sc cred f = Some s -> P symbol s) ->
    forall symbol s,
      fold_left
        (fun symbols_data '(symbol, f) =>
           match setup_symbol sc cred f with
           | Some s => <[symbol := s]> symbols_data
           | None => symbols_data
           end)
        symbols acc !! symbol = Some s ->
      P symbol s.
Proof.
  induction symbols as [|[sym0 f0] rest IH]; intros acc Hacc Hin symbol s.
  - simpl. apply Hacc.
  - cbn [fold_left]. apply IH.
    + intros sym s'. destruct (setup_symbol sc cred f0) as [s0|] eqn:E0.
      * rewrite lookup_insert_Some. intros [[<- <-]|[_ H]].
        -- apply (Hin sym0 f0); [left; reflexivity | exact E0].
        -- apply Hacc, H.
      * apply Hacc.
    + intros sym f s' Hi. apply Hin. right. exact Hi.
Qed.

(** X19.  Every entry of the set-up dict comes from one of the monitored
    symbols (and only when API credentials are present) and has a valid
    opening range bracketed by its triggers: with a positive ATR period, ATR
    multiplier and fallback buffer, [0 < low <= high], the buffer is
    positive, [short_trigger < low] and [high < long_trigger]; and when the
    range filter is on and the VWAP is positive, the range is between
    [RANGE_MIN_PCT] and [RANGE_MAX_PCT] percent of the VWAP. *)
Theorem setup_triggers_bracket_range
    (sc : SetupConfig) (has_credentials : bool)
    (symbols : list (string * SymbolFeed)) (symbol : string) (s : Setup) :
  0 < ATR_PERIOD sc -> (0 < ATR_MULTIPLIER sc)%Q -> (0 < BUFFER_AMOUNT sc)%Q ->
  get_symbols_setup_data sc has_credentials symbols !! symbol = Some s ->
  has_credentials = true
  /\ (exists f, In (symbol, f) symbols
                /\ setup_symbol sc has_credentials f = Some s)
  /\ (0 < s_low s)%Q /\ (s_low s <= s_high s)%Q /\ (0 < s_buffer s)%Q
  /\ (s_short_trigger s < s_low s)%Q /\ (s_high s < s_long_trigger s)%Q
  /\ (USE_RANGE_FILTER sc = true -> (0 < s_vwap s)%Q ->
      (RANGE_MIN_PCT sc * s_vwap s <= (s_high s - s_low s) * 100)%Q
      /\ ((s_high s - s_low s) * 100 <= RANGE_MAX_PCT sc * s_vwap s)%Q).
Proof.
  intros Hp Hm Hb H.
  assert (Hex : exists f, In (symbol, f) symbols
                          /\ setup_symbol sc has_credentials f = Some s).
  { revert H. unfold get_symbols_setup_data.
    apply (setup_fold_invariant sc has_credentials
             (fun symbol s => exists f, In (symbol, f) symbols
                                        /\ setup_symbol sc has_credentials f = Some s)).
    - intros sym s'. rewrite lookup_empty. discriminate.
    - intros sym f s' Hi Hs. exists f. split; assumption. }
  destruct Hex as (f & Hi & Hs).
  destruct (setup_symbol_valid sc has_credentials f s Hp Hm Hb Hs)
    as (Hc & Hrest).
  split; [exact Hc|]. split; [exists f; split; assumption | exact Hrest].
Qed.

Lemma setup_triggers_bracket_range_witness :
  match get_symbols_setup_data setup_config true
          [("TATASTEEL"%string, SetupScenario.opening_feed)]
        !! "TATASTEEL"%string with
  | Some s => (s_short_trigger s < s_low s)%Q /\ (s_high s < s_long_trigger s)%Q
  | None => False
  end.
Proof.
  destruct (get_symbols_setup_data setup_config true
              [("TATASTEEL"%string, SetupScenario.opening_feed)]
            !! "TATASTEEL"%string) as [s|] eqn:E.
  - destruct (setup_triggers_bracket_range setup_config true
                [("TATASTEEL"%string, SetupScenario.opening_feed)]
                "TATASTEEL" s eq_refl eq_refl eq_refl E)
      as (_ & _ & _ & _ & _ & H1 & H2 & _).
    split; assumption.
  - vm_compute in E. discriminate.
Defined.

End MarketFacts.

(** ** The ATR cache, the first stop, the trade row *)

Module CacheFacts.
Import PyFacts SignalEvaluator MarketData MarketFacts.
Local Open Scope Z_scope.

Lemma truthy_opt_positive sc candles v :
  0 < ATR_PERIOD sc ->
  calculate_atr_value sc candles = Some v ->
  truthy_opt (Some v) = true ->
  (0 < v)%Q.
Proof.
  intros Hp Ev Ht.
  destruct (atr_value_short_or_nonneg sc candles Hp) as [_ Hval].
  destruct (Hval v Ev) as [Hv _].
  cbn [truthy_opt] in Ht. unfold truthy in Ht.
  apply negb_true_iff, Qeq_bool_false in Ht.
  apply Qle_lteq in Hv as [?|Heq];
    [assumption | exfalso; apply Ht; symmetry; exact Heq].
Qed.

Lemma reachable_cache_positive sc cache :
  0 < ATR_PERIOD sc ->
  reachable_cache sc cache ->
  (forall token v, atr_cache cache !! token = Some v -> (0 < v)%Q)
  /\ (forall token last, atr_cache_time cache !! token = Some last ->
                         is_Some (atr_cache cache !! token)).
Proof.
  intros Hp. induction 1 as [|cache now token refresh_sec candles _ [IH1 IH2]].
  - split; intros token v; cbn; rewrite lookup_empty; discriminate.
  - unfold get_cached_atr.
    assert (Hrefresh :
      forall c',
        c' = fst (let atr_value := calculate_atr_value sc candles in
                  if truthy_opt atr_value then
                    match atr_value with
                    | Some v =>
                        ({| atr_cache := <[token := v]> (atr_cache cache);
                            atr_cache_time := <[token := now]> (atr_cache_time cache) |},
                         atr_value)
                    | None => (cache, atr_value)
                    end
                  else (cache, atr_value)) ->
        (forall token v, atr_cache c' !! token = Some v -> (0 < v)%Q)
        /\ (forall token last, atr_cache_time c' !! token = Some last ->
                               is_Some (atr_cache c' !! token))).
    { intros c' ->. cbv zeta.
      destruct (calculate_atr_value sc candles) as [v|] eqn:Ev;
        [|split; assumption].
      destruct (truthy_opt (Some v)) eqn:Et; [|split; assumption].
      pose proof (truthy_opt_positive sc candles v Hp Ev Et) as Hv.
      cbn [fst atr_cache atr_cache_time]. split.
      - intros t x. rewrite lookup_insert_Some. intros [[_ <-]|[_ H]];
          [exact Hv | exact (IH1 _ _ H)].
      - intros t l. rewrite lookup_insert_Some. intros [[<- _]|[Hne H]].
        + exists v. apply lookup_insert_Some. left. split; reflexivity.
        + destruct (IH2 _ _ H) as [x Hx]. exists x.
          apply lookup_insert_Some. right. split; assumption. }
    destruct (atr_cache_time cache !! token) as [last|].
    + destruct (timedelta_seconds now last <? refresh_sec).
      * split; assumption.
      * apply Hrefresh. reflexivity.
    + apply Hrefresh. reflexivity.
Qed.

(** X20.  The ATR cache holds only positive values: for a positive ATR
    period, in every cache the bot can build each cached ATR is strictly
    positive and each time stamp has a cached value, so a call that finds a
    fresh entry returns a positive ATR, leaves the cache as it is and does
    not depend on the candles a new fetch would answer. *)
Theorem cache_hit_returns_positive_atr
    (sc : SetupConfig) (cache : AtrCache) (now token refresh_sec last : Z) :
  0 < ATR_PERIOD sc ->
  reachable_cache sc cache ->
  atr_cache_time cache !! token = Some last ->
  timedelta_seconds now last < refresh_sec ->
  (forall t v, atr_cache cache !! t = Some v -> (0 < v)%Q)
  /\ exists v,
       (0 < v)%Q
       /\ forall candles,
            get_cached_atr sc cache now token refresh_sec candles
            = (cache, Some v).
Proof.
  intros Hp Hr Hl Ht.
  destruct (reachable_cache_positive sc cache Hp Hr) as [H1 H2].
  split; [exact H1|].
  destruct (H2 _ _ Hl) as [v Hv]. exists v.
  split; [exact (H1 _ _ Hv)|].
  intros candles. unfold get_cached_atr. rewrite Hl.
  apply Z.ltb_lt in Ht. rewrite Ht, Hv. reflexivity.
Qed.

Lemma cache_hit_returns_positive_atr_witness :
  exists v,
    (0 < v)%Q
    /\ get_cached_atr setup_config CacheScenario.warm_cache
         (CacheScenario.fetched_at + 30 * 1000000) 895745 60 []
       = (CacheScenario.warm_cache, Some v).
Proof.
  destruct (cache_hit_returns_positive_atr setup_config
              CacheScenario.warm_cache
              (CacheScenario.fetched_at + 30 * 1000000) 895745 60
              CacheScenario.fetched_at) as [_ (v & Hv & H)].
  - reflexivity.
  - apply (rc_get setup_config _ CacheScenario.fetched_at 895745 60
             CacheScenario.moving_candles), rc_empty.
  - vm_compute. reflexivity.
  - vm_compute. reflexivity.
  - exists v. split; [exact Hv | apply H].
Defined.

Lemma timedelta_seconds_days now last d :
  timedelta_seconds (now + d * day_us) last = timedelta_seconds now last.
Proof.
  unfold timedelta_seconds, day_us.
  replace (now + d * (86400 * 1000000) - last)
    with ((now - last) + (d * 86400) * 1000000) by ring.
  rewrite Z.div_add by discriminate.
  apply Z_mod_plus_full.
Qed.

Lemma timedelta_seconds_range now last :
  0 <= timedelta_seconds now last < 86400.
Proof.
  unfold timedelta_seconds. apply Z.mod_pos_bound. reflexivity.
Qed.

(** X21.  The freshness test of the ATR cache reads only the seconds field
    of the age, which wraps every day: an entry that is fresh at [now] is
    served again, without a new fetch, at [now] plus any whole number of
    days; and with a refresh interval of a day or more a cached entry is
    never refreshed. *)
Theorem cache_entry_fresh_again_after_days
    (sc : SetupConfig) (cache : AtrCache) (now token refresh_sec last : Z) :
  atr_cache_time cache !! token = Some last ->
  (timedelta_seconds now last < refresh_sec ->
   forall d candles,
     get_cached_atr sc cache (now + d * day_us) token refresh_sec candles
     = (cache, atr_cache cache !! token))
  /\ (86400 <= refresh_sec ->
      forall candles,
        get_cached_atr sc cache now token refresh_sec candles
        = (cache, atr_cache cache !! token)).
Proof.
  intros Hl. split.
  - intros Ht d candles. unfold get_cached_atr. rewrite Hl.
    rewrite timedelta_seconds_days.
    apply Z.ltb_lt in Ht. rewrite Ht. reflexivity.
  - intros Hr candles. unfold get_cached_atr. rewrite Hl.
    pose proof (timedelta_seconds_range now last) as Hb.
    replace (timedelta_seconds now last <? refresh_sec) with true
      by (symmetry; apply Z.ltb_lt; lia).
    reflexivity.
Qed.

Lemma cache_entry_fresh_again_after_days_witness :
  get_cached_atr setup_config CacheScenario.warm_cache
    (CacheScenario.fetched_at + 30 * 1000000 + 3 * day_us) 895745 60 []
  = (CacheScenario.warm_cache, atr_cache CacheScenario.warm_cache !! 895745).
Proof.
  refine (proj1 (cache_entry_fresh_again_after_days setup_config
                   CacheScenario.warm_cache
                   (CacheScenario.fetched_at + 30 * 1000000) 895745 60
                   CacheScenario.fetched_at _) _ 3 []).
  - vm_compute. reflexivity.
  - vm_compute. reflexivity.
Defined.

End CacheFacts.


Module ExecutionFacts.
Import PyFacts SignalEvaluator RiskEngine EntryExecution SignalMore.
Local Open Scope Z_scope.

Lemma signal_side_of_vwap cfg env w pending symbol data feed side price :
  snd (scan_symbol cfg env w pending symbol data feed) = Signal side price ->
  match side with
  | BUY => (sd_vwap data < price)%Q
  | SELL => (price < sd_vwap data)%Q
  end.
Proof.
  unfold scan_symbol. destruct (_ >=? _); [discriminate|].
  destruct (f_candle feed) as [c|]; [|discriminate].
  destruct (if USE_RETEST_ENTRY cfg then pending !! symbol else None) as [st|].
  - intros H. apply retest_signal_shape in H as (-> & -> & _ & Hside).
    destruct (r_side st); destruct Hside as [_ Hv]; exact Hv.
  - destruct (Qltb (sd_long_trigger data) (c_close c)
              && Qltb (sd_vwap data) (c_close c)) eqn:El.
    + intros H. apply breakout_signal_shape in H as (-> & -> & _).
      apply andb_true_iff in El as [_ El]. apply Qltb_lt in El. exact El.
    + destruct (Qltb (c_close c) (sd_short_trigger data)
                && Qltb (c_close c) (sd_vwap data)) eqn:Es; [|discriminate].
      intros H. apply breakout_signal_shape in H as (-> & -> & _).
      apply andb_true_iff in Es as [_ Es]. apply Qltb_lt in Es. exact Es.
Qed.

Lemma entry_stop_buy cfg price vwap candle :
  (0 < STOPLOSS_DISTANCE_FACTOR cfg)%Q -> (vwap < price)%Q ->
  (entry_stop cfg BUY price vwap candle < price)%Q.
Proof.
  intros Hf Hv. unfold entry_stop, apply_stoploss_distance_factor. cbv zeta.
  set (sl := match candle with Some c => _ | None => vwap end).
  assert (Hsl : (sl < price)%Q).
  { subst sl. destruct candle as [c|]; [|exact Hv].
    unfold calculate_dynamic_sl. cbv zeta.
    eapply Qle_lt_trans; [apply Q.le_min_r | exact Hv]. }
  destruct (Qle_bool 1 _); [exact Hsl|].
  rewrite Qabs_pos by lra.
  assert (0 < (price - sl) * STOPLOSS_DISTANCE_FACTOR cfg)%Q
    by (apply Qmult_lt_0_compat; lra).
  lra.
Qed.

Lemma entry_stop_sell cfg price vwap candle :
  (0 < STOPLOSS_DISTANCE_FACTOR cfg)%Q -> (price < vwap)%Q ->
  (price < entry_stop cfg SELL price vwap candle)%Q.
Proof.
  intros Hf Hv. unfold entry_stop, apply_stoploss_distance_factor. cbv zeta.
  set (sl := match candle with Some c => _ | None => vwap end).
  assert (Hsl : (price < sl)%Q).
  { subst sl. destruct candle as [c|]; [|exact Hv].
    unfold calculate_dynamic_sl. cbv zeta.
    eapply Qlt_le_trans; [exact Hv | apply Q.le_max_r]. }
  destruct (Qle_bool 1 _); [exact Hsl|].
  rewrite Qabs_neg by lra.
  assert (0 < (- (price - sl)) * STOPLOSS_DISTANCE_FACTOR cfg)%Q
    by (apply Qmult_lt_0_compat; lra).
  lra.
Qed.

(** X23.  The stop of a trade entered on a signal is strictly on the loss
    side of the entry price: for a positive [STOPLOSS_DISTANCE_FACTOR],
    whatever the latest candle is (or if none could be fetched), the stop is
    below the entry of a long and above the entry of a short, so the risk
    per share [abs(entry_price - sl_price)] is strictly positive. *)
Theorem entry_stop_on_loss_side
    (cfg : Config) (env : Env) (w : Window) (pending : gmap string Retest)
    (symbol : string) (data : SymbolData) (feed : Feed)
    (entry_side : Side) (entry_price : Q) (current_candle : option Candle) :
  (0 < STOPLOSS_DISTANCE_FACTOR cfg)%Q ->
  snd (scan_symbol cfg env w pending symbol data feed)
    = Signal entry_side entry_price ->
  let sl_price :=
    entry_stop cfg entry_side entry_price (sd_vwap data) current_candle in
  match entry_side with
  | BUY => (sl_price < entry_price)%Q
  | SELL => (entry_price < sl_price)%Q
  end
  /\ (0 < Qabs (entry_price - sl_price))%Q.
Proof.
  intros Hf H. cbv zeta. apply signal_side_of_vwap in H.
  destruct entry_side.
  - pose proof (entry_stop_buy cfg entry_price (sd_vwap data) current_candle Hf H).
    split; [assumption|]. rewrite Qabs_pos by lra. lra.
  - pose proof (entry_stop_sell cfg entry_price (sd_vwap data) current_candle Hf H).
    split; [assumption|]. rewrite Qabs_neg by lra. lra.
Qed.

Lemma entry_stop_on_loss_side_witness :
  (entry_stop config BUY (1008 # 10) (sd_vwap EntryScenario.setup)
     (Some EntryScenario.retest_candle) < 1008 # 10)%Q
  /\ (0 < Qabs ((1008 # 10)
                - entry_stop config BUY (1008 # 10) (sd_vwap EntryScenario.setup)
                    (Some EntryScenario.retest_candle)))%Q.
Proof.
  apply (entry_stop_on_loss_side config EntryScenario.calm_market PRIMARY
           {["TATASTEEL"%string := EntryScenario.waiting]} "TATASTEEL"
           EntryScenario.setup EntryScenario.strong_volume_feed BUY (1008 # 10)%Q
           (Some EntryScenario.retest_candle)).
  - reflexivity.
  - vm_compute. reflexivity.
Defined.

End ExecutionFacts.

Module TradeStoreFacts.
Import PyFacts TradeStore.
Local Open Scope Z_scope.

(** X24.  The [pnl] keyword of [update_trade_in_db] is dead whenever an exit
    price is passed: a committed update stores the same rows whatever [pnl]
    was given.  The stored P&L is the price move in the trade's direction
    times the exit quantity (the [exit_qty] keyword, else the row's quantity
    after the update), and for a positive entry price the stored percentage
    is the price move as a percentage of the entry price, independent of the
    quantity. *)
Theorem update_overwrites_pnl
    (user_id : option Z) (db : gmap Z TradeRow) (now : Z)
    (trade_db_id : option Z) (updates : Updates)
    (exit_price : Q) (db' : gmap Z TradeRow) :
  u_exit_price updates = Some exit_price ->
  update_trade_in_db user_id db now trade_db_id updates = Committed db' ->
  (forall pnl,
     update_trade_in_db user_id db now trade_db_id (with_pnl updates pnl)
     = Committed db')
  /\ exists id row row',
       trade_db_id = Some id /\ db !! id = Some row
       /\ db' = <[id := row']> db
       /\ tr_exit_price row' = Some exit_price
       /\ tr_pnl row'
          = Some (signed_move (tr_side row) (tr_entry_price row) exit_price
                  * inject_Z (default (default (tr_quantity row)
                                               (u_quantity updates))
                                      (u_exit_qty updates)))%Q
       /\ ((0 < tr_entry_price row)%Q ->
           exists pct,
             tr_pnl_percent row' = Some pct
             /\ (pct == signed_move (tr_side row) (tr_entry_price row) exit_price
                        / tr_entry_price row * 100)%Q).
Proof.
  intros Hx. unfold update_trade_in_db.
  destruct trade_db_id as [id|]; [|discriminate].
  destruct user_id as [uid|]; [|discriminate].
  destruct (negb (truthyZ id) || negb (truthyZ uid)); [discriminate|].
  destruct (db !! id) as [row|] eqn:Erow; [|discriminate].
  destruct (negb (tr_user_id row =? uid)); [discriminate|].
  cbv zeta. cbn [with_pnl u_exit_price u_exit_qty u_quantity]. rewrite Hx.
  cbn [set_attributes tr_side tr_entry_price tr_quantity tr_user_id
       tr_exit_price tr_exit_time tr_stoploss_price tr_status tr_pnl_percent
       u_quantity u_exit_price u_exit_qty u_exit_time u_stoploss_price
       u_status with_pnl].
  set (qty := default (tr_quantity row) (u_quantity updates)).
  assert (Eq : (if bool_decide (is_Some (Some exit_price))
                   && negb (bool_decide (is_Some (u_exit_qty updates)))
                then qty else default qty (u_exit_qty updates))
               = default qty (u_exit_qty updates)).
  { destruct (u_exit_qty updates); reflexivity. }
  rewrite Eq. clear Eq.
  set (exit_qty := default qty (u_exit_qty updates)).
  assert (Hpnl : match tr_side row with
                 | BUY => ((exit_price - tr_entry_price row) * inject_Z exit_qty)%Q
                 | SELL => ((tr_entry_price row - exit_price) * inject_Z exit_qty)%Q
                 end
                 = (signed_move (tr_side row) (tr_entry_price row) exit_price
                    * inject_Z exit_qty)%Q)
    by (destruct (tr_side row); reflexivity).
  rewrite Hpnl. clear Hpnl.
  destruct (Qltb 0 (tr_entry_price row)) eqn:Ep.
  - destruct (exit_qty =? 0) eqn:E0; [discriminate|].
    intros H. injection H as <-. split; [reflexivity|].
    eexists id, row, _. split; [reflexivity|]. split; [exact Erow|].
    split; [reflexivity|].
    split; [cbn [tr_exit_price]; rewrite Hx; reflexivity|].
    split; [reflexivity|].
    intros Hpos. eexists. split; [reflexivity|].
    apply Z.eqb_neq in E0.
    assert (Hq : ~ (inject_Z exit_qty == 0)%Q).
    { intros E. apply E0. unfold Qeq in E. simpl in E. lia. }
    assert (He : ~ (tr_entry_price row == 0)%Q)
      by (intros E; rewrite E in Hpos; discriminate).
    field. split; assumption.
  - intros H. injection H as <-. split; [reflexivity|].
    eexists id, row, _. split; [reflexivity|]. split; [exact Erow|].
    split; [reflexivity|].
    split; [cbn [tr_exit_price]; rewrite Hx; reflexivity|].
    split; [reflexivity|].
    intros Hpos. apply Qltb_ge in Ep. exfalso. lra.
Qed.

Lemma update_overwrites_pnl_witness :
  update_trade_in_db (Some 7) StoreScenario.open_trades 0 (Some 1)
    (with_pnl StoreScenario.final_exit (Some 0%Q))
  = Committed StoreScenario.closed_trades.
Proof.
  refine (proj1 (update_overwrites_pnl (Some 7) StoreScenario.open_trades 0
                   (Some 1) StoreScenario.final_exit 104
                   StoreScenario.closed_trades _ _) (Some 0%Q)).
  - reflexivity.
  - vm_compute. reflexivity.
Defined.

End TradeStoreFacts.

(** ** Signals and the opening range *)

Module RangeFacts.
Import PyFacts SignalEvaluator SignalFacts SignalMore MarketData MarketFacts Session.
Local Open Scope Z_scope.

Lemma scan_symbol_keeps_trigger cfg env w pending symbol data feed state :
  (forall st, pending !! symbol = Some st ->
              r_trigger st = trigger_of data (r_side st)) ->
  fst (scan_symbol cfg env w pending symbol data feed) !! symbol = Some state ->
  r_trigger state = trigger_of data (r_side state).
Proof.
  intros Hp. unfold scan_symbol.
  destruct (_ >=? _); [apply Hp|].
  destruct (f_candle feed) as [c|]; [|apply Hp].
  destruct (if USE_RETEST_ENTRY cfg then pending !! symbol else None)
    as [st|] eqn:Est.
  - assert (Hst : pending !! symbol = Some st)
      by (destruct (USE_RETEST_ENTRY cfg); [exact Est | discriminate]).
    specialize (Hp st Hst) as Ht.
    unfold retest_chain.
    destruct (bool_decide _); [apply Hp|].
    repeat match goal with
           | |- context [if ?b then _ else _] => destruct b
           end; simpl; rewrite ?lookup_delete_eq, ?lookup_insert_eq;
      try discriminate; intros E; injection E as <-; exact Ht.
  - assert (Hb : forall side vc,
              fst (breakout_chain cfg env w pending symbol side
                     (trigger_of data side) c vc feed) !! symbol = Some state ->
              r_trigger state = trigger_of data (r_side state)).
    { intros side vc. unfold breakout_chain.
      repeat match goal with
             | |- context [if ?b then _ else _] => destruct b
             end; simpl; try apply Hp.
      rewrite lookup_insert_eq. intros E; injection E as <-. reflexivity. }
    destruct (_ && _); [apply (Hb BUY)|].
    destruct (_ && _); [apply (Hb SELL) | apply Hp].
Qed.

Lemma session_pending_triggers cfg symbols_data pending :
  session_pending cfg symbols_data pending ->
  forall symbol st,
    pending !! symbol = Some st ->
    exists data,
      symbols_data !! symbol = Some data
      /\ r_trigger st = trigger_of data (r_side st).
Proof.
  induction 1 as [|env w pending symbol data feed _ IH Hd]; intros sym st.
  - rewrite lookup_empty. discriminate.
  - destruct (decide (sym = symbol)) as [->|Hne].
    + intros H. exists data. split; [exact Hd|].
      apply (scan_symbol_keeps_trigger cfg env w pending symbol data feed); [|exact H].
      intros st0 H0. destruct (IH _ _ H0) as (d & Hd' & Ht).
      rewrite Hd in Hd'. injection Hd' as <-. exact Ht.
    + rewrite scan_symbol_other by exact Hne. apply IH.
Qed.

Lemma signal_beyond_trigger cfg env w pending symbol data feed side price :
  (forall st, pending !! symbol = Some st ->
              r_trigger st = trigger_of data (r_side st)) ->
  snd (scan_symbol cfg env w pending symbol data feed) = Signal side price ->
  match side with
  | BUY => (sd_long_trigger data < price)%Q
  | SELL => (price < sd_short_trigger data)%Q
  end.
Proof.
  intros Hp. unfold scan_symbol. destruct (_ >=? _); [discriminate|].
  destruct (f_candle feed) as [c|]; [|discriminate].
  destruct (if USE_RETEST_ENTRY cfg then pending !! symbol else None)
    as [st|] eqn:Est.
  - assert (Hst : pending !! symbol = Some st)
      by (destruct (USE_RETEST_ENTRY cfg); [exact Est | discriminate]).
    specialize (Hp st Hst).
    intros H. apply retest_signal_shape in H as (-> & -> & _ & Hside).
    unfold trigger_of in Hp.
    destruct (r_side st); destruct Hside as [Ht _]; rewrite <- Hp; exact Ht.
  - destruct (Qltb (sd_long_trigger data) (c_close c)
              && Qltb (sd_vwap data) (c_close c)) eqn:El.
    + intros H. apply breakout_signal_shape in H as (-> & -> & _).
      apply andb_true_iff in El as [El _]. apply Qltb_lt in El. exact El.
    + destruct (Qltb (c_close c) (sd_short_trigger data)
                && Qltb (c_close c) (sd_vwap data)) eqn:Es; [|discriminate].
      intros H. apply breakout_signal_shape in H as (-> & -> & _).
      apply andb_true_iff in Es as [Es _]. apply Qltb_lt in Es. exact Es.
Qed.

(** X25.  Every entry signal of a session closes outside the opening range.
    With a positive ATR period, ATR multiplier and fallback buffer, for the
    set-up data of the day and any pending retests the session can have
    built, a long signal on a symbol is priced strictly above that symbol's
    long trigger and so above the opening high by more than the buffer, and
    a short signal strictly below the short trigger and so below the opening
    low, whether it comes from a fresh breakout or from a retest. *)
Theorem signal_outside_opening_range
    (sc : SetupConfig) (feeds : list (string * SymbolFeed))
    (cfg : Config) (env : Env) (w : Window) (pending : gmap string Retest)
    (symbol : string) (s : Setup) (feed : Feed) (side : Side) (price : Q) :
  0 < ATR_PERIOD sc -> (0 < ATR_MULTIPLIER sc)%Q -> (0 < BUFFER_AMOUNT sc)%Q ->
  session_pending cfg (symbol_data <$> get_symbols_setup_data sc true feeds)
    pending ->
  get_symbols_setup_data sc true feeds !! symbol = Some s ->
  snd (scan_symbol cfg env w pending symbol (symbol_data s) feed)
    = Signal side price ->
  match side with
  | BUY => (s_long_trigger s < price)%Q /\ (s_high s + s_buffer s < price)%Q
  | SELL => (price < s_short_trigger s)%Q /\ (price < s_low s - s_buffer s)%Q
  end
  /\ (0 < s_buffer s)%Q.
Proof.
  intros Hp Hm Hb Hsess Hs Hsig.
  assert (Hex : exists f, In (symbol, f) feeds
                          /\ setup_symbol sc true f = Some s).
  { revert Hs. unfold get_symbols_setup_data.
    apply (setup_fold_invariant sc true
             (fun symbol s => exists f, In (symbol, f) feeds
                                        /\ setup_symbol sc true f = Some s)).
    - intros sym s'. rewrite lookup_empty. discriminate.
    - intros sym f s' Hi Hs'. exists f. split; assumption. }
  destruct Hex as (f & _ & Hset).
  pose proof (setup_symbol_valid sc true f s Hp Hm Hb Hset)
    as (_ & _ & _ & Hbuf & _).
  assert (Htr : s_long_trigger s = (s_high s + s_buffer s)%Q
                /\ s_short_trigger s = (s_low s - s_buffer s)%Q).
  { revert Hset. unfold setup_symbol. cbn [negb].
    destruct (sf_token f) as [token|]; [|discriminate].
    destruct (negb (truthyZ token)); [discriminate|].
    destruct (get_first_candle _) as [[[[o h] l] c]|]; [|discriminate].
    destruct (MarketData.calculate_vwap _) as [vwap|]; [|discriminate].
    destruct (_ && negb _); [discriminate|].
    intros E. injection E as <-. split; reflexivity. }
  destruct Htr as [Hlong Hshort].
  assert (Hinv : forall st, pending !! symbol = Some st ->
                            r_trigger st = trigger_of (symbol_data s) (r_side st)).
  { intros st Hst.
    destruct (session_pending_triggers _ _ _ Hsess _ _ Hst) as (d & Hd & Ht).
    rewrite lookup_fmap, Hs in Hd. injection Hd as <-. exact Ht. }
  pose proof (signal_beyond_trigger cfg env w pending symbol (symbol_data s)
                feed side price Hinv Hsig) as H.
  split; [|exact Hbuf].
  destruct side; cbn [symbol_data sd_long_trigger sd_short_trigger] in H.
  - split; [exact H | rewrite <- Hlong; exact H].
  - split; [exact H | rewrite <- Hshort; exact H].
Qed.

Lemma signal_outside_opening_range_witness :
  match get_symbols_setup_data setup_config true
          [("TATASTEEL"%string, SetupScenario.opening_feed)]
        !! "TATASTEEL"%string with
  | Some s => (s_long_trigger s < 102)%Q /\ (s_high s + s_buffer s < 102)%Q
  | None => False
  end.
Proof.
  destruct (get_symbols_setup_data setup_config true
              [("TATASTEEL"%string, SetupScenario.opening_feed)]
            !! "TATASTEEL"%string) as [s|] eqn:E.
  - refine (proj1 (signal_outside_opening_range setup_config
                     [("TATASTEEL"%string, SetupScenario.opening_feed)]
                     EntryScenario.config_without_retest
                     EntryScenario.calm_market PRIMARY ∅ "TATASTEEL" s
                     SetupScenario.clearing_feed BUY 102
                     eq_refl eq_refl eq_refl (sp_empty _ _) E _)).
    vm_compute in E. injection E as <-. vm_compute. reflexivity.
  - vm_compute in E. discriminate.
Defined.

End RangeFacts.


(** ** The index bias after its refresh *)

Module IndexFacts.
Import PyFacts SignalEvaluator IndexTrend.
Local Open Scope Z_scope.

Lemma check_nifty_trend_strength cfg strength quote candles bias strength' :
  check_nifty_trend cfg strength quote candles = (bias, strength') ->
  bias <> NEUTRAL ->
  (NIFTY_STRONG_THRESHOLD_PCT cfg <= strength')%Q
  /\ exists price, quote <> None
                   /\ price = default 0%Q (from_option nq_last_price None quote)
                   /\ (0 < price)%Q.
Proof.
  unfold check_nifty_trend. destruct quote as [q|].
  2:{ intros E Hn. injection E as <- _. contradiction. }
  cbv zeta.
  destruct (Qle_bool (default 0%Q (nq_last_price q)) 0) eqn:Ep.
  { intros E Hn. injection E as <- _. contradiction. }
  apply Qle_bool_gt in Ep.
  match goal with
  | |- context [Qltb ?s (NIFTY_STRONG_THRESHOLD_PCT cfg)] =>
      destruct (Qltb s (NIFTY_STRONG_THRESHOLD_PCT cfg)) eqn:Es
  end.
  { intros E Hn. injection E as <- _. contradiction. }
  apply Qltb_ge in Es.
  destruct (Qltb _ _); intros E _; injection E as _ <-;
    (split; [exact Es|]); eexists; (split; [discriminate|]);
    (split; [reflexivity | exact Ep]).
Qed.

(** X27.  After the bias refresh at the start of the entry search, a
    directional bias is always a strong one: [LONG] or [SHORT] is set only
    for a positive index price whose distance from the index VWAP is at
    least [NIFTY_STRONG_THRESHOLD_PCT], and a missing quote or a
    non-positive price gives [NEUTRAL].  So with the soft filter the
    strength test of [is_nifty_bias_blocking] never decides: longs are
    blocked exactly under a [SHORT] bias and shorts exactly under a [LONG]
    bias. *)
Theorem refreshed_bias_blocks_opposite_side
    (cfg : Config) (env : Env) (nifty_quote : option NiftyQuote)
    (candles : list Candle) :
  USE_NIFTY_FILTER cfg = true -> USE_NIFTY_SOFT_BIAS cfg = true ->
  let env' := refresh_nifty_bias cfg env nifty_quote candles in
  (is_nifty_bias_blocking cfg env' BUY = true <-> e_nifty_bias env' = SHORT)
  /\ (is_nifty_bias_blocking cfg env' SELL = true <-> e_nifty_bias env' = LONG)
  /\ (e_nifty_bias env' <> NEUTRAL ->
      (NIFTY_STRONG_THRESHOLD_PCT cfg <= e_nifty_strength_pct env')%Q
      /\ exists q, nifty_quote = Some q
                   /\ (0 < default 0%Q (nq_last_price q))%Q).
Proof.
  intros Hf Hs. cbv zeta. unfold refresh_nifty_bias.
  destruct (check_nifty_trend cfg (e_nifty_strength_pct env) nifty_quote candles)
    as [bias strength] eqn:E.
  pose proof (check_nifty_trend_strength cfg _ _ _ _ _ E) as Hstrong.
  unfold is_nifty_bias_blocking. rewrite Hf, Hs.
  cbn [negb e_nifty_bias e_nifty_strength_pct].
  assert (Hthr : bias <> NEUTRAL ->
                 Qltb strength (NIFTY_STRONG_THRESHOLD_PCT cfg) = false).
  { intros Hn. apply Qltb_ge. apply (proj1 (Hstrong Hn)). }
  split; [|split].
  - destruct bias; try rewrite (Hthr ltac:(discriminate));
      split; try discriminate; reflexivity.
  - destruct bias; try rewrite (Hthr ltac:(discriminate));
      split; try discriminate; reflexivity.
  - intros Hn. destruct (Hstrong Hn) as (Ht & price & Hq & Hprice & Hpos).
    split; [exact Ht|].
    destruct nifty_quote as [q|]; [|contradiction].
    exists q. split; [reflexivity|]. subst price. exact Hpos.
Qed.

Lemma refreshed_bias_blocks_opposite_side_witness :
  is_nifty_bias_blocking config
    (refresh_nifty_bias config EntryScenario.calm_market
       (Some {| nq_last_price := Some (24000 : Q); nq_open := Some (24100 : Q) |})
       []) BUY = true.
Proof.
  refine (proj2 (proj1 (refreshed_bias_blocks_opposite_side config
                          EntryScenario.calm_market
                          (Some {| nq_last_price := Some (24000 : Q);
                                   nq_open := Some (24100 : Q) |})
                          [] _ _)) _).
  - reflexivity.
  - reflexivity.
  - vm_compute. reflexivity.
Defined.

End IndexFacts.
